(** * Yahtzee over the network: dice, scorecard, player game, room and the
      server's command handler, embedded from the Python sources
      (dice.py, scorecard.py, game.py, gamestate.py, server.py).

    Python objects are mutable; every method is a function from the object's
    state to its new state together with a [result] that is either the value
    returned or the exception raised.  A raise keeps the mutations made
    before it, as in Python. *)

From stdpp Require Import base gmap strings list fin_maps pretty.
From Stdlib Require Import ZArith Lia.

Open Scope Z_scope.

(** ** Exceptions and results *)

(** The [raise] statements of the sources, one constructor per message, and
    the built-in exceptions of the dict and list accesses. *)
Inductive exn : Type :=
  | NoRollsRemaining               (* ValueError("No rolls remaining this turn") *)
  | KeepLength                     (* ValueError("keep_dice must have exactly 5 boolean values") *)
  | DiceIndexOutOfRange (index : Z)(* ValueError(f"Dice index {index} out of range (0-4)") *)
  | NotFiveDice                    (* ValueError("Must have exactly 5 dice") *)
  | GameAlreadyComplete            (* ValueError("Game is already complete") *)
  | EmptyMax                       (* ValueError of max() on an empty sequence *)
  | KeyError (key : string)
  | IndexError
  | ZeroDivisionError.

Inductive result (A : Type) : Type :=
  | Ok (a : A)
  | Raise (e : exn).
Arguments Ok {A} a.
Arguments Raise {A} e.

(** ** Methods as state transformers that may raise *)

Definition M (S A : Type) : Type := S → S * result A.

#[export] Instance M_ret {S} : MRet (M S) := λ A a s, (s, Ok a).
#[export] Instance M_bind {S} : MBind (M S) := λ A B f m s,
  match m s with
  | (s', Ok a) => f a s'
  | (s', Raise e) => (s', Raise e)
  end.

Definition raise {S A} (e : exn) : M S A := λ s, (s, Raise e).
Definition gets {S A} (f : S → A) : M S A := λ s, (s, Ok (f s)).
Definition modify {S} (f : S → S) : M S () := λ s, (f s, Ok ()).
Definition lift {S A} (r : result A) : M S A := λ s, (s, r).

(** Run a method of a sub-object (read by [getter], written back by
    [setter]) inside a method of the object that owns it. *)
Definition zoom {S T A} (getter : S → T) (setter : T → S → S) (m : M T A) : M S A :=
  λ s, let '(t, r) := m (getter s) in (setter t s, r).

(** [for x in xs: body x] *)
Fixpoint for_each {S X} (xs : list X) (body : X → M S ()) : M S () :=
  match xs with
  | [] => mret ()
  | x :: xs' => _ ← body x; for_each xs' body
  end.

(** ** The process-wide random source

    [random.randint(lo, hi)] draws from a stream that the caller supplies;
    whatever the stream holds, the value returned lies in [lo, hi]. *)
Record Rng : Type := { draws : nat → Z; cursor : nat }.

Definition randint (lo hi : Z) (g : Rng) : Z * Rng :=
  (lo + draws g (cursor g) `mod` (hi - lo + 1),
   {| draws := draws g; cursor := S (cursor g) |}).

(** A random source for concrete runs: the draws count up from [n]. *)
Definition rng_from (n : nat) : Rng := {| draws := Z.of_nat; cursor := n |}.

(** ** Built-ins on lists of integers *)

(** [l.count(x)] *)
Fixpoint count (x : Z) (l : list Z) : Z :=
  match l with
  | [] => 0
  | y :: l' => (if decide (y = x) then 1 else 0) + count x l'
  end.

(** [sum(l)] *)
Fixpoint sum (l : list Z) : Z :=
  match l with
  | [] => 0
  | y :: l' => y + sum l'
  end.

(** [max(l)] *)
Definition max (l : list Z) : result Z :=
  match l with
  | [] => Raise EmptyMax
  | y :: l' => Ok (foldl Z.max y l')
  end.

(** [range(lo, hi)] *)
Definition range (lo hi : Z) : list Z :=
  (λ i : nat, lo + Z.of_nat i) <$> seq 0 (Z.to_nat (hi - lo)).

(** ** dice.py *)
Module Dice.

Record YahtzeeDice : Type := {
  dice : list Z;
  rolls_remaining : Z
}.

(** The state a dice method runs in: the object and the random source. *)
Definition St : Type := YahtzeeDice * Rng.

Definition set_dice (d : list Z) (self : YahtzeeDice) : YahtzeeDice :=
  {| dice := d; rolls_remaining := rolls_remaining self |}.
Definition set_rolls_remaining (n : Z) (self : YahtzeeDice) : YahtzeeDice :=
  {| dice := dice self; rolls_remaining := n |}.

(** [__init__] *)
Definition init : YahtzeeDice :=
  {| dice := [1; 1; 1; 1; 1]; rolls_remaining := 3 |}.

(** [self.dice[i] = random.randint(1, 6)]: the right-hand side is evaluated
    first, then the store, which raises IndexError past the end. *)
Definition reroll (i : nat) : M St () := λ '(self, g),
  let '(v, g') := randint 1 6 g in
  if decide (i < length (dice self))%nat
  then ((set_dice (<[i := v]> (dice self)) self, g'), Ok ())
  else ((self, g'), Raise IndexError).

Definition decrement : M St () :=
  modify (λ '(self, g), (set_rolls_remaining (rolls_remaining self - 1) self, g)).

(** [get_dice]: [self.dice.copy()] *)
Definition get_dice : M St (list Z) := gets (λ s, dice s.1).

Definition roll_all : M St (list Z) := λ s,
  if decide (rolls_remaining s.1 ≤ 0) then raise NoRollsRemaining s
  else (_ ← for_each (seq 0 5) reroll;
        _ ← decrement;
        get_dice) s.

Definition roll_with_keep (keep_dice : list bool) : M St (list Z) := λ s,
  if decide (length keep_dice ≠ 5%nat) then raise KeepLength s
  else if decide (rolls_remaining s.1 ≤ 0) then raise NoRollsRemaining s
  else (_ ← for_each (seq 0 5) (λ i,
               if negb (keep_dice !!! i) then reroll i else mret ());
        _ ← decrement;
        get_dice) s.

Definition roll_specific (dice_indices : list Z) : M St (list Z) := λ s,
  if decide (rolls_remaining s.1 ≤ 0) then raise NoRollsRemaining s
  else (_ ← for_each dice_indices (λ index,
               if negb (bool_decide (0 ≤ index ≤ 4))
               then raise (DiceIndexOutOfRange index)
               else reroll (Z.to_nat index));
        _ ← decrement;
        get_dice) s.

Definition get_rolls_remaining : M St Z := gets (λ s, rolls_remaining s.1).

Definition can_roll : M St bool := gets (λ s, bool_decide (rolls_remaining s.1 > 0)).

Definition start_new_turn : M St () :=
  modify (λ '(self, g), (set_rolls_remaining 3 self, g)).

(** [get_dice_summary]: the dict it returns, one field per key. *)
Record Summary : Type := {
  summary_dice : list Z;
  summary_rolls_remaining : Z;
  summary_counts : gmap Z Z;
  summary_sum : Z
}.

Definition get_dice_summary : M St Summary := gets (λ s,
  let counts : gmap Z Z :=
    foldl (λ counts value, <[value := count value (dice s.1)]> counts) ∅ (range 1 7) in
  {| summary_dice := dice s.1;
     summary_rolls_remaining := rolls_remaining s.1;
     summary_counts := counts;
     summary_sum := sum (dice s.1) |}).

(** The mutating methods, to state what holds after any sequence of calls;
    [call] is the object and random source a call leaves behind, whether it
    returned or raised. *)
Inductive Op : Type :=
  | RollAll
  | RollWithKeep (keep_dice : list bool)
  | RollSpecific (dice_indices : list Z)
  | StartNewTurn.

Definition call (op : Op) (s : St) : St :=
  match op with
  | RollAll => (roll_all s).1
  | RollWithKeep keep_dice => (roll_with_keep keep_dice s).1
  | RollSpecific dice_indices => (roll_specific dice_indices s).1
  | StartNewTurn => (start_new_turn s).1
  end.

Definition calls (ops : list Op) (s : St) : St := foldl (λ s op, call op s) s ops.

(** Five faces, each between 1 and 6. *)
Definition faces_ok (l : list Z) : Prop :=
  length l = 5%nat ∧ Forall (λ f, 1 ≤ f ≤ 6) l.

End Dice.

(** ** scorecard.py *)
Module Scorecard.

Record YahtzeeScorecard : Type := {
  upper_scores : gmap string (option Z);
  lower_scores : gmap string (option Z);
  yahtzee_bonus_count : Z
}.

Definition set_upper_scores (m : gmap string (option Z)) (self : YahtzeeScorecard) :=
  {| upper_scores := m; lower_scores := lower_scores self;
     yahtzee_bonus_count := yahtzee_bonus_count self |}.
Definition set_lower_scores (m : gmap string (option Z)) (self : YahtzeeScorecard) :=
  {| upper_scores := upper_scores self; lower_scores := m;
     yahtzee_bonus_count := yahtzee_bonus_count self |}.
Definition set_yahtzee_bonus_count (n : Z) (self : YahtzeeScorecard) :=
  {| upper_scores := upper_scores self; lower_scores := lower_scores self;
     yahtzee_bonus_count := n |}.

Definition upper_categories : list string :=
  ["ones"; "twos"; "threes"; "fours"; "fives"; "sixes"].
Definition lower_categories : list string :=
  ["three_of_kind"; "four_of_kind"; "full_house"; "small_straight";
   "large_straight"; "yahtzee"; "chance"].
Definition categories : list string := upper_categories ++ lower_categories.

(** [__init__]: every category present and unset. *)
Definition init : YahtzeeScorecard :=
  {| upper_scores := list_to_map ((λ c, (c, None)) <$> upper_categories);
     lower_scores := list_to_map ((λ c, (c, None)) <$> lower_categories);
     yahtzee_bonus_count := 0 |}.

(** [get_all_scores]: [update(upper)] then [update(lower)], so an entry of
    the lower section wins over one of the upper section. *)
Definition get_all_scores (self : YahtzeeScorecard) : gmap string (option Z) :=
  lower_scores self ∪ upper_scores self.

(** [category in all_scores and all_scores[category] is None] *)
Definition is_category_available (self : YahtzeeScorecard) (category : string) : bool :=
  bool_decide (get_all_scores self !! category = Some None).

(** [if self.is_category_available(category): possible_scores[category] = v] *)
Definition offer (self : YahtzeeScorecard) (category : string) (v : Z)
    (possible_scores : gmap string Z) : gmap string Z :=
  if is_category_available self category
  then <[category := v]> possible_scores
  else possible_scores.

(** The local conditions of [calculate_possible_scores], as functions of
    [counts] (with the leading 0 of the source) and of the dice. *)
Definition has_three_of_kind (counts : list Z) : bool :=
  existsb (λ count, bool_decide (count >= 3)) (tail counts).
Definition has_four_of_kind (counts : list Z) : bool :=
  existsb (λ count, bool_decide (count >= 4)) (tail counts).
Definition valid_full_house (counts : list Z) : bool :=
  let counts_only := tail counts in
  let has_three := bool_decide (3 ∈ counts_only) in
  let has_two := bool_decide (2 ∈ counts_only) in
  has_three && has_two && bool_decide (count 3 counts_only = 1).
Definition has_small_straight (dice : list Z) : bool :=
  let unique_dice : gset Z := list_to_set dice in
  let small_straights : list (gset Z) :=
    [{[1; 2; 3; 4]}; {[2; 3; 4; 5]}; {[3; 4; 5; 6]}] in
  existsb (λ straight, bool_decide (straight ⊆ unique_dice)) small_straights.
Definition has_large_straight (dice : list Z) : bool :=
  let unique_dice : gset Z := list_to_set dice in
  let large_straights : list (gset Z) := [{[1; 2; 3; 4; 5]}; {[2; 3; 4; 5; 6]}] in
  existsb (λ straight, bool_decide (straight = unique_dice)) large_straights.
Definition has_yahtzee (counts : list Z) : bool :=
  existsb (λ count, bool_decide (count = 5)) (tail counts).

(** [[0] + [dice.count(i) for i in range(1, 7)]] *)
Definition counts (dice : list Z) : list Z :=
  0 :: ((λ i, count i dice) <$> range 1 7).

Definition calculate_possible_scores (self : YahtzeeScorecard) (dice : list Z)
    : result (gmap string Z) :=
  if decide (length dice ≠ 5%nat) then Raise NotFiveDice else
  let counts := counts dice in
  let dice_sum := sum dice in
  let possible_scores : gmap string Z := ∅ in
  let possible_scores :=
    foldl (λ possible_scores value,
             let category :=
               ["" ; "ones"; "twos"; "threes"; "fours"; "fives"; "sixes"]
                 !!! Z.to_nat value in
             offer self category (value * (counts !!! Z.to_nat value)) possible_scores)
          possible_scores (range 1 7) in
  let possible_scores :=
    offer self "three_of_kind" (if has_three_of_kind counts then dice_sum else 0)
      possible_scores in
  let possible_scores :=
    offer self "four_of_kind" (if has_four_of_kind counts then dice_sum else 0)
      possible_scores in
  let possible_scores :=
    offer self "full_house" (if valid_full_house counts then 25 else 0)
      possible_scores in
  let possible_scores :=
    offer self "small_straight" (if has_small_straight dice then 30 else 0)
      possible_scores in
  let possible_scores :=
    offer self "large_straight" (if has_large_straight dice then 40 else 0)
      possible_scores in
  let possible_scores :=
    offer self "yahtzee" (if has_yahtzee counts then 50 else 0) possible_scores in
  let possible_scores := offer self "chance" dice_sum possible_scores in
  Ok possible_scores.

(** [max(counts) == 5] for [counts = [dice.count(i) for i in range(1, 7)]] *)
Definition max_count_is_5 (dice : list Z) : result bool :=
  match max ((λ i, count i dice) <$> range 1 7) with
  | Raise e => Raise e
  | Ok m => Ok (bool_decide (m = 5))
  end.

(** [self.lower_scores['yahtzee'] == 50], a KeyError when the key is absent;
    an unset score ([None]) is not equal to 50. *)
Definition yahtzee_is_50 (self : YahtzeeScorecard) : result bool :=
  match lower_scores self !! "yahtzee" with
  | None => Raise (KeyError "yahtzee")
  | Some score => Ok (bool_decide (score = Some 50))
  end.

(** [if category in self.upper_scores: self.upper_scores[category] = v
     else: self.lower_scores[category] = v] *)
Definition store (category : string) (v : Z) (self : YahtzeeScorecard) : YahtzeeScorecard :=
  if bool_decide (is_Some (upper_scores self !! category))
  then set_upper_scores (<[category := Some v]> (upper_scores self)) self
  else set_lower_scores (<[category := Some v]> (lower_scores self)) self.

Definition score_category (category : string) (dice : list Z) : M YahtzeeScorecard bool :=
  λ self,
  if negb (is_category_available self category) then (self, Ok false) else
  match calculate_possible_scores self dice with
  | Raise e => (self, Raise e)
  | Ok possible_scores =>
    match possible_scores !! category with
    | None => (self, Ok false)
    | Some v =>
      (* Score the category *)
      let self := store category v self in
      (* Check for Yahtzee bonus *)
      if bool_decide (category ≠ "yahtzee") then
        match max_count_is_5 dice with
        | Raise e => (self, Raise e)
        | Ok true =>
          match yahtzee_is_50 self with
          | Raise e => (self, Raise e)
          | Ok true =>
            (set_yahtzee_bonus_count (yahtzee_bonus_count self + 1) self, Ok true)
          | Ok false => (self, Ok true)
          end
        | Ok false => (self, Ok true)
        end
      else (self, Ok true)
    end
  end.

(** [sum(score for score in scores.values() if score is not None)] *)
Definition total_of (scores : gmap string (option Z)) : Z :=
  map_fold (λ _ score acc, match score with Some v => acc + v | None => acc end) 0 scores.

Definition calculate_upper_total (self : YahtzeeScorecard) : Z :=
  total_of (upper_scores self).
Definition calculate_upper_bonus (self : YahtzeeScorecard) : Z :=
  if bool_decide (calculate_upper_total self >= 63) then 35 else 0.
Definition calculate_lower_total (self : YahtzeeScorecard) : Z :=
  total_of (lower_scores self).
Definition calculate_yahtzee_bonus (self : YahtzeeScorecard) : Z :=
  yahtzee_bonus_count self * 100.
Definition calculate_grand_total (self : YahtzeeScorecard) : Z :=
  calculate_upper_total self + calculate_upper_bonus self +
  calculate_lower_total self + calculate_yahtzee_bonus self.

(** [all(score is not None for score in all_scores.values())] *)
Definition is_complete (self : YahtzeeScorecard) : bool :=
  bool_decide (map_Forall (λ _ score, score ≠ None) (get_all_scores self)).

(** A scorecard for concrete runs: yahtzee committed with [[5,5,5,5,5]]. *)
Definition yahtzee_scored : YahtzeeScorecard :=
  (score_category "yahtzee" [5; 5; 5; 5; 5] init).1.

(** The scorecard after a sequence of [score_category] calls, whatever each
    returned. *)
Definition commits (l : list (string * list Z)) (self : YahtzeeScorecard) : YahtzeeScorecard :=
  foldl (λ self cd, (score_category cd.1 cd.2 self).1) self l.

(** The shape [__init__] gives the two dicts, kept by every method. *)
Definition wf (self : YahtzeeScorecard) : Prop :=
  dom (upper_scores self) = list_to_set upper_categories ∧
  dom (lower_scores self) = list_to_set lower_categories.

(** How many of the 13 categories hold a score. *)
Definition scored (self : YahtzeeScorecard) : nat :=
  length (filter (λ c, is_category_available self c = false) categories).

End Scorecard.

(** ** game.py *)
Module Game.

Record YahtzeeGame : Type := {
  player_name : string;
  scorecard : Scorecard.YahtzeeScorecard;
  dice : Dice.YahtzeeDice;
  current_turn : Z;
  max_turns : Z;
  game_complete : bool
}.

(** The state a game method runs in: the object and the random source. *)
Definition St : Type := YahtzeeGame * Rng.

Definition set_scorecard (sc : Scorecard.YahtzeeScorecard) (self : YahtzeeGame) :=
  {| player_name := player_name self; scorecard := sc; dice := dice self;
     current_turn := current_turn self; max_turns := max_turns self;
     game_complete := game_complete self |}.
Definition set_dice (d : Dice.YahtzeeDice) (self : YahtzeeGame) :=
  {| player_name := player_name self; scorecard := scorecard self; dice := d;
     current_turn := current_turn self; max_turns := max_turns self;
     game_complete := game_complete self |}.
Definition set_current_turn (n : Z) (self : YahtzeeGame) :=
  {| player_name := player_name self; scorecard := scorecard self; dice := dice self;
     current_turn := n; max_turns := max_turns self;
     game_complete := game_complete self |}.
Definition set_game_complete (b : bool) (self : YahtzeeGame) :=
  {| player_name := player_name self; scorecard := scorecard self; dice := dice self;
     current_turn := current_turn self; max_turns := max_turns self;
     game_complete := b |}.

(** [__init__] *)
Definition init (player_name : string) : YahtzeeGame :=
  {| player_name := player_name; scorecard := Scorecard.init; dice := Dice.init;
     current_turn := 1; max_turns := 13; game_complete := false |}.

(** A method of [self.dice], of [self.scorecard]. *)
Definition on_dice {A} (m : M Dice.St A) : M St A :=
  zoom (λ s, (dice s.1, s.2)) (λ t s, (set_dice t.1 s.1, t.2)) m.
Definition on_scorecard {A} (m : M Scorecard.YahtzeeScorecard A) : M St A :=
  zoom (λ s, scorecard s.1) (λ sc s, (set_scorecard sc s.1, s.2)) m.

Definition start_new_turn : M St () := λ s,
  if game_complete s.1 then raise GameAlreadyComplete s
  else (_ ← on_dice Dice.start_new_turn;
        _ ← on_dice Dice.roll_all;
        mret ()) s.

Definition roll_dice (keep_dice : option (list bool)) : M St (list Z) := λ s,
  if game_complete s.1 then raise GameAlreadyComplete s
  else match keep_dice with
       | None => on_dice Dice.roll_all s
       | Some keep_dice => on_dice (Dice.roll_with_keep keep_dice) s
       end.

Definition get_possible_scores : M St (gmap string Z) := λ s,
  if game_complete s.1 then (s, Ok ∅)
  else (d ← on_dice Dice.get_dice;
        lift (Scorecard.calculate_possible_scores (scorecard s.1) d)) s.

Definition score_category (category : string) : M St bool := λ s,
  if game_complete s.1 then (s, Ok false)
  else (d ← on_dice Dice.get_dice;
        success ← on_scorecard (Scorecard.score_category category d);
        if success : bool then
          _ ← modify (λ s : St, (set_current_turn (current_turn s.1 + 1) s.1, s.2));
          self ← gets fst;
          _ ← (if bool_decide (current_turn self > max_turns self)
                  || Scorecard.is_complete (scorecard self)
               then modify (λ s : St, (set_game_complete true s.1, s.2))
               else start_new_turn);
          mret success
        else mret success) s.

Definition can_roll : M St bool := λ s,
  (b ← on_dice Dice.can_roll; mret (negb (game_complete s.1) && b)) s.

Definition get_current_score (self : YahtzeeGame) : Z :=
  Scorecard.calculate_grand_total (scorecard self).

Definition is_turn_complete : M St bool := λ s,
  (b ← on_dice Dice.can_roll; mret (negb b)) s.

(** The methods that change a game, to state what holds after any sequence
    of calls; [call] is the game and random source a call leaves behind,
    whether it returned or raised. *)
Inductive Op : Type :=
  | StartNewTurn
  | RollDice (keep_dice : option (list bool))
  | ScoreCategory (category : string).

Definition call (op : Op) (s : St) : St :=
  match op with
  | StartNewTurn => (start_new_turn s).1
  | RollDice keep_dice => (roll_dice keep_dice s).1
  | ScoreCategory category => (score_category category s).1
  end.

Definition calls (ops : list Op) (s : St) : St := foldl (λ s op, call op s) s ops.

(** The shape [__init__] gives a game: five dice and a scorecard with the
    13 categories. *)
Definition wf (self : YahtzeeGame) : Prop :=
  length (Dice.dice (dice self)) = 5%nat ∧ Scorecard.wf (scorecard self).

(** What a game keeps from [__init__] on: its shape, faces from 1 to 6, a
    roll budget from 0 to 3, the 13 turns, a turn counter one ahead of the
    number of categories scored, and a completion flag that is set when the
    scorecard is full. *)
Definition consistent (self : YahtzeeGame) : Prop :=
  wf self ∧
  Forall (λ f, 1 ≤ f ≤ 6) (Dice.dice (dice self)) ∧
  0 ≤ Dice.rolls_remaining (dice self) ≤ 3 ∧
  max_turns self = 13 ∧
  current_turn self = 1 + Z.of_nat (Scorecard.scored (scorecard self)) ∧
  game_complete self = Scorecard.is_complete (scorecard self).

End Game.

(** ** Insertion-ordered dicts

    [max(scores, key=...)] iterates the room's dict in insertion order, so
    the dicts of the room keep their order. *)
Module PyDict.

Abbreviation dict V := (list (string * V)) (only parsing).

(** [d[k]], [None] standing for the KeyError *)
Fixpoint getitem {V} (d : dict V) (k : string) : option V :=
  match d with
  | [] => None
  | (k', v) :: d' => if decide (k' = k) then Some v else getitem d' k
  end.

(** [d[k] = v]: an existing key keeps its place, a new one goes last. *)
Fixpoint setitem {V} (d : dict V) (k : string) (v : V) : dict V :=
  match d with
  | [] => [(k, v)]
  | (k', v') :: d' =>
      if decide (k' = k) then (k, v) :: d' else (k', v') :: setitem d' k v
  end.

Definition keys {V} (d : dict V) : list string := fst <$> d.
Definition values {V} (d : dict V) : list V := snd <$> d.

(** The rest of the iteration of [max(d, key=d.get)]: a later key replaces
    the best one only when its value is strictly greater. *)
Fixpoint max_from (best : string * Z) (items : list (string * Z)) : string :=
  match items with
  | [] => best.1
  | (k, v) :: items' =>
      if bool_decide (v > best.2) then max_from (k, v) items' else max_from best items'
  end.

(** [max(d, key=d.get)] *)
Definition max_key (d : dict Z) : result string :=
  match d with
  | [] => Raise EmptyMax
  | kv :: items => Ok (max_from kv items)
  end.

End PyDict.

(** ** gamestate.py *)
Module GameState.

Record GameState : Type := {
  room_code : string;
  players : list string;
  scores : PyDict.dict Game.YahtzeeGame;
  turn_index : Z;
  ready : bool;
  final_scores : PyDict.dict Z;
  winner : option string;
  keep : option (list bool)  (* attribute added by the server's score command *)
}.

Definition set_players (l : list string) (self : GameState) :=
  {| room_code := room_code self; players := l; scores := scores self;
     turn_index := turn_index self; ready := ready self;
     final_scores := final_scores self; winner := winner self; keep := keep self |}.
Definition set_scores (d : PyDict.dict Game.YahtzeeGame) (self : GameState) :=
  {| room_code := room_code self; players := players self; scores := d;
     turn_index := turn_index self; ready := ready self;
     final_scores := final_scores self; winner := winner self; keep := keep self |}.
Definition set_turn_index (n : Z) (self : GameState) :=
  {| room_code := room_code self; players := players self; scores := scores self;
     turn_index := n; ready := ready self;
     final_scores := final_scores self; winner := winner self; keep := keep self |}.
Definition set_ready (b : bool) (self : GameState) :=
  {| room_code := room_code self; players := players self; scores := scores self;
     turn_index := turn_index self; ready := b;
     final_scores := final_scores self; winner := winner self; keep := keep self |}.
Definition set_final_scores (d : PyDict.dict Z) (self : GameState) :=
  {| room_code := room_code self; players := players self; scores := scores self;
     turn_index := turn_index self; ready := ready self;
     final_scores := d; winner := winner self; keep := keep self |}.
Definition set_winner (w : option string) (self : GameState) :=
  {| room_code := room_code self; players := players self; scores := scores self;
     turn_index := turn_index self; ready := ready self;
     final_scores := final_scores self; winner := w; keep := keep self |}.
Definition set_keep (k : option (list bool)) (self : GameState) :=
  {| room_code := room_code self; players := players self; scores := scores self;
     turn_index := turn_index self; ready := ready self;
     final_scores := final_scores self; winner := winner self; keep := k |}.

(** [__init__] *)
Definition init (room_code : string) : GameState :=
  {| room_code := room_code; players := []; scores := []; turn_index := 0;
     ready := false; final_scores := []; winner := None; keep := None |}.

Definition is_full (self : GameState) : bool :=
  bool_decide (length (players self) = 2%nat).

(** [self.players[self.turn_index]] *)
Definition current_player (self : GameState) : result string :=
  let n := Z.of_nat (length (players self)) in
  let i := turn_index self in
  if bool_decide (- n ≤ i < n)
  then match players self !! Z.to_nat (i `mod` n) with
       | Some p => Ok p
       | None => Raise IndexError
       end
  else Raise IndexError.

Definition next_turn : M GameState () := λ self,
  if decide (length (players self) = 0%nat) then raise ZeroDivisionError self
  else modify (set_turn_index
                 ((turn_index self + 1) `mod` Z.of_nat (length (players self)))) self.

End GameState.

(** ** server.py

    The registry [rooms] maps a room code to a dict with the room's
    [GameState] under ['state'] and the sockets of its connections under
    ['clients'].  The embedding has two levels.  The first keeps the states
    only: [handle_create], [handle_join] and [handle_command] are the
    blocks the branches of [client] run under the lock, and [create] puts
    the call of [get_code()] before the first.  The second adds the
    connections: [client_command] is a command message as the loop of
    [client] handles it, with the broadcast that follows the block and,
    when the handling raises, the [finally] block that takes the connection
    out of the registry.  The pickled wire format is outside the
    embedding. *)
Module Server.

(** The ['state'] of each room in [rooms], and the random source. *)
Definition St : Type := gmap string GameState.GameState * Rng.

(** A message with [action == 'command'].  [keep] is [None] when the key is
    absent from the message, [Some None] when it holds [None]; [category]
    is [None] when the key is absent. *)
Record CommandMsg : Type := {
  room : string;
  player : string;
  command : string;
  keep : option (option (list bool));
  category : option string
}.

(** What the handler sends back to the requesting connection. *)
Inductive Response : Type :=
  | Created (code : string)
  | Joined (code : string)
  | Error (message : string)
  | Update.

(** The ['create'] branch after its first line: [room_code] is the code
    [get_code()] returned and the random source is as that call left it
    ([create] below runs the call). *)
Definition handle_create (room_code name : string) : M St Response := λ '(rooms, g),
  let room := GameState.init room_code in
  let room := GameState.set_players (GameState.players room ++ [name]) room in
  let room :=
    GameState.set_scores
      (PyDict.setitem (GameState.scores room) name (Game.init name)) room in
  ((<[room_code := room]> rooms, g), Ok (Created room_code)).

(** The ['join'] branch. *)
Definition handle_join (name room_code : string) : M St Response := λ '(rooms, g),
  match rooms !! room_code with
  | None => ((rooms, g), Ok (Error "Room full or not found"))
  | Some room =>
    if GameState.is_full room then ((rooms, g), Ok (Error "Room full or not found"))
    else
      let room := GameState.set_players (GameState.players room ++ [name]) room in
      let room :=
        GameState.set_scores
          (PyDict.setitem (GameState.scores room) name (Game.init name)) room in
      let room := GameState.set_ready true room in
      ((<[room_code := room]> rooms, g), Ok (Joined room_code))
  end.

(** A method of the game object [state.scores[player]]: the object is
    mutated in place, so its new state is what the dict holds afterwards. *)
Definition on_game {A} (player : string) (m : M Game.St A)
    : M (GameState.GameState * Rng) A := λ '(state, g),
  match PyDict.getitem (GameState.scores state) player with
  | None => ((state, g), Raise (KeyError player))
  | Some game =>
    let '((game', g'), r) := m (game, g) in
    ((GameState.set_scores
        (PyDict.setitem (GameState.scores state) player game') state, g'), r)
  end.

(** A method of the room object. *)
Definition on_state {A} (m : M GameState.GameState A)
    : M (GameState.GameState * Rng) A :=
  zoom fst (λ state s, (state, s.2)) m.

(** [{p: g.get_current_score() for p, g in state.scores.items()}] *)
Definition current_scores (state : GameState.GameState) : PyDict.dict Z :=
  foldl (λ scores '(p, g), PyDict.setitem scores p (Game.get_current_score g))
        [] (GameState.scores state).

(** [all(gm.game_complete for gm in state.scores.values())] *)
Definition all_done (state : GameState.GameState) : bool :=
  forallb Game.game_complete (PyDict.values (GameState.scores state)).

(** The rest of the ['score'] branch, after [game.score_category(...)]. *)
Definition after_score : M GameState.GameState () :=
  (* Reset dice lock state and move to next player's turn *)
  _ ← modify (GameState.set_keep (Some (replicate 5 false)));
  _ ← GameState.next_turn;
  (* Check if all players are done *)
  state ← gets id;
  if all_done state then
    let scores := current_scores state in
    winner ← lift (PyDict.max_key scores);
    _ ← modify (GameState.set_winner (Some winner));
    modify (GameState.set_final_scores scores)
  else mret ().

(** The ['command'] branch, inside the room [rooms[room_code]['state']]. *)
Definition command_in_room (msg : CommandMsg) : M (GameState.GameState * Rng) () :=
  λ s,
  match PyDict.getitem (GameState.scores s.1) (player msg) with
  | None => raise (KeyError (player msg)) s
  | Some _ =>
    if decide (command msg = "roll") then
      (_ ← on_game (player msg)
             (Game.roll_dice (default (Some (replicate 5 false)) (keep msg)));
       mret ()) s
    else if decide (command msg = "score") then
      match category msg with
      | None => raise (KeyError "category") s
      | Some category =>
        (_ ← on_game (player msg) (Game.score_category category);
         on_state after_score) s
      end
    else (s, Ok ())
  end.

(** The ['command'] branch under the lock, on the states of the rooms. *)
Definition handle_command (msg : CommandMsg) : M St Response := λ '(rooms, g),
  match rooms !! room msg with
  | None => ((rooms, g), Raise (KeyError (room msg)))
  | Some state =>
    let '((state', g'), r) := command_in_room msg (state, g) in
    ((<[room msg := state']> rooms, g'),
     match r with Ok _ => Ok Update | Raise e => Raise e end)
  end.

(** The requests a connection sends. *)
Inductive Request : Type :=
  | Create (room_code name : string)
  | Join (name code : string)
  | Command (msg : CommandMsg).

Definition handle (req : Request) : M St Response :=
  match req with
  | Create room_code name => handle_create room_code name
  | Join name code => handle_join name code
  | Command msg => handle_command msg
  end.

(** The blocks of a sequence of requests, applied in turn to the states of
    the rooms.  What the threads do to the registry besides is not part of
    it: the draws of [get_code()] before a create ([create]), and the
    removal of a connection that ended, with the deletion of a room left
    without one ([cleanup], [client_command]). *)
Definition run (reqs : list Request) (s : St) : St :=
  foldl (λ s req, (handle req s).1) s reqs.

(** [str(n)] of an integer: its decimal digits. *)
Definition str (n : Z) : string := pretty n.

(** [get_code()]: codes are drawn until one names no room.  The loop need
    not end; [fuel] bounds the number of draws, and the result is [None]
    when every one of them named a room in use. *)
Fixpoint get_code {V} (fuel : nat) (rooms : gmap string V) (g : Rng)
    : option (string * Rng) :=
  match fuel with
  | O => None
  | S fuel =>
      let '(n, g') := randint 1000 9999 g in
      let code := str n in
      if decide (rooms !! code = None) then Some (code, g')
      else get_code fuel rooms g'
  end.

(** The ['create'] branch with its call of [get_code()]. *)
Definition create (fuel : nat) (name : string) : St → option (St * result Response) :=
  λ '(rooms, g),
  match get_code fuel rooms g with
  | Some (room_code, g') => Some (handle_create room_code name (rooms, g'))
  | None => None
  end.

(** *** Connections

    A connection is the socket [conn] of one run of [client]; [rooms[code]]
    holds the sockets of the room next to its state. *)
Definition Conn : Type := nat.

Record RoomData : Type := {
  clients : list Conn;
  state : GameState.GameState
}.

(** [rooms] and the random source. *)
Definition Net : Type := gmap string RoomData * Rng.

(** [l.remove(x)]: the first occurrence of [x] goes.  Both callers remove
    an element that the list has. *)
Fixpoint list_remove (x : Conn) (l : list Conn) : list Conn :=
  match l with
  | [] => []
  | y :: l' => if decide (y = x) then l' else y :: list_remove x l'
  end.

(** The [finally] block of [client]: the connection is taken out of every
    room that lists it, and a room left without a connection is deleted. *)
Definition cleanup (conn : Conn) (rooms : gmap string RoomData) : gmap string RoomData :=
  omap (λ room_data,
          if decide (conn ∈ clients room_data) then
            let cs := list_remove conn (clients room_data) in
            if decide (cs = []) then None
            else Some {| clients := cs; state := state room_data |}
          else Some room_data) rooms.

(** The clients the loop of [broadcast_state] could not send to; [sent i]
    tells whether the send to the i-th client of the room succeeds, which
    the network decides. *)
Fixpoint disconnected_clients (sent : nat → bool) (i : nat) (cs : list Conn) : list Conn :=
  match cs with
  | [] => []
  | client :: cs' =>
      (if sent i then [] else [client]) ++ disconnected_clients sent (S i) cs'
  end.

(** [broadcast_state(room_code)] *)
Definition broadcast_state (sent : nat → bool) (room_code : string)
    : M (gmap string RoomData) () := λ rooms,
  match rooms !! room_code with
  | None => (rooms, Raise (KeyError room_code))
  | Some room_data =>
      let cs :=
        foldl (λ cs dc, list_remove dc cs) (clients room_data)
              (disconnected_clients sent 0 (clients room_data)) in
      if decide (cs = []) then (delete room_code rooms, Ok ())
      else (<[room_code := {| clients := cs; state := state room_data |}]> rooms, Ok ())
  end.

(** The ['command'] branch under the lock, on the registry with its
    connections: the state of the room is changed in place. *)
Definition command_block (msg : CommandMsg) : M Net () := λ '(rooms, g),
  match rooms !! room msg with
  | None => ((rooms, g), Raise (KeyError (room msg)))
  | Some room_data =>
    let '((state', g'), r) := command_in_room msg (state room_data, g) in
    ((<[room msg := {| clients := clients room_data; state := state' |}]> rooms, g'), r)
  end.

(** A command message received on [conn], as the loop of [client] handles
    it: the block, then the broadcast to the room.  When one of them
    raises, the bare [except] swallows the exception and the [finally]
    block runs; the connection is closed and its thread ends. *)
Definition client_command (sent : nat → bool) (conn : Conn) (msg : CommandMsg)
    : M Net Response := λ net,
  match (_ ← command_block msg;
         zoom fst (λ rooms (net : Net), (rooms, net.2))
              (broadcast_state sent (room msg))) net with
  | (net', Ok _) => (net', Ok Update)
  | (net', Raise e) => ((cleanup conn net'.1, net'.2), Raise e)
  end.

(** For concrete runs: room "1234" right after A created it and B joined,
    and the two commands a client sends. *)
Definition lobby : St :=
  run [Create "1234" "A"; Join "B" "1234"] (∅, rng_from 1).

Definition roll (p : string) (keep_dice : list bool) : CommandMsg :=
  {| room := "1234"; player := p; command := "roll";
     keep := Some (Some keep_dice); category := None |}.

Definition score (p category : string) : CommandMsg :=
  {| room := "1234"; player := p; command := "score";
     keep := None; category := Some category |}.

(** A creates room "1234" and commits all 13 categories alone. *)
Definition solo_game : list Request :=
  Create "1234" "A" :: (Command ∘ score "A" <$> Scorecard.categories).

(** A and B in room "1234" commit the 13 categories in turn, A first. *)
Definition duel : list Request :=
  Create "1234" "A" :: Join "B" "1234" ::
  concat ((λ c, [Command (score "A" c); Command (score "B" c)]) <$> Scorecard.categories).

(** A commits all 13 categories alone, then B joins and commits all 13. *)
Definition late_join : list Request :=
  solo_game ++ Join "B" "1234" :: (Command ∘ score "B" <$> Scorecard.categories).

(** The room "1234" of a registry, [init] when there is none. *)
Definition room_1234 (s : St) : GameState.GameState :=
  default (GameState.init "") (s.1 !! "1234").

(** What the rooms of the registry keep true from request to request: a
    room has a player; its dict of games has no key twice and, when no two
    players share a name, lists the players in the order they joined; and
    when all its games are complete it holds the winner and final scores
    computed from the games as they are. *)
Definition winner_set (room : GameState.GameState) : Prop :=
  all_done room = true →
  ∃ w, GameState.winner room = Some w ∧
       PyDict.max_key (current_scores room) = Ok w ∧
       GameState.final_scores room = current_scores room.

Definition room_ok (room : GameState.GameState) : Prop :=
  GameState.players room ≠ [] ∧
  NoDup (PyDict.keys (GameState.scores room)) ∧
  (NoDup (GameState.players room) →
   PyDict.keys (GameState.scores room) = GameState.players room) ∧
  winner_set room.

Definition rooms_ok (s : St) : Prop :=
  ∀ code room, s.1 !! code = Some room → room_ok room.

(** The shape of the room registered under [code]: it carries that code,
    has one or two players, a turn index that names one of them, a game for
    each player and for no one else, and every game is consistent. *)
Definition room_shape (code : string) (room : GameState.GameState) : Prop :=
  GameState.room_code room = code ∧
  (1 ≤ length (GameState.players room) ≤ 2)%nat ∧
  0 ≤ GameState.turn_index room < Z.of_nat (length (GameState.players room)) ∧
  (∀ p, p ∈ GameState.players room ↔ is_Some (PyDict.getitem (GameState.scores room) p)) ∧
  (∀ p gm, PyDict.getitem (GameState.scores room) p = Some gm → Game.consistent gm).

End Server.

(** * Properties *)

(** ** Running a method: the two outcomes of a bind *)

Lemma bind_ok {S A B} (m : M S A) (f : A → M S B) s s' a :
  m s = (s', Ok a) → (m ≫= f) s = f a s'.
Proof. intros H. unfold mbind, M_bind. by rewrite H. Qed.

Lemma bind_raise {S A B} (m : M S A) (f : A → M S B) s s' e :
  m s = (s', Raise e) → (m ≫= f) s = (s', Raise e).
Proof. intros H. unfold mbind, M_bind. by rewrite H. Qed.

Lemma for_each_inv {S X} (P : S → Prop) (xs : list X) (body : X → M S ()) :
  (∀ x s, P s → P (body x s).1) → ∀ s, P s → P (for_each xs body s).1.
Proof.
  intros Hbody. induction xs as [|x xs IH]; intros s Hs; [done|].
  simpl. unfold mbind, M_bind. specialize (Hbody x s Hs).
  destruct (body x s) as [s' [[]|e]]; simpl in *; [by apply IH | done].
Qed.

Lemma for_each_app {S X} (xs ys : list X) (body : X → M S ()) s :
  for_each (xs ++ ys) body s = (_ ← for_each xs body; for_each ys body) s.
Proof.
  revert s. induction xs as [|x xs IH]; intros s; [done|].
  simpl. unfold mbind, M_bind in *. destruct (body x s) as [s' [[]|e]]; [apply IH | done].
Qed.

Lemma length5 {A} (l : list A) :
  length l = 5%nat → ∃ a b c d e, l = [a; b; c; d; e].
Proof.
  intros H. do 5 (destruct l as [|? l]; [discriminate H|]).
  destruct l; [eauto 6 | discriminate H].
Qed.

(** ** The dice *)
Section dice.

Implicit Types (d : Dice.YahtzeeDice) (g : Rng) (s : Dice.St).

(** With five dice and a roll left, [roll_all] returns the new faces: five
    of them, drawn from the next five values of the random source. *)
Lemma roll_all_ok d g :
  length (Dice.dice d) = 5%nat → 0 < Dice.rolls_remaining d →
  ∃ faces g',
    Dice.roll_all (d, g) =
      ((Dice.set_rolls_remaining (Dice.rolls_remaining d - 1) (Dice.set_dice faces d), g'),
       Ok faces) ∧
    length faces = 5%nat ∧ cursor g' = (cursor g + 5)%nat ∧ draws g' = draws g.
Proof.
  intros Hlen Hrr. destruct d as [l rr]. simpl in *.
  destruct (length5 l Hlen) as (a & b & c & d & e & ->).
  unfold Dice.roll_all. simpl. destruct (decide (rr ≤ 0)) as [?|_]; [lia|].
  eexists _, _. split; [reflexivity|]. simpl. split; [done|]. split; [lia|done].
Qed.

Lemma reroll_rolls_remaining i s :
  Dice.rolls_remaining (Dice.reroll i s).1.1 = Dice.rolls_remaining s.1.
Proof.
  destruct s as [d g]. unfold Dice.reroll. simpl.
  by destruct (decide (i < length (Dice.dice d))%nat).
Qed.

Lemma reroll_length i s :
  length (Dice.dice (Dice.reroll i s).1.1) = length (Dice.dice s.1).
Proof.
  destruct s as [d g]. unfold Dice.reroll. simpl.
  destruct (decide (i < length (Dice.dice d))%nat); simpl; [|done].
  by rewrite length_insert.
Qed.

(** After the loop of a roll method the budget is the one before it; the
    method then either raises or spends one roll. *)
Lemma rolled_rolls_remaining {X} (xs : list X) (body : X → M Dice.St ()) s :
  (∀ x s, Dice.rolls_remaining (body x s).1.1 = Dice.rolls_remaining s.1) →
  let s' := (_ ← for_each xs body; _ ← Dice.decrement; Dice.get_dice) s in
  (Dice.rolls_remaining s'.1.1 = Dice.rolls_remaining s.1 ∧ ∃ e, s'.2 = Raise e) ∨
  (Dice.rolls_remaining s'.1.1 = Dice.rolls_remaining s.1 - 1 ∧ ∃ faces, s'.2 = Ok faces).
Proof.
  intros Hbody.
  pose proof (for_each_inv (S := Dice.St)
                (λ t, Dice.rolls_remaining t.1 = Dice.rolls_remaining s.1)
                xs body) as Hloop.
  simpl in Hloop. specialize (Hloop ltac:(intros x t Ht; by rewrite Hbody) s eq_refl).
  simpl. unfold mbind, M_bind.
  destruct (for_each xs body s) as [[d g] [[]|e]]; simpl in *.
  - right. split; [lia | eauto].
  - left. eauto.
Qed.

Lemma call_rolls_remaining op s :
  0 ≤ Dice.rolls_remaining s.1 ≤ 3 → 0 ≤ Dice.rolls_remaining (Dice.call op s).1 ≤ 3.
Proof.
  intros Hs. destruct op as [|keep_dice|dice_indices|]; simpl.
  - unfold Dice.roll_all. destruct (decide _) as [|Hpos]; [done|].
    destruct (rolled_rolls_remaining (seq 0 5) Dice.reroll s reroll_rolls_remaining)
      as [[-> _]|[-> _]]; lia.
  - unfold Dice.roll_with_keep. destruct (decide _); [done|].
    destruct (decide _) as [|Hpos]; [done|].
    destruct (rolled_rolls_remaining (seq 0 5)
                (λ i, if negb (keep_dice !!! i) then Dice.reroll i else mret ()) s)
      as [[-> _]|[-> _]]; try lia.
    intros i t. destruct (negb _); [apply reroll_rolls_remaining | done].
  - unfold Dice.roll_specific. destruct (decide _) as [|Hpos]; [done|].
    destruct (rolled_rolls_remaining dice_indices
                (λ index, if negb (bool_decide (0 ≤ index ≤ 4))
                          then raise (DiceIndexOutOfRange index)
                          else Dice.reroll (Z.to_nat index)) s)
      as [[-> _]|[-> _]]; try lia.
    intros i t. destruct (negb _); [done | apply reroll_rolls_remaining].
  - destruct s as [d g]. simpl. lia.
Qed.

Lemma calls_rolls_remaining ops s :
  0 ≤ Dice.rolls_remaining s.1 ≤ 3 → 0 ≤ Dice.rolls_remaining (Dice.calls ops s).1 ≤ 3.
Proof.
  revert s. induction ops as [|op ops IH]; intros s Hs; [done|].
  simpl. apply IH. by apply call_rolls_remaining.
Qed.

(** C6: right after [start_new_turn], which sets the budget to 3 and keeps
    the faces, three [roll_all] calls in a row return and each lowers
    [rolls_remaining] by 1; the fourth raises "No rolls remaining" and
    leaves the dice set as it was.  Whatever methods are called on a new
    dice set, [rolls_remaining] is never negative. *)
Theorem dice_roll_budget d g (ops : list Dice.Op) :
  length (Dice.dice d) = 5%nat →
  (∃ s0 s1 s2 s3 f1 f2 f3,
     Dice.start_new_turn (d, g) = (s0, Ok ()) ∧
     Dice.dice s0.1 = Dice.dice d ∧ Dice.rolls_remaining s0.1 = 3 ∧
     Dice.roll_all s0 = (s1, Ok f1) ∧
     Dice.rolls_remaining s1.1 = Dice.rolls_remaining s0.1 - 1 ∧
     Dice.roll_all s1 = (s2, Ok f2) ∧
     Dice.rolls_remaining s2.1 = Dice.rolls_remaining s1.1 - 1 ∧
     Dice.roll_all s2 = (s3, Ok f3) ∧
     Dice.rolls_remaining s3.1 = Dice.rolls_remaining s2.1 - 1 ∧
     Dice.roll_all s3 = (s3, Raise NoRollsRemaining)) ∧
  0 ≤ Dice.rolls_remaining (Dice.calls ops (Dice.init, g)).1.
Proof.
  intros Hlen. split; [|by apply calls_rolls_remaining].
  destruct (roll_all_ok (Dice.set_rolls_remaining 3 d) g) as (f1 & g1 & H1 & L1 & _);
    [done | simpl; lia |].
  set (d1 := Dice.set_rolls_remaining _ (Dice.set_dice f1 _)) in H1.
  destruct (roll_all_ok d1 g1) as (f2 & g2 & H2 & L2 & _); [done | simpl; lia |].
  set (d2 := Dice.set_rolls_remaining _ (Dice.set_dice f2 _)) in H2.
  destruct (roll_all_ok d2 g2) as (f3 & g3 & H3 & L3 & _); [done | simpl; lia |].
  set (d3 := Dice.set_rolls_remaining _ (Dice.set_dice f3 _)) in H3.
  exists (Dice.set_rolls_remaining 3 d, g), (d1, g1), (d2, g2), (d3, g3), f1, f2, f3.
  repeat split; try done; try (simpl; lia).
Qed.

Lemma dice_roll_budget_witness :
  length (Dice.dice Dice.init) = 5%nat ∧
  0 ≤ Dice.rolls_remaining
        (Dice.calls [Dice.RollAll; Dice.RollAll; Dice.RollAll; Dice.RollAll]
                    (Dice.init, rng_from 0)).1.
Proof.
  split; [reflexivity|].
  apply (dice_roll_budget Dice.init (rng_from 0)
           [Dice.RollAll; Dice.RollAll; Dice.RollAll; Dice.RollAll]).
  reflexivity.
Defined.

(** In-range indices on five dice are rerolled without an exception. *)
Lemma reroll_in_range (pre : list Z) s :
  length (Dice.dice s.1) = 5%nat → Forall (λ i, 0 ≤ i ≤ 4) pre →
  ∃ s', for_each pre (λ index, if negb (bool_decide (0 ≤ index ≤ 4))
                                then raise (DiceIndexOutOfRange index)
                                else Dice.reroll (Z.to_nat index)) s = (s', Ok ()) ∧
        length (Dice.dice s'.1) = 5%nat ∧
        Dice.rolls_remaining s'.1 = Dice.rolls_remaining s.1.
Proof.
  intros Hlen Hpre. revert s Hlen.
  induction Hpre as [|i pre Hi _ IH]; intros s Hlen; [by exists s|].
  simpl. rewrite bool_decide_eq_true_2 by done. simpl.
  pose proof (reroll_length (Z.to_nat i) s) as Hl.
  pose proof (reroll_rolls_remaining (Z.to_nat i) s) as Hr.
  assert (∃ s1, Dice.reroll (Z.to_nat i) s = (s1, Ok ())) as [s1 Hs1].
  { destruct s as [d g]. unfold Dice.reroll. simpl in *.
    destruct (decide _) as [|Hn]; [eauto | lia]. }
  rewrite Hs1 in Hl, Hr. simpl in Hl, Hr.
  destruct (IH s1) as (s' & Hs' & Hl' & Hr'); [congruence|].
  exists s'. unfold mbind, M_bind. rewrite Hs1. split; [done|]. split; [done | congruence].
Qed.

(** C7, as the code has it: a keep-mask whose length is not 5 makes
    [roll_with_keep] raise before anything changes.  [roll_specific] with
    an index outside 0..4 raises and leaves [rolls_remaining] as it was:
    "No rolls remaining" and nothing changed when the budget is spent,
    otherwise the out-of-range error for the first such index, and nothing
    changed when no index comes before it. *)
Theorem invalid_roll_request s :
  length (Dice.dice s.1) = 5%nat →
  (∀ keep_dice : list bool,
     length keep_dice ≠ 5%nat →
     Dice.roll_with_keep keep_dice s = (s, Raise KeepLength)) ∧
  (∀ (pre : list Z) (index : Z) (rest : list Z),
     Forall (λ i, 0 ≤ i ≤ 4) pre → ¬ (0 ≤ index ≤ 4) →
     ∃ s' e,
       Dice.roll_specific (pre ++ index :: rest) s = (s', Raise e) ∧
       Dice.rolls_remaining s'.1 = Dice.rolls_remaining s.1 ∧
       (Dice.rolls_remaining s.1 ≤ 0 → e = NoRollsRemaining ∧ s' = s) ∧
       (0 < Dice.rolls_remaining s.1 →
        e = DiceIndexOutOfRange index ∧ (pre = [] → s' = s))).
Proof.
  intros Hlen. split.
  - intros keep_dice Hkeep. unfold Dice.roll_with_keep.
    by destruct (decide (length keep_dice ≠ 5%nat)).
  - intros pre index rest Hpre Hindex. unfold Dice.roll_specific.
    destruct (decide (Dice.rolls_remaining s.1 ≤ 0)) as [Hzero|Hpos].
    { exists s, NoRollsRemaining. repeat split; try done; lia. }
    destruct (reroll_in_range pre s Hlen Hpre) as (s' & Hs' & _ & Hrr).
    exists s', (DiceIndexOutOfRange index).
    split; [|split; [done|split; [lia|]]].
    + apply bind_raise. rewrite for_each_app. rewrite (bind_ok _ _ _ _ _ Hs').
      simpl. by rewrite bool_decide_eq_false_2.
    + intros _. split; [done|]. intros ->. simpl in Hs'.
      unfold mret, M_ret in Hs'. congruence.
Qed.

Lemma invalid_roll_request_witness :
  length (Dice.dice (Dice.init, rng_from 0).1) = 5%nat ∧
  Dice.roll_with_keep [true; false] (Dice.init, rng_from 0)
    = ((Dice.init, rng_from 0), Raise KeepLength).
Proof.
  split; [reflexivity|].
  apply (invalid_roll_request (Dice.init, rng_from 0)); [reflexivity | simpl; lia].
Defined.

(** C7 as stated fails: [roll_specific [1; 7]] has rerolled die 1 by the
    time it raises for index 7, and with no roll left the request [[7]]
    raises "No rolls remaining", not the out-of-range error. *)
Lemma roll_specific_not_atomic :
  let s := (Dice.init, rng_from 1) in
  let spent := (Dice.set_rolls_remaining 0 Dice.init, rng_from 1) in
  (Dice.roll_specific [1; 7] s).2 = Raise (DiceIndexOutOfRange 7) ∧
  Dice.dice (Dice.roll_specific [1; 7] s).1.1 = [1; 2; 1; 1; 1] ∧
  Dice.dice (Dice.roll_specific [1; 7] s).1.1 ≠ Dice.dice s.1 ∧
  Dice.roll_specific [7] spent = (spent, Raise NoRollsRemaining).
Proof. vm_compute. repeat split; congruence. Qed.

End dice.

(** ** The scorecard *)
Section scorecard.

Implicit Types (self : Scorecard.YahtzeeScorecard) (dice : list Z).
Implicit Types (category : string).

Lemma offer_lookup self k v (m : gmap string Z) (c : string) :
  Scorecard.offer self k v m !! c =
    if decide (k = c)
    then (if Scorecard.is_category_available self c then Some v else m !! c)
    else m !! c.
Proof.
  unfold Scorecard.offer. case_decide as Hk.
  - subst. destruct (Scorecard.is_category_available self c); [apply lookup_insert_eq | done].
  - destruct (Scorecard.is_category_available self k); [by apply lookup_insert_ne | done].
Qed.

Lemma offer_lookup_ne self k v (m : gmap string Z) (c : string) :
  k ≠ c → Scorecard.offer self k v m !! c = m !! c.
Proof. intros. rewrite offer_lookup. by rewrite decide_False. Qed.

Lemma offer_lookup_eq self v (m : gmap string Z) (c : string) :
  Scorecard.is_category_available self c = true →
  Scorecard.offer self c v m !! c = Some v.
Proof. intros H. rewrite offer_lookup. rewrite decide_True by done. by rewrite H. Qed.

Lemma offer_is_Some self k v (m : gmap string Z) (c : string) :
  is_Some (Scorecard.offer self k v m !! c) ↔
  (c = k ∧ Scorecard.is_category_available self k = true) ∨ is_Some (m !! c).
Proof.
  rewrite offer_lookup. case_decide as Hk.
  - subst. destruct (Scorecard.is_category_available self c) eqn:Hav.
    + split; [intros _; by left | intros _; by eexists].
    + split; [by right | intros [[_ ?]|?]; [discriminate | done]].
  - split; [by right | intros [[-> _]|?]; done].
Qed.

Lemma counts_eq dice :
  Scorecard.counts dice =
  [0; count 1 dice; count 2 dice; count 3 dice; count 4 dice; count 5 dice; count 6 dice].
Proof. reflexivity. Qed.

(** The dict [calculate_possible_scores] builds, with its loop unrolled. *)
Lemma possible_scores_eq self dice :
  length dice = 5%nat →
  Scorecard.calculate_possible_scores self dice =
  Ok (Scorecard.offer self "chance" (sum dice)
     (Scorecard.offer self "yahtzee"
        (if Scorecard.has_yahtzee (Scorecard.counts dice) then 50 else 0)
     (Scorecard.offer self "large_straight"
        (if Scorecard.has_large_straight dice then 40 else 0)
     (Scorecard.offer self "small_straight"
        (if Scorecard.has_small_straight dice then 30 else 0)
     (Scorecard.offer self "full_house"
        (if Scorecard.valid_full_house (Scorecard.counts dice) then 25 else 0)
     (Scorecard.offer self "four_of_kind"
        (if Scorecard.has_four_of_kind (Scorecard.counts dice) then sum dice else 0)
     (Scorecard.offer self "three_of_kind"
        (if Scorecard.has_three_of_kind (Scorecard.counts dice) then sum dice else 0)
     (Scorecard.offer self "sixes" (6 * count 6 dice)
     (Scorecard.offer self "fives" (5 * count 5 dice)
     (Scorecard.offer self "fours" (4 * count 4 dice)
     (Scorecard.offer self "threes" (3 * count 3 dice)
     (Scorecard.offer self "twos" (2 * count 2 dice)
     (Scorecard.offer self "ones" (1 * count 1 dice) ∅))))))))))))).
Proof.
  intros Hlen. unfold Scorecard.calculate_possible_scores.
  destruct (decide (length dice ≠ 5%nat)); [done|]. reflexivity.
Qed.

Lemma in_categories (c : string) :
  c ∈ Scorecard.categories ↔
  c = "ones" ∨ c = "twos" ∨ c = "threes" ∨ c = "fours" ∨ c = "fives" ∨ c = "sixes" ∨
  c = "three_of_kind" ∨ c = "four_of_kind" ∨ c = "full_house" ∨
  c = "small_straight" ∨ c = "large_straight" ∨ c = "yahtzee" ∨ c = "chance".
Proof.
  unfold Scorecard.categories, Scorecard.upper_categories, Scorecard.lower_categories.
  cbn [app]. rewrite !elem_of_cons, elem_of_nil. tauto.
Qed.

Lemma available_iff self (c : string) :
  Scorecard.is_category_available self c = true ↔
  Scorecard.get_all_scores self !! c = Some None.
Proof. unfold Scorecard.is_category_available. apply bool_decide_eq_true. Qed.

(** Which keys the dict of possible scores has depends on the scorecard
    only. *)
Lemma possible_scores_is_Some self dice (c : string) possible_scores :
  Scorecard.calculate_possible_scores self dice = Ok possible_scores →
  is_Some (possible_scores !! c) ↔
  c ∈ Scorecard.categories ∧ Scorecard.get_all_scores self !! c = Some None.
Proof.
  intros Hps. assert (length dice = 5%nat) as Hlen.
  { unfold Scorecard.calculate_possible_scores in Hps.
    destruct (decide (length dice ≠ 5%nat)); [done | lia]. }
  rewrite possible_scores_eq in Hps by done. injection Hps as <-.
  rewrite !offer_is_Some, lookup_empty, in_categories, !available_iff. split.
  - intros H. repeat (destruct H as [[-> H]|H]; [tauto|]). by destruct H.
  - intros [H Hav]. repeat (destruct H as [->|H]; [tauto|]). subst. tauto.
Qed.

(** The dict of possible scores of a roll of five dice: its keys, and the
    entry of chance. *)
Lemma possible_scores_spec self dice :
  length dice = 5%nat →
  ∃ possible_scores,
    Scorecard.calculate_possible_scores self dice = Ok possible_scores ∧
    (∀ category,
       is_Some (possible_scores !! category) ↔
       category ∈ Scorecard.categories ∧
       Scorecard.get_all_scores self !! category = Some None) ∧
    (Scorecard.get_all_scores self !! "chance" = Some None →
     possible_scores !! "chance" = Some (sum dice)).
Proof.
  intros Hlen. eexists. split; [by apply possible_scores_eq|]. split.
  - intros category. eapply possible_scores_is_Some. by apply possible_scores_eq.
  - intros Hav. apply offer_lookup_eq. by apply available_iff.
Qed.



(** *** Counting faces *)

Lemma count_nonneg x (l : list Z) : 0 ≤ count x l.
Proof. induction l as [|y l IH]; simpl; [done|]. case_decide; lia. Qed.

Lemma count_pair_le_length a b (l : list Z) :
  a ≠ b → count a l + count b l ≤ Z.of_nat (length l).
Proof.
  intros Hab. induction l as [|y l IH]; simpl; [done|].
  repeat case_decide; subst; try done; lia.
Qed.

Lemma count_pos_elem x (l : list Z) : 0 < count x l → x ∈ l.
Proof.
  induction l as [|y l IH]; simpl; [lia|]. case_decide as Hy.
  - subst. intros _. left.
  - intros H. right. apply IH. lia.
Qed.

Lemma face_cases (x : Z) :
  1 ≤ x ≤ 6 → x = 1 ∨ x = 2 ∨ x = 3 ∨ x = 4 ∨ x = 5 ∨ x = 6.
Proof. lia. Qed.

(** Among the six counts exactly one is 3 as soon as one face value has
    count 3 and no other value has. *)
Lemma exactly_one_three dice a :
  1 ≤ a ≤ 6 → count a dice = 3 → (∀ c, count c dice = 3 → c = a) →
  count 3 (tail (Scorecard.counts dice)) = 1.
Proof.
  intros Hrange Ha Huniq.
  pose proof (Huniq 1) as H1. pose proof (Huniq 2) as H2. pose proof (Huniq 3) as H3.
  pose proof (Huniq 4) as H4. pose proof (Huniq 5) as H5. pose proof (Huniq 6) as H6.
  clear Huniq. rewrite counts_eq. cbn [tail count].
  destruct (face_cases a Hrange) as [->|[->|[->|[->|[->| ->]]]]];
    repeat case_decide; lia.
Qed.

Lemma count_elem_counts dice a n :
  1 ≤ a ≤ 6 → count a dice = n → n ∈ tail (Scorecard.counts dice).
Proof.
  intros Hrange <-. rewrite counts_eq. cbn [tail]. rewrite !elem_of_cons.
  destruct (face_cases a Hrange) as [->|[->|[->|[->|[->| ->]]]]]; tauto.
Qed.

Lemma elem_counts_count dice n :
  n ∈ tail (Scorecard.counts dice) → ∃ a, 1 ≤ a ≤ 6 ∧ count a dice = n.
Proof.
  rewrite counts_eq. cbn [tail]. rewrite !elem_of_cons, elem_of_nil.
  intros [->|[->|[->|[->|[->|[->|[]]]]]]]; eexists; (split; [|reflexivity]); lia.
Qed.

Lemma valid_full_house_iff dice :
  length dice = 5%nat → Forall (λ f, 1 ≤ f ≤ 6) dice →
  Scorecard.valid_full_house (Scorecard.counts dice) = true ↔
  ∃ a b, a ≠ b ∧ count a dice = 3 ∧ count b dice = 2 ∧ ∀ c, count c dice = 3 → c = a.
Proof.
  intros Hlen Hfaces.
  assert (Huniq : ∀ a c, count a dice = 3 → count c dice = 3 → c = a).
  { intros a c Ha Hc. destruct (decide (a = c)) as [|Hne]; [done|].
    pose proof (count_pair_le_length a c dice Hne). lia. }
  assert (Hface : ∀ x, 0 < count x dice → 1 ≤ x ≤ 6).
  { intros x Hx. apply count_pos_elem in Hx. rewrite Forall_forall in Hfaces. eauto. }
  unfold Scorecard.valid_full_house. cbv zeta.
  rewrite !andb_true_iff, !bool_decide_eq_true. split.
  - intros [[H3 H2] _].
    apply elem_counts_count in H3 as (a & _ & Ha).
    apply elem_counts_count in H2 as (b & _ & Hb).
    exists a, b. repeat split; [congruence | done | done | eauto].
  - intros (a & b & Hab & Ha & Hb & Hc).
    assert (1 ≤ a ≤ 6) by (apply Hface; lia).
    assert (1 ≤ b ≤ 6) by (apply Hface; lia).
    split; [split|]; eauto using count_elem_counts, exactly_one_three.
Qed.

Lemma full_house_lookup self dice :
  length dice = 5%nat →
  Scorecard.is_category_available self "full_house" = true →
  ∃ possible_scores,
    Scorecard.calculate_possible_scores self dice = Ok possible_scores ∧
    possible_scores !! "full_house" =
      Some (if Scorecard.valid_full_house (Scorecard.counts dice) then 25 else 0).
Proof.
  intros Hlen Hav. eexists. split; [by apply possible_scores_eq|].
  do 4 (etrans; [apply offer_lookup_ne; discriminate|]).
  by apply offer_lookup_eq.
Qed.

(** C4: while full_house is open, a roll of five dice is offered 25 for it
    exactly when one face value occurs three times, another one twice, and
    no other value occurs three times; otherwise 0.  Five of a kind is
    offered 0; [[3,3,3,6,6]] is offered 25 and [[3,3,3,3,6]] is offered 0. *)
Theorem full_house_score self :
  Scorecard.is_category_available self "full_house" = true →
  (∀ dice,
     length dice = 5%nat → Forall (λ f, 1 ≤ f ≤ 6) dice →
     ∃ possible_scores v,
       Scorecard.calculate_possible_scores self dice = Ok possible_scores ∧
       possible_scores !! "full_house" = Some v ∧
       (v = 25 ∨ v = 0) ∧
       (v = 25 ↔
        ∃ a b, a ≠ b ∧ count a dice = 3 ∧ count b dice = 2 ∧
               ∀ c, count c dice = 3 → c = a) ∧
       (∀ a, count a dice = 5 → v = 0)) ∧
  (∃ possible_scores,
     Scorecard.calculate_possible_scores self [3; 3; 3; 6; 6] = Ok possible_scores ∧
     possible_scores !! "full_house" = Some 25) ∧
  (∃ possible_scores,
     Scorecard.calculate_possible_scores self [3; 3; 3; 3; 6] = Ok possible_scores ∧
     possible_scores !! "full_house" = Some 0).
Proof.
  intros Hav. split; [|split].
  - intros dice Hlen Hfaces.
    destruct (full_house_lookup self dice Hlen Hav) as (ps & Hps & Hfh).
    pose proof (valid_full_house_iff dice Hlen Hfaces) as Hiff.
    exists ps, (if Scorecard.valid_full_house (Scorecard.counts dice) then 25 else 0).
    split; [done|]. split; [done|].
    destruct (Scorecard.valid_full_house (Scorecard.counts dice)).
    + split; [by left|]. split; [split; [intros _; by apply Hiff | done]|].
      intros a Ha. destruct (proj1 Hiff eq_refl) as (a' & b & Hab & Ha' & Hb & _).
      destruct (decide (a = a')) as [->|Hne]; [lia|].
      pose proof (count_pair_le_length a a' dice Hne). lia.
    + split; [by right|]. split; [|done].
      split; [done|]. intros H. apply Hiff in H. done.
  - destruct (full_house_lookup self [3; 3; 3; 6; 6] eq_refl Hav) as (ps & Hps & Hfh).
    by exists ps.
  - destruct (full_house_lookup self [3; 3; 3; 3; 6] eq_refl Hav) as (ps & Hps & Hfh).
    by exists ps.
Qed.

Lemma full_house_score_witness :
  Scorecard.is_category_available Scorecard.init "full_house" = true ∧
  ∃ possible_scores,
    Scorecard.calculate_possible_scores Scorecard.init [3; 3; 3; 6; 6]
      = Ok possible_scores ∧
    possible_scores !! "full_house" = Some 25.
Proof.
  split; [reflexivity|].
  apply (full_house_score Scorecard.init). reflexivity.
Defined.

(** *** The shape of the two dicts *)

Lemma wf_init : Scorecard.wf Scorecard.init.
Proof.
  split; unfold Scorecard.init; cbn [Scorecard.upper_scores Scorecard.lower_scores];
    rewrite dom_list_to_map_L; reflexivity.
Qed.

Lemma wf_upper self category :
  Scorecard.wf self →
  is_Some (Scorecard.upper_scores self !! category) ↔ category ∈ Scorecard.upper_categories.
Proof. intros [Hup _]. by rewrite <-elem_of_dom, Hup, elem_of_list_to_set. Qed.

Lemma wf_lower self category :
  Scorecard.wf self →
  is_Some (Scorecard.lower_scores self !! category) ↔ category ∈ Scorecard.lower_categories.
Proof. intros [_ Hlow]. by rewrite <-elem_of_dom, Hlow, elem_of_list_to_set. Qed.

(** No category is in both sections. *)
Lemma wf_disjoint self category :
  Scorecard.wf self →
  is_Some (Scorecard.upper_scores self !! category) →
  Scorecard.lower_scores self !! category = None.
Proof.
  intros Hwf Hup. apply (wf_upper _ _ Hwf) in Hup.
  apply eq_None_not_Some. rewrite (wf_lower _ _ Hwf).
  unfold Scorecard.upper_categories in Hup. unfold Scorecard.lower_categories.
  rewrite !elem_of_cons, elem_of_nil in *.
  intros Hlow.
  repeat (destruct Hup as [->|Hup];
          [repeat (destruct Hlow as [?|Hlow]; [discriminate|]); done|]).
  done.
Qed.

Lemma wf_available self category :
  Scorecard.wf self →
  Scorecard.is_category_available self category = true →
  category ∈ Scorecard.categories.
Proof.
  intros Hwf Hav. apply available_iff in Hav.
  unfold Scorecard.get_all_scores in Hav. apply lookup_union_Some_raw in Hav.
  unfold Scorecard.categories. apply elem_of_app.
  destruct Hav as [Hlow|[_ Hup]].
  - right. apply (wf_lower _ _ Hwf). eauto.
  - left. apply (wf_upper _ _ Hwf). eauto.
Qed.

(** *** Totals *)

Lemma total_of_insert (scores : gmap string (option Z)) (k : string) v :
  scores !! k = Some None →
  Scorecard.total_of (<[k := Some v]> scores) = Scorecard.total_of scores + v.
Proof.
  intros Hk. unfold Scorecard.total_of.
  assert (Hcomm : ∀ (z1 z2 : option Z) (y : Z),
            match z1 with Some v => match z2 with Some v => y + v | None => y end + v
                        | None => match z2 with Some v => y + v | None => y end end =
            match z2 with Some v => match z1 with Some v => y + v | None => y end + v
                        | None => match z1 with Some v => y + v | None => y end end).
  { intros [?|] [?|] y; lia. }
  rewrite <-insert_delete_eq.
  rewrite map_fold_insert_L; [|intros; apply Hcomm | apply lookup_delete_eq].
  rewrite (map_fold_delete_L _ _ k None scores); [|intros; apply Hcomm | done].
  reflexivity.
Qed.

(** *** What [score_category] does *)

Lemma score_category_unavailable self category dice :
  Scorecard.is_category_available self category = false →
  Scorecard.score_category category dice self = (self, Ok false).
Proof. intros Hav. unfold Scorecard.score_category. by rewrite Hav. Qed.

Lemma store_unavailable self category v :
  Scorecard.wf self →
  Scorecard.is_category_available (Scorecard.store category v self) category = false.
Proof.
  intros Hwf. apply bool_decide_eq_false.
  unfold Scorecard.store, Scorecard.get_all_scores.
  case_bool_decide as Hup; simpl.
  - rewrite lookup_union_r by by apply wf_disjoint.
    rewrite lookup_insert_eq. congruence.
  - rewrite (lookup_union_Some_l _ _ _ (Some v)) by apply lookup_insert_eq. congruence.
Qed.

Lemma store_wf self category v :
  Scorecard.wf self →
  Scorecard.is_category_available self category = true →
  Scorecard.wf (Scorecard.store category v self).
Proof.
  intros Hwf Hav. pose proof Hwf as [Hup Hlow].
  apply available_iff in Hav. unfold Scorecard.get_all_scores in Hav.
  apply lookup_union_Some_raw in Hav.
  unfold Scorecard.store. case_bool_decide as Hc; split; simpl; try done.
  - rewrite dom_insert_lookup_L; done.
  - destruct Hav as [Hl|[_ Hu]]; [|by destruct Hc; eexists].
    rewrite dom_insert_lookup_L; [done | by eexists].
Qed.

Lemma max_count_is_5_ok dice :
  ∃ five : bool, Scorecard.max_count_is_5 dice = Ok five.
Proof. unfold Scorecard.max_count_is_5. eexists. reflexivity. Qed.

(** On a scorecard of the right shape an open category is committed: the
    score offered for it is stored, and the bonus count goes up by one when
    the category is not yahtzee, the roll is five of a kind and the yahtzee
    score is 50. *)
Lemma score_category_commits self category dice :
  Scorecard.wf self → length dice = 5%nat →
  Scorecard.is_category_available self category = true →
  ∃ possible_scores v five,
    Scorecard.calculate_possible_scores self dice = Ok possible_scores ∧
    possible_scores !! category = Some v ∧
    Scorecard.max_count_is_5 dice = Ok five ∧
    Scorecard.score_category category dice self =
      (let self' := Scorecard.store category v self in
       if bool_decide (category ≠ "yahtzee") && five
          && bool_decide (Scorecard.lower_scores self' !! "yahtzee" = Some (Some 50))
       then Scorecard.set_yahtzee_bonus_count (Scorecard.yahtzee_bonus_count self' + 1) self'
       else self',
       Ok true).
Proof.
  intros Hwf Hlen Hav.
  destruct (possible_scores_spec self dice Hlen) as (ps & Hps & Hkeys & _).
  destruct (proj2 (Hkeys category)) as [v Hv].
  { split; [by eapply wf_available | by apply available_iff]. }
  destruct (max_count_is_5_ok dice) as [five Hfive].
  exists ps, v, five. split; [done|]. split; [done|]. split; [done|].
  unfold Scorecard.score_category. rewrite Hav, Hps, Hv, Hfive. cbn [negb]. cbv zeta.
  pose proof (store_wf self category v Hwf Hav) as Hwf'.
  set (self' := Scorecard.store category v self) in *.
  case_bool_decide as Hy; cbn [andb]; [|done].
  destruct five; cbn [andb]; [|done].
  unfold Scorecard.yahtzee_is_50.
  destruct (proj2 (wf_lower self' "yahtzee" Hwf')) as [score Hscore].
  { unfold Scorecard.lower_categories. rewrite !elem_of_cons. tauto. }
  rewrite Hscore.
  destruct score as [n|]; repeat case_bool_decide; try done; congruence.
Qed.

(** [score_category] keeps the shape of the scorecard. *)
Lemma score_category_wf self category dice :
  Scorecard.wf self → length dice = 5%nat →
  Scorecard.wf (Scorecard.score_category category dice self).1.
Proof.
  intros Hwf Hlen.
  destruct (Scorecard.is_category_available self category) eqn:Hav.
  - destruct (score_category_commits self category dice Hwf Hlen Hav)
      as (ps & v & five & _ & _ & _ & ->).
    pose proof (store_wf self category v Hwf Hav) as Hwf'.
    cbv zeta. cbn [fst].
    match goal with |- context [if ?b then _ else _] => destruct b end; exact Hwf'.
  - by rewrite score_category_unavailable.
Qed.

(** C8: a category that holds a score, or that the scorecard does not have,
    is refused: [score_category] returns False and the scorecard is as it
    was.  On a scorecard of the right shape a second commit of the same
    category returns False and leaves what the first call stored. *)
Theorem commit_unavailable self category dice dice' :
  (Scorecard.get_all_scores self !! category ≠ Some None →
   Scorecard.score_category category dice self = (self, Ok false)) ∧
  (Scorecard.wf self → length dice = 5%nat → length dice' = 5%nat →
   ∃ self1 r,
     Scorecard.score_category category dice self = (self1, Ok r) ∧
     Scorecard.score_category category dice' self1 = (self1, Ok false)).
Proof.
  split.
  - intros Hc. apply score_category_unavailable. by apply bool_decide_eq_false.
  - intros Hwf Hlen Hlen'.
    destruct (Scorecard.is_category_available self category) eqn:Hav.
    + destruct (score_category_commits self category dice Hwf Hlen Hav)
        as (ps & v & five & _ & _ & _ & Heq).
      eexists _, true. split; [exact Heq|].
      apply score_category_unavailable.
      pose proof (store_unavailable self category v Hwf) as Hun.
      cbv zeta.
      match goal with |- context [if ?b then _ else _] => destruct b end; exact Hun.
    + exists self, false. by rewrite !score_category_unavailable.
Qed.

Lemma commit_unavailable_witness :
  Scorecard.wf Scorecard.init ∧ length [4; 4; 4; 2; 6] = 5%nat ∧
  length [1; 1; 1; 1; 1] = 5%nat ∧
  ∃ self1 r,
    Scorecard.score_category "fours" [4; 4; 4; 2; 6] Scorecard.init = (self1, Ok r) ∧
    Scorecard.score_category "fours" [1; 1; 1; 1; 1] self1 = (self1, Ok false).
Proof.
  split; [apply wf_init|]. split; [reflexivity|]. split; [reflexivity|].
  apply (commit_unavailable Scorecard.init "fours" [4; 4; 4; 2; 6] [1; 1; 1; 1; 1]);
    [apply wf_init | reflexivity | reflexivity].
Defined.

(** Committing an open chance on a scorecard whose yahtzee score is 50. *)
Lemma chance_commits self dice :
  Scorecard.wf self → length dice = 5%nat →
  Scorecard.lower_scores self !! "yahtzee" = Some (Some 50) →
  Scorecard.lower_scores self !! "chance" = Some None →
  ∃ five self',
    Scorecard.max_count_is_5 dice = Ok five ∧
    Scorecard.score_category "chance" dice self = (self', Ok true) ∧
    Scorecard.lower_scores self' !! "chance" = Some (Some (sum dice)) ∧
    Scorecard.yahtzee_bonus_count self' =
      Scorecard.yahtzee_bonus_count self + (if five then 1 else 0) ∧
    Scorecard.calculate_grand_total self' =
      Scorecard.calculate_grand_total self + sum dice + (if five then 100 else 0).
Proof.
  intros Hwf Hlen Hy Hc.
  assert (Hav : Scorecard.is_category_available self "chance" = true).
  { apply available_iff. by apply lookup_union_Some_l. }
  destruct (score_category_commits self "chance" dice Hwf Hlen Hav)
    as (ps & v & five & Hps & Hv & Hfive & Heq).
  destruct (possible_scores_spec self dice Hlen) as (ps' & Hps' & _ & Hchance).
  rewrite Hps in Hps'. injection Hps' as <-.
  rewrite Hchance in Hv by by apply available_iff. injection Hv as <-.
  assert (Hup : Scorecard.upper_scores self !! "chance" = None).
  { apply eq_None_not_Some. rewrite (wf_upper _ _ Hwf).
    unfold Scorecard.upper_categories. rewrite !elem_of_cons, elem_of_nil.
    intros H. repeat (destruct H as [?|H]; [discriminate|]). done. }
  assert (Hstore : Scorecard.store "chance" (sum dice) self =
            Scorecard.set_lower_scores
              (<["chance" := Some (sum dice)]> (Scorecard.lower_scores self)) self).
  { unfold Scorecard.store. rewrite Hup. by rewrite bool_decide_eq_false_2 by by intros []. }
  rewrite Hstore in Heq. cbv zeta in Heq. cbn [Scorecard.lower_scores Scorecard.set_lower_scores] in Heq.
  rewrite lookup_insert_ne in Heq by done.
  rewrite (bool_decide_eq_true_2 _ Hy) in Heq.
  rewrite (bool_decide_eq_true_2 ("chance" ≠ "yahtzee")) in Heq by done.
  exists five. eexists. split; [done|]. split; [exact Heq|].
  unfold Scorecard.calculate_grand_total, Scorecard.calculate_upper_bonus,
    Scorecard.calculate_upper_total, Scorecard.calculate_lower_total,
    Scorecard.calculate_yahtzee_bonus.
  destruct five; simpl; rewrite lookup_insert_eq, total_of_insert by done;
    (split; [done|]); (split; [lia|]); case_bool_decide; lia.
Qed.

(** C3, as the code has it: with yahtzee committed at 50 and chance open,
    committing [[5,5,5,5,2]] to chance returns True, stores 22 and leaves
    [yahtzee_bonus_count] as it was, so the grand total rises by 22; the
    bonus is for five of a kind: committing [[5,5,5,5,5]] stores 25, adds 1
    to [yahtzee_bonus_count] and so 100 more to the grand total. *)
Theorem chance_after_yahtzee self :
  Scorecard.wf self →
  Scorecard.lower_scores self !! "yahtzee" = Some (Some 50) →
  Scorecard.lower_scores self !! "chance" = Some None →
  (∃ self',
     Scorecard.score_category "chance" [5; 5; 5; 5; 2] self = (self', Ok true) ∧
     Scorecard.lower_scores self' !! "chance" = Some (Some 22) ∧
     Scorecard.yahtzee_bonus_count self' = Scorecard.yahtzee_bonus_count self ∧
     Scorecard.calculate_grand_total self' = Scorecard.calculate_grand_total self + 22) ∧
  (∃ self',
     Scorecard.score_category "chance" [5; 5; 5; 5; 5] self = (self', Ok true) ∧
     Scorecard.lower_scores self' !! "chance" = Some (Some 25) ∧
     Scorecard.yahtzee_bonus_count self' = Scorecard.yahtzee_bonus_count self + 1 ∧
     Scorecard.calculate_grand_total self' =
       Scorecard.calculate_grand_total self + 25 + 100).
Proof.
  intros Hwf Hy Hc. split.
  - destruct (chance_commits self [5; 5; 5; 5; 2] Hwf eq_refl Hy Hc)
      as (five & self' & Hfive & Heq & Hchance & Hbonus & Htotal).
    injection Hfive as <-. exists self'. simpl in *. repeat split; try done; lia.
  - destruct (chance_commits self [5; 5; 5; 5; 5] Hwf eq_refl Hy Hc)
      as (five & self' & Hfive & Heq & Hchance & Hbonus & Htotal).
    injection Hfive as <-. exists self'. simpl in *. repeat split; try done; lia.
Qed.

Lemma wf_yahtzee_scored : Scorecard.wf Scorecard.yahtzee_scored.
Proof. apply score_category_wf; [apply wf_init | reflexivity]. Qed.

Lemma chance_after_yahtzee_witness :
  Scorecard.wf Scorecard.yahtzee_scored ∧
  Scorecard.lower_scores Scorecard.yahtzee_scored !! "yahtzee" = Some (Some 50) ∧
  Scorecard.lower_scores Scorecard.yahtzee_scored !! "chance" = Some None ∧
  ∃ self',
    Scorecard.score_category "chance" [5; 5; 5; 5; 2] Scorecard.yahtzee_scored = (self', Ok true) ∧
    Scorecard.lower_scores self' !! "chance" = Some (Some 22) ∧
    Scorecard.yahtzee_bonus_count self' = Scorecard.yahtzee_bonus_count Scorecard.yahtzee_scored ∧
    Scorecard.calculate_grand_total self' =
      Scorecard.calculate_grand_total Scorecard.yahtzee_scored + 22.
Proof.
  split; [apply wf_yahtzee_scored|].
  split; [vm_compute; reflexivity|]. split; [vm_compute; reflexivity|].
  apply (chance_after_yahtzee Scorecard.yahtzee_scored);
    [apply wf_yahtzee_scored | vm_compute; reflexivity | vm_compute; reflexivity].
Defined.

(** C3 as stated fails: after yahtzee is committed at 50, committing
    [[5,5,5,5,2]] to chance leaves the bonus count at 0 and takes the grand
    total from 50 to 72. *)
Lemma four_fives_earn_no_bonus :
  Scorecard.lower_scores Scorecard.yahtzee_scored !! "yahtzee" = Some (Some 50) ∧
  (Scorecard.score_category "chance" [5; 5; 5; 5; 2] Scorecard.yahtzee_scored).2 = Ok true ∧
  Scorecard.yahtzee_bonus_count
    (Scorecard.score_category "chance" [5; 5; 5; 5; 2] Scorecard.yahtzee_scored).1 = 0 ∧
  Scorecard.yahtzee_bonus_count Scorecard.yahtzee_scored = 0 ∧
  Scorecard.calculate_grand_total Scorecard.yahtzee_scored = 50 ∧
  Scorecard.calculate_grand_total
    (Scorecard.score_category "chance" [5; 5; 5; 5; 2] Scorecard.yahtzee_scored).1 = 72.
Proof. repeat split; vm_compute; reflexivity. Qed.

End scorecard.

(** ** The player game *)
Section game.
Implicit Types (gm : Game.YahtzeeGame) (g : Rng) (s : Game.St) (category : string).

Lemma on_dice_eq {A} (m : M Dice.St A) gm g :
  Game.on_dice m (gm, g) =
    ((Game.set_dice (m (Game.dice gm, g)).1.1 gm, (m (Game.dice gm, g)).1.2),
     (m (Game.dice gm, g)).2).
Proof. unfold Game.on_dice, zoom. simpl. by destruct (m _) as [[d' g'] r]. Qed.

Lemma on_scorecard_eq {A} (m : M Scorecard.YahtzeeScorecard A) gm g :
  Game.on_scorecard m (gm, g) =
    ((Game.set_scorecard (m (Game.scorecard gm)).1 gm, g), (m (Game.scorecard gm)).2).
Proof. unfold Game.on_scorecard, zoom. simpl. by destruct (m _) as [sc' r]. Qed.

Lemma set_dice_id gm : Game.set_dice (Game.dice gm) gm = gm.
Proof. by destruct gm. Qed.

Lemma set_scorecard_id gm : Game.set_scorecard (Game.scorecard gm) gm = gm.
Proof. by destruct gm. Qed.

(** A roll of an open game is the roll of its dice; nothing else changes. *)
Lemma roll_dice_eq keep_dice gm g :
  Game.game_complete gm = false →
  ∃ m : M Dice.St (list Z),
    m = match keep_dice with
        | None => Dice.roll_all
        | Some keep_dice => Dice.roll_with_keep keep_dice
        end ∧
    Game.roll_dice keep_dice (gm, g) =
      ((Game.set_dice (m (Game.dice gm, g)).1.1 gm, (m (Game.dice gm, g)).1.2),
       (m (Game.dice gm, g)).2).
Proof.
  intros Hopen. eexists. split; [reflexivity|].
  unfold Game.roll_dice. simpl. rewrite Hopen.
  destruct keep_dice; apply on_dice_eq.
Qed.

Lemma roll_dice_complete keep_dice gm g :
  Game.game_complete gm = true →
  Game.roll_dice keep_dice (gm, g) = ((gm, g), Raise GameAlreadyComplete).
Proof. intros Hdone. unfold Game.roll_dice. simpl. by rewrite Hdone. Qed.

Lemma roll_dice_game_complete keep_dice gm g :
  Game.game_complete (Game.roll_dice keep_dice (gm, g)).1.1 = Game.game_complete gm.
Proof.
  destruct (Game.game_complete gm) eqn:Hc.
  - by rewrite roll_dice_complete.
  - destruct (roll_dice_eq keep_dice gm g Hc) as (m & _ & ->). done.
Qed.

Lemma start_new_turn_eq gm g :
  Game.game_complete gm = false →
  Game.start_new_turn (gm, g) =
    let out := Dice.roll_all (Dice.set_rolls_remaining 3 (Game.dice gm), g) in
    ((Game.set_dice out.1.1 gm, out.1.2),
     match out.2 with Ok _ => Ok () | Raise e => Raise e end).
Proof.
  intros Hopen. unfold Game.start_new_turn. simpl. rewrite Hopen.
  unfold mbind, M_bind. rewrite on_dice_eq. simpl.
  rewrite on_dice_eq. simpl.
  destruct (Dice.roll_all _) as [[d' g'] [r|e]]; simpl; by destruct gm.
Qed.

Lemma score_category_complete category gm g :
  Game.game_complete gm = true →
  Game.score_category category (gm, g) = ((gm, g), Ok false).
Proof. intros Hdone. unfold Game.score_category. simpl. by rewrite Hdone. Qed.

(** [score_category] on an open game, by the outcome of the scorecard's
    commit. *)
Lemma score_category_eq category gm g :
  Game.game_complete gm = false →
  Game.score_category category (gm, g) =
    let out := Scorecard.score_category category (Dice.dice (Game.dice gm))
                 (Game.scorecard gm) in
    let gm1 := Game.set_scorecard out.1 gm in
    match out.2 with
    | Raise e => ((gm1, g), Raise e)
    | Ok false => ((gm1, g), Ok false)
    | Ok true =>
      let gm2 := Game.set_current_turn (Game.current_turn gm + 1) gm1 in
      if bool_decide (Game.current_turn gm2 > Game.max_turns gm2)
         || Scorecard.is_complete (Game.scorecard gm2)
      then ((Game.set_game_complete true gm2, g), Ok true)
      else let roll := Game.start_new_turn (gm2, g) in
           (roll.1, match roll.2 with Ok _ => Ok true | Raise e => Raise e end)
    end.
Proof.
  intros Hopen. unfold Game.score_category. simpl. rewrite Hopen.
  unfold mbind, M_bind. rewrite on_dice_eq. simpl. rewrite set_dice_id.
  rewrite on_scorecard_eq. simpl.
  destruct (Scorecard.score_category _ _ _) as [sc' [[|]|e]]; simpl; try done.
  destruct (_ || _); simpl; [done|].
  by destruct (Game.start_new_turn _) as [[gm' g'] [[]|e]].
Qed.

(** The scorecard's commit on a scorecard of the right shape returns. *)
Lemma scorecard_commit_returns category dice (self : Scorecard.YahtzeeScorecard) :
  Scorecard.wf self → length dice = 5%nat →
  ∃ self' success, Scorecard.score_category category dice self = (self', Ok success).
Proof.
  intros Hwf Hlen. destruct (Scorecard.is_category_available self category) eqn:Hav.
  - destruct (score_category_commits self category dice Hwf Hlen Hav)
      as (ps & v & five & _ & _ & _ & ->). eauto.
  - rewrite score_category_unavailable by done. eauto.
Qed.

(** On a game with five dice and a scorecard of the right shape
    [score_category] returns; the dice are rolled (budget reset to 3, one
    roll spent, five draws) exactly when the commit succeeded and did not
    end the game, and are left alone otherwise. *)
Lemma score_category_outcome category gm g :
  length (Dice.dice (Game.dice gm)) = 5%nat → Scorecard.wf (Game.scorecard gm) →
  ∃ gm' g' success,
    Game.score_category category (gm, g) = ((gm', g'), Ok success) ∧
    if success && negb (Game.game_complete gm')
    then Dice.rolls_remaining (Game.dice gm') = 2 ∧ cursor g' = (cursor g + 5)%nat ∧
         length (Dice.dice (Game.dice gm')) = 5%nat
    else Game.dice gm' = Game.dice gm ∧ g' = g.
Proof.
  intros Hlen Hwf. destruct (Game.game_complete gm) eqn:Hc.
  { rewrite score_category_complete by done. by exists gm, g, false. }
  rewrite score_category_eq by done.
  destruct (scorecard_commit_returns category _ _ Hwf Hlen) as (sc' & success & ->).
  cbv zeta. cbn [fst snd]. destruct success; [|by eexists _, _, false].
  match goal with |- context [if ?b then _ else _] => destruct b end.
  { by eexists _, _, true. }
  rewrite start_new_turn_eq by done. cbv zeta.
  cbn [Game.dice Game.set_current_turn Game.set_scorecard].
  destruct (roll_all_ok (Dice.set_rolls_remaining 3 (Game.dice gm)) g)
    as (faces & g' & -> & Hfaces & Hcur & _); [done | simpl; lia |].
  eexists _, _, true. split; [reflexivity|]. simpl. rewrite Hc. simpl. done.
Qed.
End game.

(** ** Insertion-ordered dicts *)
Section pydict.
Context {V : Type}.
Implicit Types (d : PyDict.dict V) (k : string) (v : V).

Lemma getitem_setitem_eq d k v : PyDict.getitem (PyDict.setitem d k v) k = Some v.
Proof.
  induction d as [|[k' v'] d IH]; simpl.
  - by rewrite decide_True.
  - case_decide; simpl; [by rewrite decide_True | by rewrite decide_False].
Qed.

Lemma getitem_setitem_ne d k k' v :
  k ≠ k' → PyDict.getitem (PyDict.setitem d k v) k' = PyDict.getitem d k'.
Proof.
  intros Hne. induction d as [|[k0 v0] d IH]; simpl.
  - by rewrite decide_False.
  - case_decide; simpl.
    + subst. by rewrite !decide_False.
    + case_decide; [done | apply IH].
Qed.

Lemma setitem_getitem_id d k v :
  PyDict.getitem d k = Some v → PyDict.setitem d k v = d.
Proof.
  induction d as [|[k0 v0] d IH]; simpl; [done|].
  case_decide; [intros [= ->]; by subst | intros Hk; f_equal; by apply IH].
Qed.

Lemma getitem_None d k : PyDict.getitem d k = None ↔ k ∉ PyDict.keys d.
Proof.
  unfold PyDict.keys. induction d as [|[k0 v0] d IH]; simpl.
  - split; [intros _; apply not_elem_of_nil | done].
  - rewrite not_elem_of_cons. case_decide as Hk.
    + subst. split; [done | by intros [? _]].
    + rewrite IH. split; [by split | by intros [_ ?]].
Qed.

Lemma keys_setitem_old d k v :
  is_Some (PyDict.getitem d k) → PyDict.keys (PyDict.setitem d k v) = PyDict.keys d.
Proof.
  unfold PyDict.keys. induction d as [|[k0 v0] d IH]; simpl; [by intros []|].
  case_decide; simpl; [by subst | intros Hk; f_equal; by apply IH].
Qed.

Lemma keys_setitem_new d k v :
  PyDict.getitem d k = None → PyDict.keys (PyDict.setitem d k v) = PyDict.keys d ++ [k].
Proof.
  unfold PyDict.keys. induction d as [|[k0 v0] d IH]; simpl; [done|].
  case_decide; simpl; [done | intros Hk; f_equal; by apply IH].
Qed.

Lemma getitem_values d k v : PyDict.getitem d k = Some v → v ∈ PyDict.values d.
Proof.
  unfold PyDict.values. induction d as [|[k0 v0] d IH]; simpl; [done|].
  case_decide; [intros [= ->]; left | intros ?%IH; by right].
Qed.

Lemma NoDup_keys_setitem d k v :
  NoDup (PyDict.keys d) → NoDup (PyDict.keys (PyDict.setitem d k v)).
Proof.
  intros Hd. destruct (PyDict.getitem d k) as [v'|] eqn:Hk.
  - by rewrite keys_setitem_old.
  - rewrite keys_setitem_new by done. apply NoDup_app. split; [done|].
    split; [|apply NoDup_singleton].
    intros x Hx ->%list_elem_of_singleton. by apply getitem_None in Hk.
Qed.
End pydict.

(** ** The server *)
Section server.
Implicit Types (st : GameState.GameState) (g : Rng) (msg : Server.CommandMsg).
Implicit Types (game : Game.YahtzeeGame).

Lemma on_game_eq {A} (m : M Game.St A) p st g game :
  PyDict.getitem (GameState.scores st) p = Some game →
  Server.on_game p m (st, g) =
    ((GameState.set_scores (PyDict.setitem (GameState.scores st) p (m (game, g)).1.1) st,
      (m (game, g)).1.2), (m (game, g)).2).
Proof. intros Hp. unfold Server.on_game. rewrite Hp. by destruct (m _) as [[game' g'] r]. Qed.

Lemma command_unknown_player msg st g :
  PyDict.getitem (GameState.scores st) (Server.player msg) = None →
  Server.command_in_room msg (st, g) = ((st, g), Raise (KeyError (Server.player msg))).
Proof. intros Hp. unfold Server.command_in_room. simpl. by rewrite Hp. Qed.

Lemma command_roll_eq msg st g game :
  Server.command msg = "roll" →
  PyDict.getitem (GameState.scores st) (Server.player msg) = Some game →
  Server.command_in_room msg (st, g) =
    let out := Game.roll_dice (default (Some (replicate 5 false)) (Server.keep msg))
                 (game, g) in
    ((GameState.set_scores
        (PyDict.setitem (GameState.scores st) (Server.player msg) out.1.1) st, out.1.2),
     match out.2 with Ok _ => Ok () | Raise e => Raise e end).
Proof.
  intros Hcmd Hp. unfold Server.command_in_room. simpl. rewrite Hp, Hcmd.
  rewrite decide_True by done. unfold mbind, M_bind.
  rewrite (on_game_eq _ _ _ _ _ Hp). cbv zeta.
  by destruct (Game.roll_dice _ _) as [[game' g'] [r|e]].
Qed.

Lemma command_other_eq msg st g game :
  Server.command msg ≠ "roll" → Server.command msg ≠ "score" →
  PyDict.getitem (GameState.scores st) (Server.player msg) = Some game →
  Server.command_in_room msg (st, g) = ((st, g), Ok ()).
Proof.
  intros Hroll Hscore Hp. unfold Server.command_in_room. simpl. rewrite Hp.
  by rewrite !decide_False.
Qed.

Lemma command_score_no_category msg st g game :
  Server.command msg = "score" → Server.category msg = None →
  PyDict.getitem (GameState.scores st) (Server.player msg) = Some game →
  Server.command_in_room msg (st, g) = ((st, g), Raise (KeyError "category")).
Proof.
  intros Hcmd Hcat Hp. unfold Server.command_in_room. simpl. rewrite Hp, Hcmd, Hcat.
  by rewrite decide_False, decide_True.
Qed.

(** [after_score] written out: dice locks reset, turn moved on, winner
    and final scores set when all games are complete. *)
Lemma after_score_eq st :
  Server.after_score st =
    let st2 := GameState.set_keep (Some (replicate 5 false)) st in
    if decide (length (GameState.players st) = 0%nat) then (st2, Raise ZeroDivisionError)
    else
      let st3 :=
        GameState.set_turn_index
          ((GameState.turn_index st + 1) `mod` Z.of_nat (length (GameState.players st)))
          st2 in
      if Server.all_done st3 then
        match PyDict.max_key (Server.current_scores st3) with
        | Raise e => (st3, Raise e)
        | Ok winner =>
          (GameState.set_final_scores (Server.current_scores st3)
             (GameState.set_winner (Some winner) st3), Ok ())
        end
      else (st3, Ok ()).
Proof.
  unfold Server.after_score, GameState.next_turn, mbind, M_bind, modify, gets, lift.
  cbn [fst snd]. cbv zeta. cbn [GameState.players GameState.set_keep GameState.turn_index].
  destruct (decide _); [done|]. cbn [id].
  destruct (Server.all_done _); [|done].
  by destruct (PyDict.max_key _).
Qed.

Lemma command_score_eq msg st g game category :
  Server.command msg = "score" → Server.category msg = Some category →
  PyDict.getitem (GameState.scores st) (Server.player msg) = Some game →
  Server.command_in_room msg (st, g) =
    let out := Game.score_category category (game, g) in
    let st1 :=
      GameState.set_scores
        (PyDict.setitem (GameState.scores st) (Server.player msg) out.1.1) st in
    match out.2 with
    | Raise e => ((st1, out.1.2), Raise e)
    | Ok _ => (((Server.after_score st1).1, out.1.2), (Server.after_score st1).2)
    end.
Proof.
  intros Hcmd Hcat Hp. unfold Server.command_in_room. simpl. rewrite Hp, Hcmd, Hcat.
  rewrite decide_False, decide_True by done. unfold mbind, M_bind.
  rewrite (on_game_eq _ _ _ _ _ Hp). cbv zeta.
  destruct (Game.score_category _ _) as [[game' g'] [r|e]]; [|done].
  cbn [fst snd]. unfold Server.on_state, zoom. cbn [fst snd].
  by destruct (Server.after_score _).
Qed.

(** The turn index after [after_score]: moved on by one, cyclically, unless
    the room has no player. *)
Lemma after_score_turn_index st :
  GameState.players st ≠ [] →
  GameState.turn_index (Server.after_score st).1 =
    (GameState.turn_index st + 1) `mod` Z.of_nat (length (GameState.players st)).
Proof.
  intros Hplayers. rewrite after_score_eq. cbv zeta.
  destruct (decide _) as [Hlen|_]; [by destruct (GameState.players st)|].
  destruct (Server.all_done _); [|done]. by destruct (PyDict.max_key _).
Qed.

Lemma after_score_scores st :
  GameState.scores (Server.after_score st).1 = GameState.scores st.
Proof.
  rewrite after_score_eq. cbv zeta.
  destruct (decide _); [done|].
  destruct (Server.all_done _); [|done]. by destruct (PyDict.max_key _).
Qed.

Lemma after_score_players st :
  GameState.players (Server.after_score st).1 = GameState.players st.
Proof.
  rewrite after_score_eq. cbv zeta.
  destruct (decide _); [done|].
  destruct (Server.all_done _); [|done]. by destruct (PyDict.max_key _).
Qed.

(** A command other than score leaves the turn index alone. *)
Lemma command_keeps_turn_index msg st g :
  Server.command msg ≠ "score" →
  GameState.turn_index (Server.command_in_room msg (st, g)).1.1 = GameState.turn_index st.
Proof.
  intros Hcmd.
  destruct (PyDict.getitem (GameState.scores st) (Server.player msg)) as [game|] eqn:Hp.
  - destruct (decide (Server.command msg = "roll")) as [Hroll|Hroll].
    + by rewrite (command_roll_eq _ _ _ _ Hroll Hp).
    + by rewrite (command_other_eq _ _ _ _ Hroll Hcmd Hp).
  - by rewrite command_unknown_player.
Qed.

(** A score command that returns has moved the turn index on by one. *)
Lemma score_returns_turn_index msg st g st' g' :
  Server.command msg = "score" →
  Server.command_in_room msg (st, g) = ((st', g'), Ok ()) →
  GameState.players st ≠ [] ∧ GameState.players st' = GameState.players st ∧
  GameState.turn_index st' =
    (GameState.turn_index st + 1) `mod` Z.of_nat (length (GameState.players st)).
Proof.
  intros Hcmd Hout.
  destruct (PyDict.getitem (GameState.scores st) (Server.player msg)) as [game|] eqn:Hp;
    [|by rewrite command_unknown_player in Hout].
  destruct (Server.category msg) as [category|] eqn:Hcat;
    [|by rewrite (command_score_no_category _ _ _ _ Hcmd Hcat Hp) in Hout].
  rewrite (command_score_eq _ _ _ _ _ Hcmd Hcat Hp) in Hout. cbv zeta in Hout.
  destruct (Game.score_category _ _) as [[game' g1] [success|e]]; [|done].
  cbn [fst snd] in Hout. injection Hout as <- <- Hres.
  set (st1 := GameState.set_scores _ st) in *.
  assert (GameState.players st ≠ []) as Hplayers.
  { intros Hnil. rewrite after_score_eq in Hres. cbv zeta in Hres.
    change (GameState.players st1) with (GameState.players st) in Hres.
    rewrite Hnil in Hres. done. }
  split; [done|]. rewrite after_score_players. split; [done|].
  rewrite after_score_turn_index; [done | exact Hplayers].
Qed.

Lemma current_scores_nonempty st :
  GameState.scores st ≠ [] → ∃ w, PyDict.max_key (Server.current_scores st) = Ok w.
Proof.
  intros Hne. unfold Server.current_scores.
  assert (Hfold : ∀ (l : PyDict.dict Game.YahtzeeGame) (acc : PyDict.dict Z),
            acc ≠ [] ∨ l ≠ [] →
            foldl (λ scores '(p, gm), PyDict.setitem scores p (Game.get_current_score gm))
                  acc l ≠ []).
  { induction l as [|[p gm] l IH]; intros acc Hacc; simpl.
    - by destruct Hacc.
    - apply IH. left. by destruct acc as [|[] ?]; simpl; [|case_decide]. }
  specialize (Hfold (GameState.scores st) [] (or_intror Hne)).
  destruct (foldl _ _ _) as [|kv d]; [done|]. by eexists.
Qed.

(** Once the game's [score_category] has returned, true or false, the score
    command returns and the turn index has moved on. *)
Lemma score_moves_turn_index msg st g game category success :
  GameState.players st ≠ [] →
  Server.command msg = "score" → Server.category msg = Some category →
  PyDict.getitem (GameState.scores st) (Server.player msg) = Some game →
  (Game.score_category category (game, g)).2 = Ok success →
  (Server.command_in_room msg (st, g)).2 = Ok () ∧
  GameState.turn_index (Server.command_in_room msg (st, g)).1.1 =
    (GameState.turn_index st + 1) `mod` Z.of_nat (length (GameState.players st)).
Proof.
  intros Hplayers Hcmd Hcat Hp Hret.
  rewrite (command_score_eq _ _ _ _ _ Hcmd Hcat Hp). cbv zeta. rewrite Hret.
  cbn [fst snd]. set (st1 := GameState.set_scores _ st).
  split; [|rewrite after_score_turn_index; [reflexivity | exact Hplayers]].
  rewrite after_score_eq. cbv zeta.
  destruct (decide _) as [Hlen|_]; [apply nil_length_inv in Hlen; destruct (Hplayers Hlen)|].
  destruct (Server.all_done _); [|done].
  match goal with |- context [PyDict.max_key (Server.current_scores ?s)] =>
    destruct (current_scores_nonempty s) as [w ->] end; [|done].
  cbn [GameState.scores GameState.set_turn_index GameState.set_keep st1 GameState.set_scores].
  intros Hnil. pose proof (getitem_setitem_eq (GameState.scores st) (Server.player msg)
    (Game.score_category category (game, g)).1.1) as Hget.
  by rewrite Hnil in Hget.
Qed.

(** C2, as the code has it: in a room with players, a command other than
    score (a roll among them) leaves [turn_index] as it was; a score
    command moves it to [(turn_index + 1) mod len(players)] as soon as the
    game's [score_category] has returned, whether it returned True or
    False. *)
Theorem turn_index_moves_on_score msg st g :
  GameState.players st ≠ [] →
  (Server.command msg ≠ "score" →
   GameState.turn_index (Server.command_in_room msg (st, g)).1.1 = GameState.turn_index st) ∧
  (∀ game category success,
     Server.command msg = "score" → Server.category msg = Some category →
     PyDict.getitem (GameState.scores st) (Server.player msg) = Some game →
     (Game.score_category category (game, g)).2 = Ok success →
     (Server.command_in_room msg (st, g)).2 = Ok () ∧
     GameState.turn_index (Server.command_in_room msg (st, g)).1.1 =
       (GameState.turn_index st + 1) `mod` Z.of_nat (length (GameState.players st))).
Proof.
  intros Hplayers. split.
  - apply command_keeps_turn_index.
  - intros game category success. by apply score_moves_turn_index.
Qed.

Lemma turn_index_moves_on_score_witness :
  GameState.players (Server.room_1234 Server.lobby) ≠ [] ∧
  (Game.score_category "bogus" (Game.init "A", Server.lobby.2)).2 = Ok false ∧
  GameState.turn_index (Server.room_1234 Server.lobby) = 0 ∧
  GameState.turn_index
    (Server.command_in_room (Server.score "A" "bogus")
       (Server.room_1234 Server.lobby, Server.lobby.2)).1.1 =
    (0 + 1) `mod` 2.
Proof.
  split; [vm_compute; discriminate|]. split; [reflexivity|]. split; [reflexivity|].
  refine (proj2 (proj2 (turn_index_moves_on_score (Server.score "A" "bogus")
             (Server.room_1234 Server.lobby) Server.lobby.2 _)
           (Game.init "A") "bogus" false _ _ _ _)).
  - vm_compute; discriminate.
  - reflexivity.
  - reflexivity.
  - reflexivity.
  - reflexivity.
Defined.

(** C2 as stated fails: in the room A created and B joined, a score
    command of A for a category that does not exist commits nothing (the
    game's [score_category] returns False, A's game is unchanged) and the
    turn index goes from 0 to 1. *)
Lemma failed_score_moves_turn :
  let s := Server.lobby in
  let s' := (Server.handle_command (Server.score "A" "bogus") s).1 in
  GameState.players (Server.room_1234 s) = ["A"; "B"] ∧
  (Game.score_category "bogus" (Game.init "A", s.2)).2 = Ok false ∧
  PyDict.getitem (GameState.scores (Server.room_1234 s')) "A" = Some (Game.init "A") ∧
  GameState.turn_index (Server.room_1234 s) = 0 ∧
  GameState.turn_index (Server.room_1234 s') = 1.
Proof. repeat split; vm_compute; reflexivity. Qed.

(** [after_score] does not read the turn index except to move it on. *)
Lemma after_score_ignores_turn st t :
  (Server.after_score (GameState.set_turn_index t st)).2 = (Server.after_score st).2 ∧
  GameState.set_turn_index (GameState.turn_index (Server.after_score st).1)
    (Server.after_score (GameState.set_turn_index t st)).1 = (Server.after_score st).1.
Proof.
  rewrite !after_score_eq. cbv zeta.
  cbn [GameState.players GameState.set_turn_index].
  destruct (decide _); [done|].
  change (Server.all_done (GameState.set_turn_index _ (GameState.set_keep _ _)))
    with (Server.all_done st).
  change (Server.all_done (GameState.set_turn_index _ (GameState.set_keep _ st)))
    with (Server.all_done st).
  destruct (Server.all_done st); [|done].
  change (Server.current_scores (GameState.set_turn_index _ (GameState.set_keep _ _)))
    with (Server.current_scores st).
  change (Server.current_scores (GameState.set_turn_index _ (GameState.set_keep _ st)))
    with (Server.current_scores st).
  by destruct (PyDict.max_key _).
Qed.

(** What a command does to the room does not depend on the turn index the
    room had, the turn index itself apart. *)
Lemma command_ignores_turn msg st g t :
  let out := Server.command_in_room msg (st, g) in
  let out' := Server.command_in_room msg (GameState.set_turn_index t st, g) in
  out'.2 = out.2 ∧ out'.1.2 = out.1.2 ∧
  GameState.set_turn_index (GameState.turn_index out.1.1) out'.1.1 = out.1.1.
Proof.
  cbv zeta.
  destruct (PyDict.getitem (GameState.scores st) (Server.player msg)) as [game|] eqn:Hp.
  2: { rewrite !command_unknown_player by done. by destruct st. }
  destruct (decide (Server.command msg = "roll")) as [Hroll|Hroll].
  { rewrite (command_roll_eq _ st _ _ Hroll Hp).
    rewrite (command_roll_eq _ (GameState.set_turn_index t st) _ _ Hroll Hp).
    by destruct st. }
  destruct (decide (Server.command msg = "score")) as [Hscore|Hscore].
  2: { rewrite (command_other_eq _ st _ _ Hroll Hscore Hp).
       rewrite (command_other_eq _ (GameState.set_turn_index t st) _ _ Hroll Hscore Hp).
       by destruct st. }
  destruct (Server.category msg) as [category|] eqn:Hcat.
  2: { rewrite (command_score_no_category _ st _ _ Hscore Hcat Hp).
       rewrite (command_score_no_category _ (GameState.set_turn_index t st) _ _
                  Hscore Hcat Hp).
       by destruct st. }
  rewrite (command_score_eq _ st _ _ _ Hscore Hcat Hp).
  rewrite (command_score_eq _ (GameState.set_turn_index t st) _ _ _ Hscore Hcat Hp).
  cbv zeta. destruct (Game.score_category _ _) as [[game' g'] [success|e]]; cbn [fst snd].
  - destruct (after_score_ignores_turn
                (GameState.set_scores
                   (PyDict.setitem (GameState.scores st) (Server.player msg) game') st) t)
      as [Hres Hst].
    split; [exact Hres | split; [reflexivity | exact Hst]].
  - by destruct st.
Qed.

(** The game the room holds for the named player after a roll or score
    command is the one the game's method left. *)
Lemma command_applies_to_named_player msg st g game :
  PyDict.getitem (GameState.scores st) (Server.player msg) = Some game →
  (Server.command msg = "roll" →
   PyDict.getitem (GameState.scores (Server.command_in_room msg (st, g)).1.1)
     (Server.player msg) =
   Some (Game.roll_dice (default (Some (replicate 5 false)) (Server.keep msg))
           (game, g)).1.1) ∧
  (∀ category,
     Server.command msg = "score" → Server.category msg = Some category →
     PyDict.getitem (GameState.scores (Server.command_in_room msg (st, g)).1.1)
       (Server.player msg) =
     Some (Game.score_category category (game, g)).1.1).
Proof.
  intros Hp. split.
  - intros Hroll. rewrite (command_roll_eq _ _ _ _ Hroll Hp). cbv zeta. cbn [fst].
    apply getitem_setitem_eq.
  - intros category Hscore Hcat.
    rewrite (command_score_eq _ _ _ _ _ Hscore Hcat Hp). cbv zeta.
    destruct (Game.score_category _ _) as [[game' g'] [success|e]]; cbn [fst snd].
    + rewrite after_score_scores. apply getitem_setitem_eq.
    + apply getitem_setitem_eq.
Qed.

(** C1, as the code has it: the handler does not look at whose turn it is.
    Run from a room that differs in [turn_index] only, a command has the
    same outcome, draws the same random values and leaves the same room,
    [turn_index] apart; the named player's game is rolled or scored; and two
    score commands that return move [turn_index] on twice. *)
Theorem commands_ignore_turn msg st g t :
  let out := Server.command_in_room msg (st, g) in
  let out' := Server.command_in_room msg (GameState.set_turn_index t st, g) in
  (out'.2 = out.2 ∧ out'.1.2 = out.1.2 ∧
   GameState.set_turn_index (GameState.turn_index out.1.1) out'.1.1 = out.1.1) ∧
  (∀ game,
     PyDict.getitem (GameState.scores st) (Server.player msg) = Some game →
     (Server.command msg = "roll" →
      PyDict.getitem (GameState.scores out.1.1) (Server.player msg) =
      Some (Game.roll_dice (default (Some (replicate 5 false)) (Server.keep msg))
              (game, g)).1.1) ∧
     (∀ category,
        Server.command msg = "score" → Server.category msg = Some category →
        PyDict.getitem (GameState.scores out.1.1) (Server.player msg) =
        Some (Game.score_category category (game, g)).1.1)) ∧
  (∀ msg2,
     Server.command msg = "score" → Server.command msg2 = "score" →
     out.2 = Ok () → (Server.command_in_room msg2 out.1).2 = Ok () →
     GameState.turn_index (Server.command_in_room msg2 out.1).1.1 =
       ((GameState.turn_index st + 1) `mod` Z.of_nat (length (GameState.players st)) + 1)
         `mod` Z.of_nat (length (GameState.players st))).
Proof.
  cbv zeta. split; [apply command_ignores_turn|]. split.
  - intros game. apply command_applies_to_named_player.
  - intros msg2 Hscore1 Hscore2 Hout1 Hout2.
    destruct (Server.command_in_room msg (st, g)) as [[st1 g1] r1] eqn:H1.
    cbn [fst snd] in *. subst r1.
    destruct (Server.command_in_room msg2 (st1, g1)) as [[st2 g2] r2] eqn:H2.
    cbn [fst snd] in *. subst r2.
    destruct (score_returns_turn_index _ _ _ _ _ Hscore1 H1) as (_ & Hpl & Ht1).
    destruct (score_returns_turn_index _ _ _ _ _ Hscore2 H2) as (_ & _ & Ht2).
    by rewrite Ht2, Ht1, Hpl.
Qed.

Lemma commands_ignore_turn_witness :
  let s1 := (Server.command_in_room (Server.score "A" "ones")
               (Server.room_1234 Server.lobby, Server.lobby.2)).1 in
  (Server.command_in_room (Server.score "A" "ones")
     (Server.room_1234 Server.lobby, Server.lobby.2)).2 = Ok () ∧
  (Server.command_in_room (Server.score "B" "ones") s1).2 = Ok () ∧
  GameState.turn_index (Server.command_in_room (Server.score "B" "ones") s1).1.1 =
    ((0 + 1) `mod` 2 + 1) `mod` 2.
Proof.
  cbv zeta. split; [vm_compute; reflexivity|]. split; [vm_compute; reflexivity|].
  refine (proj2 (proj2 (commands_ignore_turn (Server.score "A" "ones")
                          (Server.room_1234 Server.lobby) Server.lobby.2 0))
            (Server.score "B" "ones") eq_refl eq_refl _ _);
    vm_compute; reflexivity.
Defined.

(** C1 as stated fails: in the room A created and B joined it is A's turn,
    yet a roll command naming B rolls B's dice, and of the two score
    commands for A and for B both commit (5 points each) and the turn index
    goes 0, 1, 0. *)
Lemma out_of_turn_commands_applied :
  let s := Server.lobby in
  let rolled := (Server.handle_command (Server.roll "B" (replicate 5 false)) s) in
  let s1 := (Server.handle_command (Server.score "A" "ones") s) in
  let s2 := (Server.handle_command (Server.score "B" "ones") s1.1) in
  let game_of (p : string) (s : Server.St) :=
    PyDict.getitem (GameState.scores (Server.room_1234 s)) p in
  GameState.current_player (Server.room_1234 s) = Ok "A" ∧
  rolled.2 = Ok Server.Update ∧
  Dice.dice ∘ Game.dice <$> game_of "B" s = Some [1; 1; 1; 1; 1] ∧
  Dice.dice ∘ Game.dice <$> game_of "B" rolled.1 = Some [2; 3; 4; 5; 6] ∧
  Dice.rolls_remaining ∘ Game.dice <$> game_of "B" rolled.1 = Some 2 ∧
  s1.2 = Ok Server.Update ∧ s2.2 = Ok Server.Update ∧
  Game.get_current_score <$> game_of "A" s2.1 = Some 5 ∧
  Game.get_current_score <$> game_of "B" s2.1 = Some 5 ∧
  GameState.turn_index (Server.room_1234 s) = 0 ∧
  GameState.turn_index (Server.room_1234 s1.1) = 1 ∧
  GameState.turn_index (Server.room_1234 s2.1) = 0.
Proof. repeat split; vm_compute; reflexivity. Qed.

Lemma handle_create_eq room_code name rooms g :
  ∃ room,
    Server.handle_create room_code name (rooms, g) =
      ((<[room_code := room]> rooms, g), Ok (Server.Created room_code)) ∧
    GameState.players room = [name] ∧
    GameState.scores room = [(name, Game.init name)] ∧
    GameState.winner room = None.
Proof. eexists. split; [reflexivity|]. done. Qed.

Lemma handle_join_eq name room_code rooms g room :
  rooms !! room_code = Some room → GameState.is_full room = false →
  ∃ room',
    Server.handle_join name room_code (rooms, g) =
      ((<[room_code := room']> rooms, g), Ok (Server.Joined room_code)) ∧
    GameState.players room' = GameState.players room ++ [name] ∧
    GameState.scores room' = PyDict.setitem (GameState.scores room) name (Game.init name) ∧
    GameState.turn_index room' = GameState.turn_index room ∧
    GameState.winner room' = GameState.winner room ∧
    GameState.final_scores room' = GameState.final_scores room.
Proof.
  intros Hroom Hfull. eexists. unfold Server.handle_join. rewrite Hroom, Hfull.
  split; [reflexivity|]. done.
Qed.

Lemma handle_join_refused name room_code rooms g :
  (rooms !! room_code = None ∨
   ∃ room, rooms !! room_code = Some room ∧ GameState.is_full room = true) →
  Server.handle_join name room_code (rooms, g) =
    ((rooms, g), Ok (Server.Error "Room full or not found")).
Proof.
  unfold Server.handle_join. intros [->|(room & -> & ->)]; done.
Qed.

(** *** Room codes *)

(** The random source [k] draws later. *)
Lemma get_code_spec {V} fuel (rooms : gmap string V) g code g' :
  Server.get_code fuel rooms g = Some (code, g') →
  rooms !! code = None ∧ draws g' = draws g ∧
  ∃ k, (k < fuel)%nat ∧ cursor g' = (cursor g + S k)%nat ∧
       code = Server.str (randint 1000 9999
                            {| draws := draws g; cursor := cursor g + k |}).1.
Proof.
  revert g. induction fuel as [|fuel IH]; intros g; [done|].
  cbn [Server.get_code]. unfold randint at 1. cbv zeta.
  destruct (decide _) as [Hfree|Hused].
  - intros [= <- <-]. split; [done|]. split; [done|].
    exists 0%nat. split; [lia|]. split; [cbn; lia|].
    unfold randint. cbn [fst draws cursor]. by rewrite Nat.add_0_r.
  - intros (Hcode & Hdraws & k & Hk & Hcur & ->)%IH. cbn [draws cursor] in *.
    split; [done|]. split; [done|].
    exists (S k). split; [lia|]. split; [lia|].
    unfold randint. cbn [fst draws cursor]. do 4 f_equal. lia.
Qed.

Lemma get_code_returns {V} fuel (rooms : gmap string V) g k :
  (k < fuel)%nat →
  rooms !! Server.str (randint 1000 9999 {| draws := draws g; cursor := cursor g + k |}).1
    = None →
  is_Some (Server.get_code fuel rooms g).
Proof.
  revert g k. induction fuel as [|fuel IH]; intros g k Hk Hfree; [lia|].
  cbn [Server.get_code]. unfold randint at 1. cbv zeta.
  destruct (decide _) as [|Hused]; [by eexists|].
  destruct k as [|k].
  { destruct Hused. revert Hfree. unfold randint. cbn [fst draws cursor].
    by rewrite Nat.add_0_r. }
  apply (IH _ k); [lia|]. revert Hfree. unfold randint. cbn [fst draws cursor].
  by replace (cursor g + S k)%nat with (S (cursor g) + k)%nat by lia.
Qed.

(** What [create] does once [get_code()] has returned. *)
Lemma create_eq fuel name rooms g code g' :
  Server.get_code fuel rooms g = Some (code, g') →
  ∃ room,
    Server.create fuel name (rooms, g)
      = Some ((<[code := room]> rooms, g'), Ok (Server.Created code)) ∧
    GameState.players room = [name] ∧
    GameState.scores room = [(name, Game.init name)].
Proof.
  intros Hcode. unfold Server.create. rewrite Hcode.
  destruct (handle_create_eq code name rooms g') as (room & -> & Hplayers & Hscores & _).
  by exists room.
Qed.

(** C10: a new game, as create and join put it into the room, shows five
    1s, has 3 rolls left, is at turn 1 and is not complete.  Create draws
    room codes from the random source until one names no room and rolls no
    dice: when [get_code()] returns, the room is registered under that code
    with the new game in it, and the random source is as the call left it,
    at least one draw on; a free code among the first [fuel] draws makes the
    call return.  Join draws nothing.  The dice are rolled by
    [score_category] itself, exactly when a commit succeeded and did not
    end the game: the budget is reset and one roll of five draws is spent;
    otherwise dice and random source are left alone. *)
Theorem fresh_game_unrolled (name room_code : string) rooms g :
  (Dice.dice (Game.dice (Game.init name)) = [1; 1; 1; 1; 1] ∧
   Dice.rolls_remaining (Game.dice (Game.init name)) = 3 ∧
   Game.current_turn (Game.init name) = 1 ∧
   Game.game_complete (Game.init name) = false) ∧
  (∀ fuel,
     match Server.get_code fuel rooms g with
     | Some (code, g') =>
         rooms !! code = None ∧ draws g' = draws g ∧ (cursor g < cursor g')%nat ∧
         ∃ room,
           Server.create fuel name (rooms, g)
             = Some ((<[code := room]> rooms, g'), Ok (Server.Created code)) ∧
           PyDict.getitem (GameState.scores room) name = Some (Game.init name)
     | None => Server.create fuel name (rooms, g) = None
     end) ∧
  (∀ fuel k,
     (k < fuel)%nat →
     rooms !! Server.str (randint 1000 9999
                            {| draws := draws g; cursor := cursor g + k |}).1 = None →
     is_Some (Server.create fuel name (rooms, g))) ∧
  (∀ room,
     rooms !! room_code = Some room → GameState.is_full room = false →
     ∃ room',
       Server.handle_join name room_code (rooms, g) =
         ((<[room_code := room']> rooms, g), Ok (Server.Joined room_code)) ∧
       PyDict.getitem (GameState.scores room') name = Some (Game.init name)) ∧
  (∀ (gm : Game.YahtzeeGame) (category : string),
     length (Dice.dice (Game.dice gm)) = 5%nat → Scorecard.wf (Game.scorecard gm) →
     ∃ gm' g' success,
       Game.score_category category (gm, g) = ((gm', g'), Ok success) ∧
       if success && negb (Game.game_complete gm')
       then Dice.rolls_remaining (Game.dice gm') = 2 ∧ cursor g' = (cursor g + 5)%nat ∧
            length (Dice.dice (Game.dice gm')) = 5%nat
       else Game.dice gm' = Game.dice gm ∧ g' = g).
Proof.
  split; [done|]. split; [|split; [|split]].
  - intros fuel. destruct (Server.get_code fuel rooms g) as [[code g']|] eqn:Hcode.
    + destruct (get_code_spec _ _ _ _ _ Hcode) as (Hfree & Hdraws & k & _ & Hcur & _).
      split; [done|]. split; [done|]. split; [lia|].
      destruct (create_eq fuel name rooms g code g' Hcode) as (room & Heq & _ & Hscores).
      exists room. split; [done|]. rewrite Hscores. simpl. by rewrite decide_True.
    + unfold Server.create. by rewrite Hcode.
  - intros fuel k Hk Hfree.
    destruct (get_code_returns fuel rooms g k Hk Hfree) as [[code g'] Hcode].
    destruct (create_eq fuel name rooms g code g' Hcode) as (room & -> & _). by eexists.
  - intros room Hroom Hfull.
    destruct (handle_join_eq name room_code rooms g room Hroom Hfull)
      as (room' & Heq & _ & Hscores & _).
    exists room'. split; [done|]. rewrite Hscores. apply getitem_setitem_eq.
  - intros gm category. apply score_category_outcome.
Qed.

Lemma fresh_game_unrolled_witness :
  (∃ room,
     Server.create 1 "A" (∅, rng_from 234)
       = Some ((<[ "1234" := room]> ∅, rng_from 235), Ok (Server.Created "1234")) ∧
     PyDict.getitem (GameState.scores room) "A" = Some (Game.init "A")) ∧
  length (Dice.dice (Game.dice (Game.init "A"))) = 5%nat ∧
  Scorecard.wf (Game.scorecard (Game.init "A")) ∧
  (∃ gm' g',
     Game.score_category "ones" (Game.init "A", rng_from 1) = ((gm', g'), Ok true) ∧
     Game.game_complete gm' = false ∧
     Dice.rolls_remaining (Game.dice gm') = 2 ∧ cursor g' = 6%nat ∧
     length (Dice.dice (Game.dice gm')) = 5%nat) ∧
  (∃ gm' g',
     Game.score_category "bogus" (Game.init "A", rng_from 1) = ((gm', g'), Ok false) ∧
     Game.dice gm' = Game.dice (Game.init "A") ∧ g' = rng_from 1).
Proof.
  destruct (fresh_game_unrolled "A" "1234" ∅ (rng_from 234))
    as (_ & Hcreate & _ & _ & _).
  destruct (fresh_game_unrolled "A" "1234" ∅ (rng_from 1)) as (_ & _ & _ & _ & Hscore).
  split; [|split; [reflexivity|]; split; [apply wf_init|]; split].
  - specialize (Hcreate 1%nat).
    change (Server.get_code 1 (∅ : gmap string GameState.GameState) (rng_from 234))
      with (Some ("1234", rng_from 235)) in Hcreate.
    destruct Hcreate as (_ & _ & _ & room & Heq & Hgame). by exists room.
  - destruct (Hscore (Game.init "A") "ones" eq_refl wf_init) as (gm' & g' & success & Heq & Hout).
    assert (Hs : (Game.score_category "ones" (Game.init "A", rng_from 1)).2 = Ok true)
      by (vm_compute; reflexivity).
    assert (Hc : Game.game_complete
                   (Game.score_category "ones" (Game.init "A", rng_from 1)).1.1 = false)
      by (vm_compute; reflexivity).
    rewrite Heq in Hs, Hc. cbn [fst snd] in Hs, Hc. injection Hs as ->. rewrite Hc in Hout.
    cbn [andb negb] in Hout. destruct Hout as (Hrr & Hcur & Hlen).
    exists gm', g'. split; [exact Heq|]. split; [exact Hc|]. split; [exact Hrr|].
    split; [exact Hcur | exact Hlen].
  - destruct (Hscore (Game.init "A") "bogus" eq_refl wf_init) as (gm' & g' & success & Heq & Hout).
    assert (Hs : (Game.score_category "bogus" (Game.init "A", rng_from 1)).2 = Ok false)
      by (vm_compute; reflexivity).
    rewrite Heq in Hs. cbn [snd] in Hs. injection Hs as ->.
    cbn [andb] in Hout. destruct Hout as [Hdice ->].
    exists gm', (rng_from 1). split; [exact Heq|]. split; [exact Hdice | reflexivity].
Defined.

Lemma all_done_false st p game :
  PyDict.getitem (GameState.scores st) p = Some game →
  Game.game_complete game = false → Server.all_done st = false.
Proof.
  intros Hp Hopen. apply getitem_values in Hp.
  unfold Server.all_done. apply not_true_is_false. intros Hall.
  rewrite forallb_forall in Hall. apply list_elem_of_In, Hall in Hp. congruence.
Qed.

(** When [score_category] raises, the game is still open. *)
Lemma score_category_raise_open category game g e :
  (Game.score_category category (game, g)).2 = Raise e →
  Game.game_complete (Game.score_category category (game, g)).1.1 = false.
Proof.
  destruct (Game.game_complete game) eqn:Hc.
  { by rewrite score_category_complete. }
  rewrite score_category_eq by done. cbv zeta.
  destruct (Scorecard.score_category _ _ _) as [sc' [[|]|e']]; cbn [fst snd]; try done.
  match goal with |- context [if ?b then _ else _] => destruct b end; [done|].
  rewrite start_new_turn_eq by done. cbv zeta. cbn [fst snd]. done.
Qed.

Lemma set_scores_id st : GameState.set_scores (GameState.scores st) st = st.
Proof. by destruct st. Qed.

Lemma command_players msg st g :
  GameState.players (Server.command_in_room msg (st, g)).1.1 = GameState.players st.
Proof.
  destruct (PyDict.getitem (GameState.scores st) (Server.player msg)) as [game|] eqn:Hp;
    [|by rewrite command_unknown_player].
  destruct (decide (Server.command msg = "roll")) as [Hroll|Hroll];
    [by rewrite (command_roll_eq _ _ _ _ Hroll Hp)|].
  destruct (decide (Server.command msg = "score")) as [Hscore|Hscore];
    [|by rewrite (command_other_eq _ _ _ _ Hroll Hscore Hp)].
  destruct (Server.category msg) as [category|] eqn:Hcat;
    [|by rewrite (command_score_no_category _ _ _ _ Hscore Hcat Hp)].
  rewrite (command_score_eq _ _ _ _ _ Hscore Hcat Hp). cbv zeta.
  destruct (Game.score_category _ _) as [[game' g'] [success|e]]; cbn [fst snd]; [|done].
  by rewrite after_score_players.
Qed.

Lemma command_keys msg st g :
  PyDict.keys (GameState.scores (Server.command_in_room msg (st, g)).1.1) =
  PyDict.keys (GameState.scores st).
Proof.
  destruct (PyDict.getitem (GameState.scores st) (Server.player msg)) as [game|] eqn:Hp;
    [|by rewrite command_unknown_player].
  destruct (decide (Server.command msg = "roll")) as [Hroll|Hroll].
  { rewrite (command_roll_eq _ _ _ _ Hroll Hp). cbv zeta. cbn [fst GameState.scores GameState.set_scores].
    apply keys_setitem_old. eauto. }
  destruct (decide (Server.command msg = "score")) as [Hscore|Hscore];
    [|by rewrite (command_other_eq _ _ _ _ Hroll Hscore Hp)].
  destruct (Server.category msg) as [category|] eqn:Hcat;
    [|by rewrite (command_score_no_category _ _ _ _ Hscore Hcat Hp)].
  rewrite (command_score_eq _ _ _ _ _ Hscore Hcat Hp). cbv zeta.
  destruct (Game.score_category _ _) as [[game' g'] [success|e]]; cbn [fst snd].
  - rewrite after_score_scores. apply keys_setitem_old. eauto.
  - apply keys_setitem_old. eauto.
Qed.

Lemma after_score_winner_set st :
  GameState.players st ≠ [] → GameState.scores st ≠ [] →
  Server.winner_set (Server.after_score st).1.
Proof.
  intros Hplayers Hscores. rewrite after_score_eq. cbv zeta.
  destruct (decide _) as [Hlen|_]; [apply nil_length_inv in Hlen; destruct (Hplayers Hlen)|].
  destruct (Server.all_done _) eqn:Hall.
  - match goal with |- context [PyDict.max_key (Server.current_scores ?s)] =>
      destruct (current_scores_nonempty s) as [w Hw] end; [done|].
    rewrite Hw. intros _. exists w. done.
  - intros Hdone. cbn [fst] in Hdone. congruence.
Qed.

Lemma command_winner_set msg st g :
  GameState.players st ≠ [] → Server.winner_set st →
  Server.winner_set (Server.command_in_room msg (st, g)).1.1.
Proof.
  intros Hplayers Hst.
  destruct (PyDict.getitem (GameState.scores st) (Server.player msg)) as [game|] eqn:Hp;
    [|by rewrite command_unknown_player].
  destruct (decide (Server.command msg = "roll")) as [Hroll|Hroll].
  { rewrite (command_roll_eq _ _ _ _ Hroll Hp). cbv zeta. cbn [fst].
    destruct (Game.game_complete game) eqn:Hc.
    - rewrite roll_dice_complete by done. cbn [fst].
      by rewrite setitem_getitem_id, set_scores_id.
    - intros Hall. erewrite all_done_false in Hall; [done| |].
      + apply getitem_setitem_eq.
      + by rewrite roll_dice_game_complete. }
  destruct (decide (Server.command msg = "score")) as [Hscore|Hscore];
    [|by rewrite (command_other_eq _ _ _ _ Hroll Hscore Hp)].
  destruct (Server.category msg) as [category|] eqn:Hcat;
    [|by rewrite (command_score_no_category _ _ _ _ Hscore Hcat Hp)].
  rewrite (command_score_eq _ _ _ _ _ Hscore Hcat Hp). cbv zeta.
  destruct (Game.score_category category (game, g)) as [[game' g'] [success|e]] eqn:Hout;
    cbn [fst snd].
  - apply after_score_winner_set; [done|].
    cbn [GameState.scores GameState.set_scores]. intros Hnil.
    pose proof (getitem_setitem_eq (GameState.scores st) (Server.player msg) game') as Hget.
    by rewrite Hnil in Hget.
  - intros Hall. erewrite all_done_false in Hall; [done| |].
    + apply getitem_setitem_eq.
    + pose proof (score_category_raise_open category game g e) as Hopen.
      rewrite Hout in Hopen. by apply Hopen.
Qed.

Lemma command_room_ok msg st g :
  Server.room_ok st → Server.room_ok (Server.command_in_room msg (st, g)).1.1.
Proof.
  intros (Hplayers & Hnodup & Horder & Hwinner).
  split; [by rewrite command_players|].
  split; [by rewrite command_keys|].
  split; [by rewrite command_keys, command_players|].
  by apply command_winner_set.
Qed.
Lemma handle_rooms_ok req (s : Server.St) :
  Server.rooms_ok s → Server.rooms_ok (Server.handle req s).1.
Proof.
  intros Hs. destruct s as [rooms g]. destruct req as [room_code name|name code|msg]; cbn [Server.handle].
  - destruct (handle_create_eq room_code name rooms g)
      as (room & -> & Hplayers & Hscores & Hwinner).
    intros code' room'. cbn [fst]. rewrite lookup_insert.
    case_decide; [|by apply Hs]. intros [= <-].
    split; [by rewrite Hplayers|]. rewrite Hscores. cbn.
    split; [apply NoDup_singleton|]. split; [by rewrite Hplayers|].
    intros Hall. unfold Server.all_done in Hall. rewrite Hscores in Hall. done.
  - destruct (rooms !! code) as [room|] eqn:Hroom;
      [|by rewrite handle_join_refused by by left].
    destruct (GameState.is_full room) eqn:Hfull;
      [by rewrite handle_join_refused by (right; by exists room)|].
    destruct (handle_join_eq name code rooms g room Hroom Hfull)
      as (room' & -> & Hplayers & Hscores & _).
    intros code' room''. cbn [fst]. rewrite lookup_insert.
    case_decide; [|by apply Hs]. intros [= <-].
    destruct (Hs code room Hroom) as (Hp & Hnodup & Horder & _).
    split; [rewrite Hplayers; by destruct (GameState.players room)|].
    rewrite Hscores, Hplayers.
    split; [by apply NoDup_keys_setitem|]. split.
    + intros [Hnd [Hnotin _]]%NoDup_app.
      rewrite keys_setitem_new; [by rewrite Horder|].
      apply getitem_None. rewrite Horder by done. intros Hin.
      apply (Hnotin name Hin). left.
    + intros Hall. erewrite all_done_false in Hall; [done| |].
      * rewrite Hscores. apply getitem_setitem_eq.
      * done.
  - unfold Server.handle_command. destruct (rooms !! Server.room msg) as [st|] eqn:Hroom;
      [|done].
    pose proof (command_room_ok msg st g (Hs _ _ Hroom)) as Hok.
    destruct (Server.command_in_room msg (st, g)) as [[st' g'] r].
    intros code' room'. cbn [fst]. rewrite lookup_insert.
    case_decide; [|by apply Hs]. by intros [= <-].
Qed.

Lemma run_rooms_ok reqs (s : Server.St) :
  Server.rooms_ok s → Server.rooms_ok (Server.run reqs s).
Proof.
  revert s. induction reqs as [|req reqs IH]; intros s Hs; [done|].
  simpl. apply IH. by apply handle_rooms_ok.
Qed.

Lemma rooms_ok_empty g : Server.rooms_ok (∅, g).
Proof. intros code room. cbn [fst]. by rewrite lookup_empty. Qed.

(** *** The winner as the first player with the greatest total *)

Lemma setitem_new {V} (d : PyDict.dict V) k v :
  PyDict.getitem d k = None → PyDict.setitem d k v = d ++ [(k, v)].
Proof.
  induction d as [|[k0 v0] d IH]; simpl; [done|].
  case_decide; [done | intros Hk; f_equal; by apply IH].
Qed.

Lemma current_scores_map st :
  NoDup (PyDict.keys (GameState.scores st)) →
  Server.current_scores st =
    (λ '(p, gm), (p, Game.get_current_score gm)) <$> GameState.scores st.
Proof.
  unfold Server.current_scores.
  assert (Hfold : ∀ (l : PyDict.dict Game.YahtzeeGame) (acc : PyDict.dict Z),
            NoDup (PyDict.keys acc ++ PyDict.keys l) →
            foldl (λ scores '(p, gm), PyDict.setitem scores p (Game.get_current_score gm))
                  acc l =
            acc ++ ((λ '(p, gm), (p, Game.get_current_score gm)) <$> l)).
  { induction l as [|[p gm] l IH]; intros acc Hnd; simpl.
    - by rewrite app_nil_r.
    - assert (PyDict.getitem acc p = None) as Hp.
      { apply getitem_None. apply NoDup_app in Hnd as (_ & Hnotin & _).
        intros Hin. apply (Hnotin p Hin). left. }
      rewrite setitem_new by done. rewrite IH.
      + by rewrite <-app_assoc.
      + unfold PyDict.keys in *. rewrite fmap_app. simpl.
        rewrite <-app_assoc. exact Hnd. }
  intros Hnd. by rewrite Hfold.
Qed.

Lemma max_from_spec (items : list (string * Z)) (best : string * Z) :
  (PyDict.max_from best items = best.1 ∧ ∀ kv, kv ∈ items → kv.2 ≤ best.2) ∨
  ∃ i v, items !! i = Some (PyDict.max_from best items, v) ∧ best.2 < v ∧
         ∀ j kv, items !! j = Some kv → kv.2 ≤ v ∧ ((j < i)%nat → kv.2 < v).
Proof.
  revert best. induction items as [|[k v] items IH]; intros best; simpl.
  { left. split; [done|]. by intros kv ?%elem_of_nil. }
  case_bool_decide as Hv.
  - right. destruct (IH (k, v)) as [[-> Hle]|(i & v' & Hi & Hlt & Hall)]; simpl in *.
    + exists 0%nat, v. split; [done|]. split; [lia|].
      intros [|j] kv Hj; simpl in Hj.
      * injection Hj as <-. simpl. lia.
      * apply list_elem_of_lookup_2 in Hj. apply Hle in Hj. lia.
    + exists (S i), v'. split; [done|]. split; [lia|].
      intros [|j] kv Hj; simpl in Hj.
      * injection Hj as <-. simpl. lia.
      * destruct (Hall j kv Hj). split; [done|]. intros ?. apply H0. lia.
  - destruct (IH best) as [[-> Hle]|(i & v' & Hi & Hlt & Hall)].
    + left. split; [done|]. intros kv [->|Hin]%elem_of_cons; [simpl; lia | by apply Hle].
    + right. exists (S i), v'. split; [done|]. split; [done|].
      intros [|j] kv Hj; simpl in Hj.
      * injection Hj as <-. simpl. lia.
      * destruct (Hall j kv Hj). split; [done|]. intros ?. apply H0. lia.
Qed.

(** [max(d, key=d.get)] is the first key whose value no other value
    exceeds. *)
Lemma max_key_spec (d : PyDict.dict Z) w :
  PyDict.max_key d = Ok w →
  ∃ i v, d !! i = Some (w, v) ∧
         ∀ j kv, d !! j = Some kv → kv.2 ≤ v ∧ ((j < i)%nat → kv.2 < v).
Proof.
  destruct d as [|[k0 v0] items]; [done|]. simpl. intros [= <-].
  destruct (max_from_spec items (k0, v0)) as [[-> Hle]|(i & v & Hi & Hlt & Hall)];
    simpl in *.
  - exists 0%nat, v0. split; [done|].
    intros [|j] kv Hj; simpl in Hj.
    + injection Hj as <-. simpl. lia.
    + apply list_elem_of_lookup_2 in Hj. apply Hle in Hj. lia.
  - exists (S i), v. split; [done|].
    intros [|j] kv Hj; simpl in Hj.
    + injection Hj as <-. simpl. lia.
    + destruct (Hall j kv Hj). split; [done|]. intros ?. apply H0. lia.
Qed.

(** C5, as the code has it: in every room the server can reach, when all
    games are complete the winner is the first player, in the order of the
    dict of games, whose grand total no other total exceeds, and
    [final_scores] maps each player to their grand total; with no two
    players of the same name that order is the join order.  (That a winner
    is set only when all games are complete does not hold.) *)
Theorem winner_when_all_complete reqs g (code : string) room :
  (Server.run reqs (∅, g)).1 !! code = Some room →
  (NoDup (GameState.players room) →
   PyDict.keys (GameState.scores room) = GameState.players room) ∧
  (Server.all_done room = true →
   ∃ i w gw,
     GameState.winner room = Some w ∧ GameState.scores room !! i = Some (w, gw) ∧
     (∀ j p gp,
        GameState.scores room !! j = Some (p, gp) →
        Game.get_current_score gp ≤ Game.get_current_score gw ∧
        ((j < i)%nat → Game.get_current_score gp < Game.get_current_score gw)) ∧
     GameState.final_scores room =
       (λ '(p, gp), (p, Game.get_current_score gp)) <$> GameState.scores room).
Proof.
  intros Hroom.
  destruct (run_rooms_ok reqs (∅, g) (rooms_ok_empty g) code room Hroom)
    as (_ & Hnodup & Horder & Hwinner).
  split; [done|]. intros Hall.
  destruct (Hwinner Hall) as (w & Hw & Hmax & Hfinal).
  rewrite current_scores_map in Hmax, Hfinal by done.
  destruct (max_key_spec _ _ Hmax) as (i & v & Hi & Hbest).
  rewrite list_lookup_fmap in Hi.
  destruct (GameState.scores room !! i) as [[w' gw]|] eqn:Hgw; [|done].
  injection Hi as -> <-.
  exists i, w, gw. split; [done|]. split; [done|]. split; [|done].
  intros j p gp Hj.
  apply (Hbest j (p, Game.get_current_score gp)).
  by rewrite list_lookup_fmap, Hj.
Qed.

Lemma lookup_default {A} (o : option A) (d : A) :
  o ≠ None → o = Some (default d o).
Proof. by destruct o. Qed.

(** Two rooms with two complete games.  In [duel] B has the greater total,
    114 to 83, and is the winner though A joined first; in [late_join] both
    total 74 and the winner is A, who joined first. *)
Lemma winner_when_all_complete_witness :
  let room := Server.room_1234 (Server.run Server.duel (∅, rng_from 1)) in
  let room' := Server.room_1234 (Server.run Server.late_join (∅, rng_from 1)) in
  ((Server.run Server.duel (∅, rng_from 1)).1 !! "1234" = Some room ∧
   GameState.players room = ["A"; "B"] ∧ Server.all_done room = true ∧
   PyDict.keys (GameState.scores room) = GameState.players room ∧
   GameState.winner room = Some "B" ∧
   GameState.final_scores room = [("A", 83); ("B", 114)] ∧
   ∃ i w gw,
     GameState.winner room = Some w ∧ GameState.scores room !! i = Some (w, gw) ∧
     (∀ j p gp,
        GameState.scores room !! j = Some (p, gp) →
        Game.get_current_score gp ≤ Game.get_current_score gw ∧
        ((j < i)%nat → Game.get_current_score gp < Game.get_current_score gw)) ∧
     GameState.final_scores room =
       (λ '(p, gp), (p, Game.get_current_score gp)) <$> GameState.scores room) ∧
  ((Server.run Server.late_join (∅, rng_from 1)).1 !! "1234" = Some room' ∧
   GameState.players room' = ["A"; "B"] ∧ Server.all_done room' = true ∧
   PyDict.keys (GameState.scores room') = GameState.players room' ∧
   GameState.winner room' = Some "A" ∧
   GameState.final_scores room' = [("A", 74); ("B", 74)] ∧
   ∃ i w gw,
     GameState.winner room' = Some w ∧ GameState.scores room' !! i = Some (w, gw) ∧
     (∀ j p gp,
        GameState.scores room' !! j = Some (p, gp) →
        Game.get_current_score gp ≤ Game.get_current_score gw ∧
        ((j < i)%nat → Game.get_current_score gp < Game.get_current_score gw)) ∧
     GameState.final_scores room' =
       (λ '(p, gp), (p, Game.get_current_score gp)) <$> GameState.scores room').
Proof.
  cbv zeta.
  assert (Hroom : (Server.run Server.duel (∅, rng_from 1)).1 !! "1234" =
                  Some (Server.room_1234 (Server.run Server.duel (∅, rng_from 1)))).
  { apply lookup_default. vm_compute. discriminate. }
  assert (Hroom' : (Server.run Server.late_join (∅, rng_from 1)).1 !! "1234" =
                   Some (Server.room_1234 (Server.run Server.late_join (∅, rng_from 1)))).
  { apply lookup_default. vm_compute. discriminate. }
  assert (Hplayers : GameState.players
                       (Server.room_1234 (Server.run Server.duel (∅, rng_from 1)))
                     = ["A"; "B"]) by (vm_compute; reflexivity).
  assert (Hplayers' : GameState.players
                        (Server.room_1234 (Server.run Server.late_join (∅, rng_from 1)))
                      = ["A"; "B"]) by (vm_compute; reflexivity).
  assert (Hnodup : NoDup ["A"; "B"]) by (apply (bool_decide_unpack _); vm_compute; exact I).
  destruct (winner_when_all_complete Server.duel (rng_from 1) "1234" _ Hroom)
    as [Horder Hwinner].
  destruct (winner_when_all_complete Server.late_join (rng_from 1) "1234" _ Hroom')
    as [Horder' Hwinner'].
  rewrite Hplayers in Horder. rewrite Hplayers' in Horder'.
  split.
  - split; [exact Hroom|]. split; [exact Hplayers|].
    split; [vm_compute; reflexivity|]. rewrite Hplayers.
    split; [exact (Horder Hnodup)|].
    split; [vm_compute; reflexivity|]. split; [vm_compute; reflexivity|].
    apply Hwinner. vm_compute. reflexivity.
  - split; [exact Hroom'|]. split; [exact Hplayers'|].
    split; [vm_compute; reflexivity|]. rewrite Hplayers'.
    split; [exact (Horder' Hnodup)|].
    split; [vm_compute; reflexivity|]. split; [vm_compute; reflexivity|].
    apply Hwinner'. vm_compute. reflexivity.
Defined.

(** C5 as stated fails in one direction: A plays all 13 turns alone in the
    room, which sets the winner, and B joins afterwards; the room then has a
    winner while B's game is not complete.  (A's total: the upper section
    scores 5, 2, 3, 4, 5, 6, then small_straight 30 and chance 19.) *)
Lemma winner_set_with_open_game :
  let s := Server.run (Server.solo_game ++ [Server.Join "B" "1234"]) (∅, rng_from 1) in
  let room := Server.room_1234 s in
  GameState.players room = ["A"; "B"] ∧
  GameState.winner room = Some "A" ∧
  GameState.final_scores room = [("A", 74)] ∧
  Game.game_complete <$> PyDict.getitem (GameState.scores room) "A" = Some true ∧
  Game.game_complete <$> PyDict.getitem (GameState.scores room) "B" = Some false ∧
  Server.all_done room = false.
Proof. repeat split; vm_compute; reflexivity. Qed.

End server.

(** ** The dice: faces, kept dice and named dice *)
Section dice_more.

Implicit Types (d : Dice.YahtzeeDice) (g : Rng) (s : Dice.St).

Lemma randint_range lo hi g : lo ≤ hi → lo ≤ (randint lo hi g).1 ≤ hi.
Proof.
  intros Hle. unfold randint. cbn [fst].
  pose proof (Z.mod_pos_bound (draws g (cursor g)) (hi - lo + 1)). lia.
Qed.

Lemma reroll_faces_ok i s : Dice.faces_ok (Dice.dice s.1) → Dice.faces_ok (Dice.dice (Dice.reroll i s).1.1).
Proof.
  destruct s as [d g]. intros [Hlen Hall]. unfold Dice.reroll.
  pose proof (randint_range 1 6 g ltac:(lia)) as Hv.
  destruct (randint 1 6 g) as [v g']. cbn [fst snd] in *.
  destruct (decide _); cbn [fst Dice.dice Dice.set_dice]; [|done].
  split; [by rewrite length_insert | by apply Forall_insert].
Qed.

(** The faces a roll method leaves are those its loop left. *)
Lemma rolled_dice {X} (xs : list X) (body : X → M Dice.St ()) s :
  Dice.dice ((_ ← for_each xs body; _ ← Dice.decrement; Dice.get_dice) s).1.1 =
  Dice.dice (for_each xs body s).1.1.
Proof.
  unfold mbind, M_bind. by destruct (for_each xs body s) as [[d g] [[]|e]].
Qed.

Lemma call_faces_ok op s : Dice.faces_ok (Dice.dice s.1) → Dice.faces_ok (Dice.dice (Dice.call op s).1).
Proof.
  intros Hs. destruct op as [|keep_dice|dice_indices|]; cbn [Dice.call].
  - unfold Dice.roll_all. destruct (decide _); [done|]. rewrite rolled_dice.
    apply (for_each_inv (S := Dice.St) (λ t, Dice.faces_ok (Dice.dice t.1))); [|done].
    intros i t. apply reroll_faces_ok.
  - unfold Dice.roll_with_keep. destruct (decide _); [done|].
    destruct (decide _); [done|]. rewrite rolled_dice.
    apply (for_each_inv (S := Dice.St) (λ t, Dice.faces_ok (Dice.dice t.1))); [|done].
    intros i t Ht. destruct (negb _); [by apply reroll_faces_ok | done].
  - unfold Dice.roll_specific. destruct (decide _); [done|]. rewrite rolled_dice.
    apply (for_each_inv (S := Dice.St) (λ t, Dice.faces_ok (Dice.dice t.1))); [|done].
    intros i t Ht. destruct (negb _); [done | by apply reroll_faces_ok].
  - by destruct s.
Qed.

Lemma calls_faces_ok ops s :
  Dice.faces_ok (Dice.dice s.1) → Dice.faces_ok (Dice.dice (Dice.calls ops s).1).
Proof.
  revert s. induction ops as [|op ops IH]; intros s Hs; [done|].
  cbn. apply IH. by apply call_faces_ok.
Qed.

Lemma init_faces_ok : Dice.faces_ok (Dice.dice Dice.init).
Proof. split; [done|]. cbn. repeat constructor; lia. Qed.

(** X1: whatever sequence of [roll_all], [roll_with_keep], [roll_specific]
    and [start_new_turn] calls is made on a new dice set, returning or
    raising, it holds five faces and each face is between 1 and 6. *)
Theorem dice_faces_in_range (ops : list Dice.Op) g :
  length (Dice.dice (Dice.calls ops (Dice.init, g)).1) = 5%nat ∧
  Forall (λ f, 1 ≤ f ≤ 6) (Dice.dice (Dice.calls ops (Dice.init, g)).1).
Proof. apply (calls_faces_ok ops (Dice.init, g)), init_faces_ok. Qed.

Lemma roll_with_keep_ok d g (keep_dice : list bool) :
  length (Dice.dice d) = 5%nat → length keep_dice = 5%nat → 0 < Dice.rolls_remaining d →
  ∃ faces g',
    Dice.roll_with_keep keep_dice (d, g) =
      ((Dice.set_rolls_remaining (Dice.rolls_remaining d - 1) (Dice.set_dice faces d), g'),
       Ok faces) ∧
    length faces = 5%nat ∧
    (∀ i, keep_dice !! i = Some true → faces !! i = Dice.dice d !! i) ∧
    cursor g' = (cursor g + length (filter (λ b, b = false) keep_dice))%nat ∧
    draws g' = draws g.
Proof.
  intros Hlen Hkeep Hrr. destruct d as [l rr]. cbn [Dice.dice Dice.rolls_remaining] in *.
  destruct (length5 l Hlen) as (a & b & c & d & e & ->).
  destruct (length5 keep_dice Hkeep) as (ka & kb & kc & kd & ke & ->).
  unfold Dice.roll_with_keep. cbn [fst Dice.rolls_remaining length].
  destruct (decide (5%nat ≠ 5%nat)) as [|_]; [done|].
  destruct (decide (rr <= 0)) as [Hle|_]; [exfalso; lia|].
  destruct ka, kb, kc, kd, ke; (eexists _, _; split; [reflexivity|]);
    (split; [reflexivity|]); (split; [|split; [simpl; lia | reflexivity]]);
    intros [|[|[|[|[|i]]]]] Hi; cbn in Hi |- *; congruence.
Qed.

(** X2: with five dice, a mask of five booleans and a roll left,
    [roll_with_keep] returns the new faces; a die whose mask entry is
    [True] keeps its face, the budget goes down by one and one random value
    is drawn for each [False] in the mask. *)
Theorem roll_with_keep_keeps d g (keep_dice : list bool) :
  length (Dice.dice d) = 5%nat → length keep_dice = 5%nat → 0 < Dice.rolls_remaining d →
  ∃ faces g',
    Dice.roll_with_keep keep_dice (d, g) =
      ((Dice.set_rolls_remaining (Dice.rolls_remaining d - 1) (Dice.set_dice faces d), g'),
       Ok faces) ∧
    length faces = 5%nat ∧
    (∀ i, keep_dice !! i = Some true → faces !! i = Dice.dice d !! i) ∧
    cursor g' = (cursor g + length (filter (λ b, b = false) keep_dice))%nat ∧
    draws g' = draws g.
Proof. apply roll_with_keep_ok. Qed.

Lemma roll_with_keep_keeps_witness :
  length (Dice.dice Dice.init) = 5%nat ∧ length [true; false; true; false; true] = 5%nat ∧
  0 < Dice.rolls_remaining Dice.init ∧
  ∃ faces g',
    Dice.roll_with_keep [true; false; true; false; true] (Dice.init, rng_from 1) =
      ((Dice.set_rolls_remaining (Dice.rolls_remaining Dice.init - 1)
          (Dice.set_dice faces Dice.init), g'), Ok faces) ∧
    length faces = 5%nat ∧
    (∀ i, [true; false; true; false; true] !! i = Some true →
          faces !! i = Dice.dice Dice.init !! i) ∧
    cursor g' = (cursor (rng_from 1) +
                 length (filter (λ b, b = false) [true; false; true; false; true]))%nat ∧
    draws g' = draws (rng_from 1).
Proof.
  split; [reflexivity|]. split; [reflexivity|]. split; [reflexivity|].
  apply (roll_with_keep_keeps Dice.init (rng_from 1) [true; false; true; false; true]);
    reflexivity.
Defined.

(** Rerolling a die that exists: one draw, the other dice untouched. *)
Lemma reroll_ok (i : nat) s :
  (i < length (Dice.dice s.1))%nat →
  ∃ s', Dice.reroll i s = (s', Ok ()) ∧
        length (Dice.dice s'.1) = length (Dice.dice s.1) ∧
        Dice.rolls_remaining s'.1 = Dice.rolls_remaining s.1 ∧
        cursor s'.2 = S (cursor s.2) ∧ draws s'.2 = draws s.2 ∧
        ∀ k : nat, k ≠ i → Dice.dice s'.1 !! k = Dice.dice s.1 !! k.
Proof.
  destruct s as [[l rr] g]. cbn [fst snd Dice.dice]. intros Hi.
  unfold Dice.reroll. cbn [randint]. cbn [Dice.dice].
  destruct (decide _) as [_|Hn]; [|done].
  eexists. split; [reflexivity|]. cbn.
  split; [by rewrite length_insert|]. repeat split.
  intros k Hk. by apply list_lookup_insert_ne.
Qed.

(** The loop of [roll_specific] over in-range indices on five dice: it
    returns, draws once per index, and leaves the dice not named alone. *)
Lemma reroll_in_range_frame (indices : list Z) s :
  length (Dice.dice s.1) = 5%nat → Forall (λ i, 0 ≤ i ≤ 4) indices →
  ∃ s', for_each indices (λ index, if negb (bool_decide (0 ≤ index ≤ 4))
                                    then raise (DiceIndexOutOfRange index)
                                    else Dice.reroll (Z.to_nat index)) s = (s', Ok ()) ∧
        length (Dice.dice s'.1) = 5%nat ∧
        Dice.rolls_remaining s'.1 = Dice.rolls_remaining s.1 ∧
        cursor s'.2 = (cursor s.2 + length indices)%nat ∧
        draws s'.2 = draws s.2 ∧
        ∀ i : nat, Z.of_nat i ∉ indices → Dice.dice s'.1 !! i = Dice.dice s.1 !! i.
Proof.
  intros Hlen Hpre. revert s Hlen.
  induction Hpre as [|j indices Hj _ IH]; intros s Hlen.
  { exists s. repeat split; try done. }
  simpl. rewrite bool_decide_eq_true_2 by done. simpl.
  destruct (reroll_ok (Z.to_nat j) s) as (s1 & Hs1 & Hl1 & Hr1 & Hc1 & Hd1 & Hf1); [lia|].
  destruct (IH s1) as (s' & Hs' & Hl' & Hr' & Hc' & Hd' & Hframe); [congruence|].
  exists s'. rewrite (bind_ok _ _ _ _ _ Hs1).
  split; [exact Hs'|]. split; [done|]. split; [congruence|].
  split; [lia|]. split; [congruence|].
  intros i Hi. apply not_elem_of_cons in Hi as [Hij Hi].
  rewrite Hframe by done. apply Hf1. lia.
Qed.

(** X3: with five dice, a roll left and every index between 0 and 4,
    [roll_specific] returns the new faces; a die whose index is not in the
    list keeps its face, the budget goes down by one and one random value
    is drawn for each entry of the list, repeated indices included. *)
Theorem roll_specific_in_range d g (dice_indices : list Z) :
  length (Dice.dice d) = 5%nat → Forall (λ i, 0 ≤ i ≤ 4) dice_indices →
  0 < Dice.rolls_remaining d →
  ∃ faces g',
    Dice.roll_specific dice_indices (d, g) =
      ((Dice.set_rolls_remaining (Dice.rolls_remaining d - 1) (Dice.set_dice faces d), g'),
       Ok faces) ∧
    length faces = 5%nat ∧
    (∀ i : nat, Z.of_nat i ∉ dice_indices → faces !! i = Dice.dice d !! i) ∧
    cursor g' = (cursor g + length dice_indices)%nat ∧ draws g' = draws g.
Proof.
  intros Hlen Hidx Hrr.
  destruct (reroll_in_range_frame dice_indices (d, g) Hlen Hidx)
    as ([d' g'] & Hloop & Hl' & Hr' & Hc' & Hd' & Hframe).
  exists (Dice.dice d'), g'. cbn [fst snd] in *.
  unfold Dice.roll_specific. cbn [fst]. destruct (decide _) as [|_]; [lia|].
  split; [|done].
  rewrite (bind_ok _ _ _ _ _ Hloop). destruct d as [l rr], d' as [l' rr'].
  cbn in *. by subst.
Qed.

Lemma roll_specific_in_range_witness :
  length (Dice.dice Dice.init) = 5%nat ∧ Forall (λ i, 0 ≤ i ≤ 4) [1; 3; 1] ∧
  0 < Dice.rolls_remaining Dice.init ∧
  ∃ faces g',
    Dice.roll_specific [1; 3; 1] (Dice.init, rng_from 1) =
      ((Dice.set_rolls_remaining (Dice.rolls_remaining Dice.init - 1)
          (Dice.set_dice faces Dice.init), g'), Ok faces) ∧
    length faces = 5%nat ∧
    (∀ i : nat, Z.of_nat i ∉ [1; 3; 1] → faces !! i = Dice.dice Dice.init !! i) ∧
    cursor g' = (cursor (rng_from 1) + length [1; 3; 1])%nat ∧
    draws g' = draws (rng_from 1).
Proof.
  assert (Hidx : Forall (λ i, 0 ≤ i ≤ 4) [1; 3; 1]) by (repeat constructor; lia).
  split; [reflexivity|]. split; [exact Hidx|]. split; [reflexivity|].
  apply (roll_specific_in_range Dice.init (rng_from 1) [1; 3; 1]);
    [reflexivity | exact Hidx | reflexivity].
Defined.

End dice_more.

(** ** The scorecard: offers, commits and totals *)
Section scorecard_more.

Implicit Types (self : Scorecard.YahtzeeScorecard) (dice : list Z) (category : string).

(** Looks a category up in the dict of [possible_scores_eq]. *)
Ltac offered :=
  repeat (etrans; [apply offer_lookup_ne; discriminate|]);
  by apply offer_lookup_eq.

(** *** Order of the dice *)

Lemma count_perm x (l l' : list Z) : l ≡ₚ l' → count x l = count x l'.
Proof. induction 1; simpl; repeat case_decide; lia. Qed.

Lemma sum_perm (l l' : list Z) : l ≡ₚ l' → sum l = sum l'.
Proof. induction 1; simpl; lia. Qed.

(** X5: the possible scores depend on the faces, not on their order: two
    rolls that are permutations of each other get the same result from
    [calculate_possible_scores], exception included. *)
Theorem possible_scores_order_independent self dice dice' :
  dice ≡ₚ dice' →
  Scorecard.calculate_possible_scores self dice =
  Scorecard.calculate_possible_scores self dice'.
Proof.
  intros Hperm. unfold Scorecard.calculate_possible_scores.
  rewrite (Permutation_length Hperm).
  destruct (decide _); [done|].
  assert (Hcounts : Scorecard.counts dice = Scorecard.counts dice').
  { rewrite !counts_eq. by rewrite !(count_perm _ _ _ Hperm). }
  assert (Hset : (list_to_set dice : gset Z) = list_to_set dice').
  { by apply list_to_set_perm_L. }
  unfold Scorecard.has_small_straight, Scorecard.has_large_straight.
  cbv zeta. by rewrite Hcounts, (sum_perm _ _ Hperm), Hset.
Qed.

Lemma possible_scores_order_independent_witness :
  [3; 6; 3; 6; 3] ≡ₚ [3; 3; 3; 6; 6] ∧
  Scorecard.calculate_possible_scores Scorecard.init [3; 6; 3; 6; 3] =
  Scorecard.calculate_possible_scores Scorecard.init [3; 3; 3; 6; 6].
Proof.
  assert (Hperm : [3; 6; 3; 6; 3] ≡ₚ [3; 3; 3; 6; 6]).
  { apply (bool_decide_unpack _). vm_compute. exact I. }
  split; [exact Hperm|].
  apply (possible_scores_order_independent Scorecard.init _ _ Hperm).
Defined.


(** The entry of each open category in the dict of possible scores. *)
Lemma possible_scores_values self dice :
  length dice = 5%nat →
  ∃ ps, Scorecard.calculate_possible_scores self dice = Ok ps ∧
    (Scorecard.is_category_available self "ones" = true →
     ps !! "ones" = Some (1 * count 1 dice)) ∧
    (Scorecard.is_category_available self "twos" = true →
     ps !! "twos" = Some (2 * count 2 dice)) ∧
    (Scorecard.is_category_available self "threes" = true →
     ps !! "threes" = Some (3 * count 3 dice)) ∧
    (Scorecard.is_category_available self "fours" = true →
     ps !! "fours" = Some (4 * count 4 dice)) ∧
    (Scorecard.is_category_available self "fives" = true →
     ps !! "fives" = Some (5 * count 5 dice)) ∧
    (Scorecard.is_category_available self "sixes" = true →
     ps !! "sixes" = Some (6 * count 6 dice)) ∧
    (Scorecard.is_category_available self "three_of_kind" = true →
     ps !! "three_of_kind" =
       Some (if Scorecard.has_three_of_kind (Scorecard.counts dice) then sum dice else 0)) ∧
    (Scorecard.is_category_available self "four_of_kind" = true →
     ps !! "four_of_kind" =
       Some (if Scorecard.has_four_of_kind (Scorecard.counts dice) then sum dice else 0)) ∧
    (Scorecard.is_category_available self "full_house" = true →
     ps !! "full_house" =
       Some (if Scorecard.valid_full_house (Scorecard.counts dice) then 25 else 0)) ∧
    (Scorecard.is_category_available self "small_straight" = true →
     ps !! "small_straight" = Some (if Scorecard.has_small_straight dice then 30 else 0)) ∧
    (Scorecard.is_category_available self "large_straight" = true →
     ps !! "large_straight" = Some (if Scorecard.has_large_straight dice then 40 else 0)) ∧
    (Scorecard.is_category_available self "yahtzee" = true →
     ps !! "yahtzee" = Some (if Scorecard.has_yahtzee (Scorecard.counts dice) then 50 else 0)) ∧
    (Scorecard.is_category_available self "chance" = true →
     ps !! "chance" = Some (sum dice)).
Proof.
  intros Hlen. eexists. split; [by apply possible_scores_eq|].
  repeat split; intros Hav; offered.
Qed.

(** *** Counting faces, continued *)

Lemma count_le_length x (l : list Z) : count x l ≤ Z.of_nat (length l).
Proof. induction l as [|y l IH]; simpl; [done|]. case_decide; lia. Qed.

Lemma elem_count_pos x (l : list Z) : x ∈ l → 0 < count x l.
Proof.
  induction 1 as [y l|y z l _ IH]; simpl.
  - rewrite decide_True by done. pose proof (count_nonneg y l). lia.
  - case_decide; lia.
Qed.

(** The counts of the six face values add up to at most the number of
    dice, and to exactly that number when every face is between 1 and 6. *)
Lemma counts_total_le (l : list Z) :
  count 1 l + count 2 l + count 3 l + count 4 l + count 5 l + count 6 l
  ≤ Z.of_nat (length l).
Proof. induction l as [|y l IH]; simpl; [done|]. repeat case_decide; lia. Qed.

Lemma counts_total (l : list Z) :
  Forall (λ f, 1 ≤ f ≤ 6) l →
  count 1 l + count 2 l + count 3 l + count 4 l + count 5 l + count 6 l
  = Z.of_nat (length l).
Proof. induction 1 as [|y l Hy _ IH]; simpl; [done|]. repeat case_decide; lia. Qed.

Lemma sum_by_face (l : list Z) :
  Forall (λ f, 1 ≤ f ≤ 6) l →
  sum l = 1 * count 1 l + 2 * count 2 l + 3 * count 3 l + 4 * count 4 l
          + 5 * count 5 l + 6 * count 6 l.
Proof. induction 1 as [|y l Hy _ IH]; simpl; [done|]. repeat case_decide; lia. Qed.

Lemma sum_bounds (l : list Z) :
  Forall (λ f, 1 ≤ f ≤ 6) l → Z.of_nat (length l) ≤ sum l ≤ 6 * Z.of_nat (length l).
Proof. induction 1 as [|y l Hy _ IH]; simpl; lia. Qed.

(** The six counts, whatever else holds: none is negative and they add up
    to at most five. *)
Lemma five_dice_counts dice :
  length dice = 5%nat →
  0 ≤ count 1 dice ∧ 0 ≤ count 2 dice ∧ 0 ≤ count 3 dice ∧
  0 ≤ count 4 dice ∧ 0 ≤ count 5 dice ∧ 0 ≤ count 6 dice ∧
  count 1 dice + count 2 dice + count 3 dice + count 4 dice + count 5 dice + count 6 dice ≤ 5.
Proof.
  intros Hlen. pose proof (counts_total_le dice) as Htotal. rewrite Hlen in Htotal.
  repeat split; try apply count_nonneg. lia.
Qed.

Lemma has_three_of_kind_iff dice :
  Scorecard.has_three_of_kind (Scorecard.counts dice) = true ↔
  3 ≤ count 1 dice ∨ 3 ≤ count 2 dice ∨ 3 ≤ count 3 dice ∨
  3 ≤ count 4 dice ∨ 3 ≤ count 5 dice ∨ 3 ≤ count 6 dice.
Proof.
  rewrite counts_eq. unfold Scorecard.has_three_of_kind. cbn [tail existsb].
  rewrite !orb_true_iff, !bool_decide_eq_true. intuition lia.
Qed.

Lemma has_four_of_kind_iff dice :
  Scorecard.has_four_of_kind (Scorecard.counts dice) = true ↔
  4 ≤ count 1 dice ∨ 4 ≤ count 2 dice ∨ 4 ≤ count 3 dice ∨
  4 ≤ count 4 dice ∨ 4 ≤ count 5 dice ∨ 4 ≤ count 6 dice.
Proof.
  rewrite counts_eq. unfold Scorecard.has_four_of_kind. cbn [tail existsb].
  rewrite !orb_true_iff, !bool_decide_eq_true. intuition lia.
Qed.

Lemma has_yahtzee_iff dice :
  Scorecard.has_yahtzee (Scorecard.counts dice) = true ↔
  count 1 dice = 5 ∨ count 2 dice = 5 ∨ count 3 dice = 5 ∨
  count 4 dice = 5 ∨ count 5 dice = 5 ∨ count 6 dice = 5.
Proof.
  rewrite counts_eq. unfold Scorecard.has_yahtzee. cbn [tail existsb].
  rewrite orb_false_r, !orb_true_iff, !bool_decide_eq_true. tauto.
Qed.

Lemma valid_full_house_counts dice :
  Scorecard.valid_full_house (Scorecard.counts dice) = true →
  (count 1 dice = 3 ∨ count 2 dice = 3 ∨ count 3 dice = 3 ∨
   count 4 dice = 3 ∨ count 5 dice = 3 ∨ count 6 dice = 3) ∧
  (count 1 dice = 2 ∨ count 2 dice = 2 ∨ count 3 dice = 2 ∨
   count 4 dice = 2 ∨ count 5 dice = 2 ∨ count 6 dice = 2).
Proof.
  rewrite counts_eq. unfold Scorecard.valid_full_house. cbv zeta. cbn [tail].
  rewrite !andb_true_iff, !bool_decide_eq_true, !elem_of_cons, !elem_of_nil.
  intros [[H3 H2] _]. split.
  - destruct H3 as [H|[H|[H|[H|[H|[H|[]]]]]]]; symmetry in H; tauto.
  - destruct H2 as [H|[H|[H|[H|[H|[H|[]]]]]]]; symmetry in H; tauto.
Qed.

Lemma has_large_straight_counts dice :
  Scorecard.has_large_straight dice = true →
  (0 < count 1 dice ∧ 0 < count 2 dice ∧ 0 < count 3 dice ∧
   0 < count 4 dice ∧ 0 < count 5 dice) ∨
  (0 < count 2 dice ∧ 0 < count 3 dice ∧ 0 < count 4 dice ∧
   0 < count 5 dice ∧ 0 < count 6 dice).
Proof.
  unfold Scorecard.has_large_straight. cbv zeta. cbn [existsb].
  rewrite orb_false_r, !orb_true_iff, !bool_decide_eq_true.
  assert (Hin : ∀ (x : Z) (X : gset Z), X = list_to_set dice → x ∈ X → 0 < count x dice).
  { intros x X -> Hx. apply elem_count_pos. by apply elem_of_list_to_set in Hx. }
  intros [Hset|Hset]; [left|right]; repeat split; apply (Hin _ _ Hset); set_solver.
Qed.

Lemma large_straight_small dice :
  Scorecard.has_large_straight dice = true → Scorecard.has_small_straight dice = true.
Proof.
  unfold Scorecard.has_large_straight, Scorecard.has_small_straight.
  cbv zeta. cbn [existsb].
  rewrite !orb_false_r, !orb_true_iff, !bool_decide_eq_true.
  intros [<-|<-]; [left | right; left]; set_solver.
Qed.

(** A key of the dict of possible scores is an open category. *)
Lemma offered_available self dice ps (c : string) v :
  Scorecard.calculate_possible_scores self dice = Ok ps →
  ps !! c = Some v → Scorecard.is_category_available self c = true.
Proof.
  intros Hps Hc. apply available_iff.
  by apply (possible_scores_is_Some _ _ c _ Hps); eexists.
Qed.

Lemma not_offered self dice ps (c : string) :
  Scorecard.calculate_possible_scores self dice = Ok ps →
  Scorecard.is_category_available self c = false → ps !! c = None.
Proof.
  intros Hps Hc. apply eq_None_not_Some. intros [v Hv].
  rewrite (offered_available _ _ _ _ _ Hps Hv) in Hc. done.
Qed.

(** Replaces a lookup [H : ps !! c = Some v] by the value of [v], with the
    entry [Hval] of [possible_scores_values] for [c]. *)
Ltac value_of Hps H Hval :=
  rewrite (Hval (offered_available _ _ _ _ _ Hps H)) in H; injection H as H.

Lemma possible_scores_range self dice :
  length dice = 5%nat → Forall (λ f, 1 ≤ f ≤ 6) dice →
  ∃ possible_scores,
    Scorecard.calculate_possible_scores self dice = Ok possible_scores ∧
    ∀ (category : string) v, possible_scores !! category = Some v → 0 ≤ v ≤ 50.
Proof.
  intros Hlen Hfaces.
  destruct (possible_scores_values self dice Hlen)
    as (ps & Hps & H1 & H2 & H3 & H4 & H5 & H6 & H7 & H8 & H9 & H10 & H11 & H12 & H13).
  exists ps. split; [done|]. intros c v Hv.
  pose proof (sum_bounds dice Hfaces) as Hsum. rewrite Hlen in Hsum.
  pose proof (λ x, count_nonneg x dice) as Hge.
  pose proof (λ x, count_le_length x dice) as Hle. rewrite Hlen in Hle.
  pose proof (Hge 1); pose proof (Hge 2); pose proof (Hge 3);
    pose proof (Hge 4); pose proof (Hge 5); pose proof (Hge 6).
  pose proof (Hle 1); pose proof (Hle 2); pose proof (Hle 3);
    pose proof (Hle 4); pose proof (Hle 5); pose proof (Hle 6).
  assert (Hc : c ∈ Scorecard.categories).
  { by apply (possible_scores_is_Some _ _ c _ Hps); eexists. }
  apply in_categories in Hc.
  destruct Hc as [->|[->|[->|[->|[->|[->|[->|[->|[->|[->|[->|[->| ->]]]]]]]]]]]].
  - value_of Hps Hv H1. lia.
  - value_of Hps Hv H2. lia.
  - value_of Hps Hv H3. lia.
  - value_of Hps Hv H4. lia.
  - value_of Hps Hv H5. lia.
  - value_of Hps Hv H6. lia.
  - value_of Hps Hv H7. destruct (Scorecard.has_three_of_kind _); lia.
  - value_of Hps Hv H8. destruct (Scorecard.has_four_of_kind _); lia.
  - value_of Hps Hv H9. destruct (Scorecard.valid_full_house _); lia.
  - value_of Hps Hv H10. destruct (Scorecard.has_small_straight _); lia.
  - value_of Hps Hv H11. destruct (Scorecard.has_large_straight _); lia.
  - value_of Hps Hv H12. destruct (Scorecard.has_yahtzee _); lia.
  - value_of Hps Hv H13. lia.
Qed.

(** X6: for five dice with faces from 1 to 6, every score that
    [calculate_possible_scores] offers is between 0 and 50. *)
Theorem possible_scores_bounds self dice :
  length dice = 5%nat → Forall (λ f, 1 ≤ f ≤ 6) dice →
  ∃ possible_scores,
    Scorecard.calculate_possible_scores self dice = Ok possible_scores ∧
    ∀ (category : string) v, possible_scores !! category = Some v → 0 ≤ v ≤ 50.
Proof. apply possible_scores_range. Qed.

Lemma possible_scores_bounds_witness :
  length [6; 6; 6; 6; 6] = 5%nat ∧ Forall (λ f, 1 ≤ f ≤ 6) [6; 6; 6; 6; 6] ∧
  ∃ possible_scores,
    Scorecard.calculate_possible_scores Scorecard.init [6; 6; 6; 6; 6] = Ok possible_scores ∧
    ∀ (category : string) v, possible_scores !! category = Some v → 0 ≤ v ≤ 50.
Proof.
  assert (Hfaces : Forall (λ f, 1 ≤ f ≤ 6) [6; 6; 6; 6; 6]) by (repeat constructor; lia).
  split; [reflexivity|]. split; [exact Hfaces|].
  apply (possible_scores_bounds Scorecard.init [6; 6; 6; 6; 6]); [reflexivity | exact Hfaces].
Defined.

(** The entry of an upper category, 0 standing for a category that is not
    offered. *)
Lemma upper_offer self dice ps (c : string) (n : Z) :
  Scorecard.calculate_possible_scores self dice = Ok ps →
  (Scorecard.is_category_available self c = true → ps !! c = Some (n * count n dice)) →
  default 0 (ps !! c) =
    if Scorecard.is_category_available self c then n * count n dice else 0.
Proof.
  intros Hps Hval. destruct (Scorecard.is_category_available self c) eqn:Hav.
  - by rewrite Hval.
  - by rewrite (not_offered _ _ _ _ Hps Hav).
Qed.

(** X7: for five dice with faces from 1 to 6, the upper-section scores
    offered add up to at most the sum of the dice, and to exactly that sum
    when all six upper categories are open. *)
Theorem upper_offers_sum self dice :
  length dice = 5%nat → Forall (λ f, 1 ≤ f ≤ 6) dice →
  ∃ possible_scores,
    Scorecard.calculate_possible_scores self dice = Ok possible_scores ∧
    sum ((λ c, default 0 (possible_scores !! c)) <$> Scorecard.upper_categories) ≤ sum dice ∧
    ((∀ c, c ∈ Scorecard.upper_categories → Scorecard.is_category_available self c = true) →
     sum ((λ c, default 0 (possible_scores !! c)) <$> Scorecard.upper_categories) = sum dice).
Proof.
  intros Hlen Hfaces.
  destruct (possible_scores_values self dice Hlen)
    as (ps & Hps & H1 & H2 & H3 & H4 & H5 & H6 & _).
  exists ps. split; [done|].
  unfold Scorecard.upper_categories. cbn [fmap list_fmap sum].
  rewrite (upper_offer _ _ _ _ 1 Hps H1), (upper_offer _ _ _ _ 2 Hps H2),
    (upper_offer _ _ _ _ 3 Hps H3), (upper_offer _ _ _ _ 4 Hps H4),
    (upper_offer _ _ _ _ 5 Hps H5), (upper_offer _ _ _ _ 6 Hps H6).
  rewrite (sum_by_face dice Hfaces).
  pose proof (count_nonneg 1 dice); pose proof (count_nonneg 2 dice);
    pose proof (count_nonneg 3 dice); pose proof (count_nonneg 4 dice);
    pose proof (count_nonneg 5 dice); pose proof (count_nonneg 6 dice).
  split.
  - repeat (match goal with |- context [if ?b then _ else _] => destruct b end); lia.
  - intros Hopen. rewrite !Hopen by (rewrite !elem_of_cons; tauto). lia.
Qed.

Lemma upper_offers_sum_witness :
  length [2; 3; 3; 6; 1] = 5%nat ∧ Forall (λ f, 1 ≤ f ≤ 6) [2; 3; 3; 6; 1] ∧
  (∀ c, c ∈ Scorecard.upper_categories →
        Scorecard.is_category_available Scorecard.init c = true) ∧
  ∃ possible_scores,
    Scorecard.calculate_possible_scores Scorecard.init [2; 3; 3; 6; 1] = Ok possible_scores ∧
    sum ((λ c, default 0 (possible_scores !! c)) <$> Scorecard.upper_categories) = 15.
Proof.
  assert (Hfaces : Forall (λ f, 1 ≤ f ≤ 6) [2; 3; 3; 6; 1]) by (repeat constructor; lia).
  assert (Hopen : ∀ c, c ∈ Scorecard.upper_categories →
                       Scorecard.is_category_available Scorecard.init c = true).
  { intros c. unfold Scorecard.upper_categories. rewrite !elem_of_cons, elem_of_nil.
    intros [->|[->|[->|[->|[->|[->|[]]]]]]]; reflexivity. }
  split; [reflexivity|]. split; [exact Hfaces|]. split; [exact Hopen|].
  destruct (upper_offers_sum Scorecard.init [2; 3; 3; 6; 1] eq_refl Hfaces)
    as (ps & Hps & _ & Heq).
  exists ps. split; [exact Hps|]. exact (Heq Hopen).
Defined.


(** Decides a condition of [calculate_possible_scores] from the counts. *)
Ltac by_counts lem :=
  match goal with
  | |- context [if ?b then _ else _] =>
      let E := fresh "E" in
      destruct b eqn:E;
      [ try done; try (exfalso; apply lem in E; lia)
      | try done; try (exfalso; apply not_true_iff_false in E; apply E; apply lem; lia) ]
  end.

(** X8: how the lower-section offers for one roll of five dice go together.
    A yahtzee offer of 50 comes with the sum of the dice for three and four
    of a kind and 0 for the full house; a four-of-a-kind offer other than 0
    comes with the same offer for three of a kind; a full-house offer of 25
    comes with the sum for three of a kind and 0 for four of a kind and
    yahtzee; a large-straight offer of 40 comes with 30 for the small
    straight and 0 for three of a kind, full house and yahtzee. *)
Theorem lower_offers_related self dice :
  length dice = 5%nat →
  ∃ ps,
    Scorecard.calculate_possible_scores self dice = Ok ps ∧
    (ps !! "yahtzee" = Some 50 →
     (∀ v, ps !! "four_of_kind" = Some v → v = sum dice) ∧
     (∀ v, ps !! "three_of_kind" = Some v → v = sum dice) ∧
     (∀ v, ps !! "full_house" = Some v → v = 0)) ∧
    (∀ v, ps !! "four_of_kind" = Some v → v ≠ 0 →
          ∀ v', ps !! "three_of_kind" = Some v' → v' = v) ∧
    (ps !! "full_house" = Some 25 →
     (∀ v, ps !! "three_of_kind" = Some v → v = sum dice) ∧
     (∀ v, ps !! "four_of_kind" = Some v → v = 0) ∧
     (∀ v, ps !! "yahtzee" = Some v → v = 0)) ∧
    (ps !! "large_straight" = Some 40 →
     (∀ v, ps !! "small_straight" = Some v → v = 30) ∧
     (∀ v, ps !! "three_of_kind" = Some v → v = 0) ∧
     (∀ v, ps !! "full_house" = Some v → v = 0) ∧
     (∀ v, ps !! "yahtzee" = Some v → v = 0)).
Proof.
  intros Hlen.
  destruct (possible_scores_values self dice Hlen)
    as (ps & Hps & _ & _ & _ & _ & _ & _ & H3k & H4k & Hfh & Hss & Hls & Hy & _).
  exists ps. split; [done|].
  pose proof (five_dice_counts dice Hlen) as (? & ? & ? & ? & ? & ? & ?).
  split; [|split; [|split]].
  - intros H50. value_of Hps H50 Hy.
    destruct (Scorecard.has_yahtzee _) eqn:Ey; [|done].
    apply has_yahtzee_iff in Ey. clear H50.
    split; [|split]; intros v Hv.
    + value_of Hps Hv H4k. subst v. by_counts has_four_of_kind_iff.
    + value_of Hps Hv H3k. subst v. by_counts has_three_of_kind_iff.
    + value_of Hps Hv Hfh. subst v.
      destruct (Scorecard.valid_full_house _) eqn:E; [|done].
      apply valid_full_house_counts in E. lia.
  - intros v Hv Hnz v' Hv'. value_of Hps Hv H4k. value_of Hps Hv' H3k. subst v v'.
    destruct (Scorecard.has_four_of_kind _) eqn:E4; [|done].
    apply has_four_of_kind_iff in E4. by_counts has_three_of_kind_iff.
  - intros H25. value_of Hps H25 Hfh.
    destruct (Scorecard.valid_full_house _) eqn:Ef; [|done].
    apply valid_full_house_counts in Ef as [E3 E2]. clear H25.
    split; [|split]; intros v Hv.
    + value_of Hps Hv H3k. subst v. by_counts has_three_of_kind_iff.
    + value_of Hps Hv H4k. subst v. by_counts has_four_of_kind_iff.
    + value_of Hps Hv Hy. subst v. by_counts has_yahtzee_iff.
  - intros H40. value_of Hps H40 Hls.
    destruct (Scorecard.has_large_straight _) eqn:El; [|done].
    pose proof (large_straight_small _ El) as Es.
    apply has_large_straight_counts in El. clear H40.
    split; [|split; [|split]]; intros v Hv.
    + value_of Hps Hv Hss. subst v. by rewrite Es.
    + value_of Hps Hv H3k. subst v. by_counts has_three_of_kind_iff.
    + value_of Hps Hv Hfh. subst v.
      destruct (Scorecard.valid_full_house _) eqn:E; [|done].
      apply valid_full_house_counts in E. lia.
    + value_of Hps Hv Hy. subst v. by_counts has_yahtzee_iff.
Qed.

Lemma lower_offers_related_witness :
  length [2; 3; 4; 5; 6] = 5%nat ∧
  ∃ ps,
    Scorecard.calculate_possible_scores Scorecard.init [2; 3; 4; 5; 6] = Ok ps ∧
    ps !! "large_straight" = Some 40 ∧ ps !! "small_straight" = Some 30 ∧
    ∀ v, ps !! "three_of_kind" = Some v → v = 0.
Proof.
  split; [reflexivity|].
  destruct (lower_offers_related Scorecard.init [2; 3; 4; 5; 6] eq_refl)
    as (ps & Hps & _ & _ & _ & Hlarge).
  assert (Hls : ps !! "large_straight" = Some 40).
  { rewrite possible_scores_eq in Hps by reflexivity. injection Hps as <-.
    etrans; [apply offer_lookup_ne; discriminate|].
    etrans; [apply offer_lookup_ne; discriminate|].
    apply offer_lookup_eq. reflexivity. }
  assert (Hss : ps !! "small_straight" = Some 30).
  { rewrite possible_scores_eq in Hps by reflexivity. injection Hps as <-.
    do 3 (etrans; [apply offer_lookup_ne; discriminate|]).
    apply offer_lookup_eq. reflexivity. }
  exists ps. split; [exact Hps|]. split; [exact Hls|]. split; [exact Hss|].
  apply (Hlarge Hls).
Defined.

(** *** What a commit stores and what it leaves alone *)

(** On a scorecard of the right shape the store overwrites the entry of
    the category among all scores and no other. *)
Lemma store_all_scores self category v (c : string) :
  Scorecard.wf self →
  Scorecard.is_category_available self category = true →
  Scorecard.get_all_scores (Scorecard.store category v self) !! c =
    if decide (category = c) then Some (Some v) else Scorecard.get_all_scores self !! c.
Proof.
  intros Hwf Hav. unfold Scorecard.store, Scorecard.get_all_scores.
  case_bool_decide as Hup; cbn [Scorecard.lower_scores Scorecard.upper_scores
    Scorecard.set_upper_scores Scorecard.set_lower_scores].
  - pose proof (wf_disjoint _ _ Hwf Hup) as Hlow.
    rewrite !lookup_union, lookup_insert. case_decide; [subst|done].
    by rewrite Hlow.
  - rewrite !lookup_union, lookup_insert. case_decide; [subst|done].
    apply available_iff in Hav. unfold Scorecard.get_all_scores in Hav.
    rewrite lookup_union in Hav.
    destruct (Scorecard.upper_scores self !! c) eqn:Hu; [by destruct Hup; eexists|].
    done.
Qed.

Lemma bonus_all_scores n self :
  Scorecard.get_all_scores (Scorecard.set_yahtzee_bonus_count n self) =
  Scorecard.get_all_scores self.
Proof. done. Qed.

Lemma score_category_stores self category dice :
  Scorecard.wf self → length dice = 5%nat →
  Scorecard.is_category_available self category = true →
  ∃ possible_scores v self',
    Scorecard.calculate_possible_scores self dice = Ok possible_scores ∧
    possible_scores !! category = Some v ∧
    Scorecard.score_category category dice self = (self', Ok true) ∧
    Scorecard.get_all_scores self' !! category = Some (Some v) ∧
    (∀ c : string, c ≠ category →
       Scorecard.get_all_scores self' !! c = Scorecard.get_all_scores self !! c) ∧
    Scorecard.wf self'.
Proof.
  intros Hwf Hlen Hav.
  destruct (score_category_commits self category dice Hwf Hlen Hav)
    as (ps & v & five & Hps & Hv & _ & Heq).
  exists ps, v. eexists. split; [done|]. split; [done|]. split; [exact Heq|].
  cbv zeta.
  assert (Hall : ∀ c : string,
            Scorecard.get_all_scores
              (if bool_decide (category ≠ "yahtzee") && five
                  && bool_decide (Scorecard.lower_scores (Scorecard.store category v self)
                                    !! "yahtzee" = Some (Some 50))
               then Scorecard.set_yahtzee_bonus_count
                      (Scorecard.yahtzee_bonus_count (Scorecard.store category v self) + 1)
                      (Scorecard.store category v self)
               else Scorecard.store category v self) !! c =
            if decide (category = c) then Some (Some v)
            else Scorecard.get_all_scores self !! c).
  { intros c. rewrite <-(store_all_scores self category v c Hwf Hav).
    by destruct (_ && _ && _). }
  split; [by rewrite Hall, decide_True|].
  split; [intros c Hc; by rewrite Hall, decide_False|].
  pose proof (store_wf self category v Hwf Hav).
  by destruct (_ && _ && _).
Qed.

(** X9: on a scorecard with the 13 categories, [score_category] for an
    open category and five dice returns [True], stores exactly the score
    [calculate_possible_scores] offers for that category, changes the score
    of no other category and keeps the 13 categories. *)
Theorem commit_stores_offer self category dice :
  Scorecard.wf self → length dice = 5%nat →
  Scorecard.is_category_available self category = true →
  ∃ possible_scores v self',
    Scorecard.calculate_possible_scores self dice = Ok possible_scores ∧
    possible_scores !! category = Some v ∧
    Scorecard.score_category category dice self = (self', Ok true) ∧
    Scorecard.get_all_scores self' !! category = Some (Some v) ∧
    (∀ c : string, c ≠ category →
       Scorecard.get_all_scores self' !! c = Scorecard.get_all_scores self !! c) ∧
    Scorecard.wf self'.
Proof. apply score_category_stores. Qed.

Lemma commit_stores_offer_witness :
  Scorecard.wf Scorecard.init ∧ length [4; 4; 4; 2; 6] = 5%nat ∧
  Scorecard.is_category_available Scorecard.init "fours" = true ∧
  ∃ possible_scores v self',
    Scorecard.calculate_possible_scores Scorecard.init [4; 4; 4; 2; 6] = Ok possible_scores ∧
    possible_scores !! "fours" = Some v ∧
    Scorecard.score_category "fours" [4; 4; 4; 2; 6] Scorecard.init = (self', Ok true) ∧
    Scorecard.get_all_scores self' !! "fours" = Some (Some v) ∧
    (∀ c : string, c ≠ "fours" →
       Scorecard.get_all_scores self' !! c = Scorecard.get_all_scores Scorecard.init !! c) ∧
    Scorecard.wf self'.
Proof.
  split; [apply wf_init|]. split; [reflexivity|]. split; [reflexivity|].
  apply (commit_stores_offer Scorecard.init "fours" [4; 4; 4; 2; 6]);
    [apply wf_init | reflexivity | reflexivity].
Defined.

(** One call of [score_category] keeps a committed score. *)
Lemma score_category_keeps self category dice (c : string) v :
  Scorecard.wf self → length dice = 5%nat →
  Scorecard.get_all_scores self !! c = Some (Some v) →
  Scorecard.get_all_scores (Scorecard.score_category category dice self).1 !! c
    = Some (Some v).
Proof.
  intros Hwf Hlen Hc.
  destruct (Scorecard.is_category_available self category) eqn:Hav.
  - destruct (score_category_stores self category dice Hwf Hlen Hav)
      as (ps & v' & self' & _ & _ & -> & _ & Hframe & _).
    cbn [fst]. rewrite Hframe; [done|]. intros ->.
    apply available_iff in Hav. congruence.
  - by rewrite score_category_unavailable.
Qed.

(** X10: a score once committed is never changed: whatever
    [score_category] calls follow, each with five dice, the category holds
    the same score. *)
Theorem committed_score_is_final self (l : list (string * list Z)) (c : string) v :
  Scorecard.wf self → Forall (λ cd, length cd.2 = 5%nat) l →
  Scorecard.get_all_scores self !! c = Some (Some v) →
  Scorecard.get_all_scores (Scorecard.commits l self) !! c = Some (Some v).
Proof.
  intros Hwf Hl. revert self Hwf.
  induction Hl as [|[category dice] l Hlen _ IH]; intros self Hwf Hc; [done|].
  cbn [Scorecard.commits foldl fst snd] in *. apply IH.
  - by apply score_category_wf.
  - by apply score_category_keeps.
Qed.

Lemma committed_score_is_final_witness :
  let l := [("chance", [5; 5; 5; 5; 2]); ("yahtzee", [1; 1; 1; 1; 1]);
            ("ones", [1; 1; 1; 1; 1])] in
  Scorecard.wf Scorecard.yahtzee_scored ∧ Forall (λ cd, length cd.2 = 5%nat) l ∧
  Scorecard.get_all_scores Scorecard.yahtzee_scored !! "yahtzee" = Some (Some 50) ∧
  Scorecard.get_all_scores (Scorecard.commits l Scorecard.yahtzee_scored) !! "yahtzee"
    = Some (Some 50).
Proof.
  cbv zeta.
  assert (Hl : Forall (λ cd : string * list Z, length cd.2 = 5%nat)
                 [("chance", [5; 5; 5; 5; 2]); ("yahtzee", [1; 1; 1; 1; 1]);
                  ("ones", [1; 1; 1; 1; 1])]) by (repeat constructor).
  assert (Hy : Scorecard.get_all_scores Scorecard.yahtzee_scored !! "yahtzee"
               = Some (Some 50)) by (vm_compute; reflexivity).
  split; [apply wf_yahtzee_scored|]. split; [exact Hl|]. split; [exact Hy|].
  apply (committed_score_is_final Scorecard.yahtzee_scored _ "yahtzee" 50
           wf_yahtzee_scored Hl Hy).
Defined.

(** *** The Yahtzee bonus *)

Lemma max_count_is_5_iff dice :
  length dice = 5%nat →
  Scorecard.max_count_is_5 dice = Ok true ↔
  count 1 dice = 5 ∨ count 2 dice = 5 ∨ count 3 dice = 5 ∨
  count 4 dice = 5 ∨ count 5 dice = 5 ∨ count 6 dice = 5.
Proof.
  intros Hlen. pose proof (λ x, count_le_length x dice) as Hle. rewrite Hlen in Hle.
  pose proof (Hle 1); pose proof (Hle 2); pose proof (Hle 3);
    pose proof (Hle 4); pose proof (Hle 5); pose proof (Hle 6).
  unfold Scorecard.max_count_is_5.
  change (max ((λ i, count i dice) <$> range 1 7))
    with (Ok (Z.max (Z.max (Z.max (Z.max (Z.max (count 1 dice) (count 2 dice))
                (count 3 dice)) (count 4 dice)) (count 5 dice)) (count 6 dice))).
  split.
  - intros [= Hmax]. apply bool_decide_eq_true in Hmax. lia.
  - intros Hc. f_equal. apply bool_decide_eq_true. lia.
Qed.

(** The store of a category other than yahtzee leaves the yahtzee score. *)
Lemma store_yahtzee self category v :
  category ≠ "yahtzee" →
  Scorecard.lower_scores (Scorecard.store category v self) !! "yahtzee" =
  Scorecard.lower_scores self !! "yahtzee".
Proof.
  intros Hne. unfold Scorecard.store. case_bool_decide; cbn; [done|].
  by rewrite lookup_insert_ne.
Qed.

(** X11: one [score_category] call with five dice leaves
    [yahtzee_bonus_count] as it is or adds one, and it adds one exactly when
    the category is open and is not yahtzee, the five dice show the same
    face from 1 to 6, and the yahtzee category holds 50. *)
Theorem yahtzee_bonus_rule self category dice :
  Scorecard.wf self → length dice = 5%nat →
  let self' := (Scorecard.score_category category dice self).1 in
  (Scorecard.yahtzee_bonus_count self' = Scorecard.yahtzee_bonus_count self ∨
   Scorecard.yahtzee_bonus_count self' = Scorecard.yahtzee_bonus_count self + 1) ∧
  (Scorecard.yahtzee_bonus_count self' = Scorecard.yahtzee_bonus_count self + 1 ↔
   Scorecard.is_category_available self category = true ∧ category ≠ "yahtzee" ∧
   (∃ a, 1 ≤ a ≤ 6 ∧ count a dice = 5) ∧
   Scorecard.lower_scores self !! "yahtzee" = Some (Some 50)).
Proof.
  intros Hwf Hlen. cbv zeta.
  destruct (Scorecard.is_category_available self category) eqn:Hav.
  2: { rewrite score_category_unavailable by done. cbn [fst].
       split; [by left|]. split; [lia | by intros [? _]]. }
  destruct (score_category_commits self category dice Hwf Hlen Hav)
    as (ps & v & five & _ & _ & Hfive & ->).
  cbv zeta. cbn [fst].
  assert (Hb : Scorecard.yahtzee_bonus_count (Scorecard.store category v self)
               = Scorecard.yahtzee_bonus_count self).
  { unfold Scorecard.store. by case_bool_decide. }
  assert (Hfive' : five = true ↔ ∃ a, 1 ≤ a ≤ 6 ∧ count a dice = 5).
  { split.
    - intros ->. pose proof (proj1 (max_count_is_5_iff dice Hlen) Hfive) as Hc.
      destruct Hc as [?|[?|[?|[?|[?|?]]]]]; eexists; (split; [|eassumption]); lia.
    - intros (a & Ha & Hc).
      assert (Scorecard.max_count_is_5 dice = Ok true) as Htrue; [|congruence].
      apply max_count_is_5_iff; [done|].
      destruct (face_cases a Ha) as [->|[->|[->|[->|[->| ->]]]]]; tauto. }
  case_bool_decide as Hy; cbn [andb].
  2: { rewrite Hb. split; [by left|]. split; [lia|]. by intros (_ & ? & _). }
  rewrite store_yahtzee by done.
  destruct five; cbn [andb].
  2: { rewrite Hb. split; [by left|]. split; [lia|].
       intros (_ & _ & Hc & _). by apply Hfive' in Hc. }
  case_bool_decide as H50; cbn [Scorecard.yahtzee_bonus_count Scorecard.set_yahtzee_bonus_count];
    rewrite Hb.
  - split; [by right|]. split; [|done]. intros _. repeat split; try done. by apply Hfive'.
  - split; [by left|]. split; [lia|]. by intros (_ & _ & _ & ?).
Qed.

Lemma yahtzee_bonus_rule_witness :
  Scorecard.wf Scorecard.yahtzee_scored ∧ length [5; 5; 5; 5; 5] = 5%nat ∧
  Scorecard.yahtzee_bonus_count
    (Scorecard.score_category "fives" [5; 5; 5; 5; 5] Scorecard.yahtzee_scored).1 =
  Scorecard.yahtzee_bonus_count Scorecard.yahtzee_scored + 1.
Proof.
  split; [apply wf_yahtzee_scored|]. split; [reflexivity|].
  apply (yahtzee_bonus_rule Scorecard.yahtzee_scored "fives" [5; 5; 5; 5; 5]
           wf_yahtzee_scored eq_refl).
  split; [vm_compute; reflexivity|]. split; [discriminate|].
  split; [exists 5; split; [lia | reflexivity] | vm_compute; reflexivity].
Defined.

(** *** Completion *)

Lemma is_complete_iff self :
  Scorecard.is_complete self = true ↔
  ∀ c : string, Scorecard.is_category_available self c = false.
Proof.
  unfold Scorecard.is_complete. rewrite bool_decide_eq_true. split.
  - intros Hall c. apply not_true_is_false. intros Hav%available_iff.
    by apply (Hall c None Hav).
  - intros Hnone c [v|] Hc; [done|]. apply available_iff in Hc.
    rewrite Hnone in Hc. done.
Qed.

(** X12: a scorecard with the 13 categories is complete exactly when no
    category is available, which is exactly when
    [calculate_possible_scores] returns the empty dict for five dice. *)
Theorem complete_scorecard_offers_nothing self dice :
  Scorecard.wf self → length dice = 5%nat →
  (Scorecard.is_complete self = true ↔
   ∀ c : string, Scorecard.is_category_available self c = false) ∧
  (Scorecard.is_complete self = true ↔
   Scorecard.calculate_possible_scores self dice = Ok ∅).
Proof.
  intros Hwf Hlen.
  pose proof (is_complete_iff self) as H1.
  split; [exact H1|]. rewrite H1.
  destruct (possible_scores_spec self dice Hlen) as (ps & Hps & Hkeys & _).
  rewrite Hps. split.
  - intros Hnone. f_equal. apply map_eq. intros c. rewrite lookup_empty.
    by apply (not_offered _ _ _ _ Hps).
  - intros [= ->] c. apply not_true_is_false. intros Hav.
    destruct (proj2 (Hkeys c)) as [v Hv]; [|by rewrite lookup_empty in Hv].
    split; [by apply (wf_available self) | by apply available_iff].
Qed.

Lemma complete_scorecard_offers_nothing_witness :
  Scorecard.wf Scorecard.init ∧ length [1; 1; 1; 1; 1] = 5%nat ∧
  (Scorecard.is_complete Scorecard.init = true ↔
   Scorecard.calculate_possible_scores Scorecard.init [1; 1; 1; 1; 1] = Ok ∅).
Proof.
  split; [apply wf_init|]. split; [reflexivity|].
  apply (complete_scorecard_offers_nothing Scorecard.init [1; 1; 1; 1; 1] wf_init eq_refl).
Defined.

(** *** Totals never go down *)

(** The section totals after the store of an open category: the score is
    added to the section that has the category. *)
Lemma store_totals self category v :
  Scorecard.wf self →
  Scorecard.is_category_available self category = true →
  let self' := Scorecard.store category v self in
  (Scorecard.calculate_upper_total self' = Scorecard.calculate_upper_total self + v ∧
   Scorecard.calculate_lower_total self' = Scorecard.calculate_lower_total self) ∨
  (Scorecard.calculate_upper_total self' = Scorecard.calculate_upper_total self ∧
   Scorecard.calculate_lower_total self' = Scorecard.calculate_lower_total self + v).
Proof.
  intros Hwf Hav. cbv zeta. apply available_iff in Hav.
  unfold Scorecard.get_all_scores in Hav. rewrite lookup_union in Hav.
  unfold Scorecard.store, Scorecard.calculate_upper_total, Scorecard.calculate_lower_total.
  case_bool_decide as Hup; cbn [Scorecard.upper_scores Scorecard.lower_scores
    Scorecard.set_upper_scores Scorecard.set_lower_scores].
  - left. split; [|done]. apply total_of_insert.
    rewrite (wf_disjoint _ _ Hwf Hup) in Hav.
    destruct Hup as [u Hu]. rewrite Hu in Hav |- *. by injection Hav as ->.
  - right. split; [done|]. apply total_of_insert.
    destruct (Scorecard.upper_scores self !! category) eqn:Hu; [by destruct Hup; eexists|].
    destruct (Scorecard.lower_scores self !! category); [|done]. by injection Hav as ->.
Qed.

(** X13: with five dice of faces 1 to 6, [score_category] on a scorecard
    with the 13 categories returns; when it returns [False] the scorecard is
    unchanged; the grand total never goes down; and when it returns [True]
    the upper and lower totals together grow by exactly the score stored. *)
Theorem grand_total_monotone self category dice :
  Scorecard.wf self → length dice = 5%nat → Forall (λ f, 1 ≤ f ≤ 6) dice →
  ∃ self' success,
    Scorecard.score_category category dice self = (self', Ok success) ∧
    (success = false → self' = self) ∧
    Scorecard.calculate_grand_total self ≤ Scorecard.calculate_grand_total self' ∧
    (success = true →
     ∃ v, Scorecard.get_all_scores self' !! category = Some (Some v) ∧
          Scorecard.calculate_upper_total self' + Scorecard.calculate_lower_total self' =
          Scorecard.calculate_upper_total self + Scorecard.calculate_lower_total self + v).
Proof.
  intros Hwf Hlen Hfaces.
  destruct (Scorecard.is_category_available self category) eqn:Hav.
  2: { exists self, false. rewrite score_category_unavailable by done.
       split; [done|]. split; [done|]. split; [lia | done]. }
  destruct (score_category_commits self category dice Hwf Hlen Hav)
    as (ps & v & five & Hps & Hv & _ & Heq).
  destruct (possible_scores_range self dice Hlen Hfaces) as (ps' & Hps' & Hbound).
  rewrite Hps in Hps'. injection Hps' as <-. specialize (Hbound category v Hv).
  pose proof (store_totals self category v Hwf Hav) as Htot. cbv zeta in Htot.
  pose proof (store_all_scores self category v category Hwf Hav) as Hstored.
  rewrite decide_True in Hstored by done.
  assert (Hb : Scorecard.yahtzee_bonus_count (Scorecard.store category v self)
               = Scorecard.yahtzee_bonus_count self).
  { unfold Scorecard.store. destruct (bool_decide (is_Some _)); reflexivity. }
  eexists _, true. split; [exact Heq|]. split; [done|]. cbv zeta.
  set (self1 := Scorecard.store category v self) in *.
  assert (Hgrand : Scorecard.calculate_grand_total self
                   ≤ Scorecard.calculate_grand_total self1).
  { unfold Scorecard.calculate_grand_total, Scorecard.calculate_upper_bonus,
      Scorecard.calculate_yahtzee_bonus. rewrite Hb.
    destruct Htot as [[-> ->]|[-> ->]]; repeat case_bool_decide; lia. }
  match goal with |- context [if ?b then _ else _] => destruct b end.
  - split.
    + etrans; [exact Hgrand|].
      unfold Scorecard.calculate_grand_total, Scorecard.calculate_upper_bonus,
        Scorecard.calculate_yahtzee_bonus, Scorecard.calculate_upper_total,
        Scorecard.calculate_lower_total. cbn. repeat case_bool_decide; lia.
    + intros _. exists v. split; [exact Hstored|].
      change (Scorecard.calculate_upper_total self1 + Scorecard.calculate_lower_total self1 =
              Scorecard.calculate_upper_total self + Scorecard.calculate_lower_total self + v).
      lia.
  - split; [exact Hgrand|]. intros _. exists v. split; [exact Hstored | lia].
Qed.

Lemma grand_total_monotone_witness :
  Scorecard.wf Scorecard.yahtzee_scored ∧ length [5; 5; 5; 5; 5] = 5%nat ∧
  Forall (λ f, 1 ≤ f ≤ 6) [5; 5; 5; 5; 5] ∧
  ∃ self' success,
    Scorecard.score_category "fives" [5; 5; 5; 5; 5] Scorecard.yahtzee_scored
      = (self', Ok success) ∧
    Scorecard.calculate_grand_total Scorecard.yahtzee_scored
      ≤ Scorecard.calculate_grand_total self'.
Proof.
  assert (Hfaces : Forall (λ f, 1 ≤ f ≤ 6) [5; 5; 5; 5; 5]) by (repeat constructor; lia).
  split; [apply wf_yahtzee_scored|]. split; [reflexivity|]. split; [exact Hfaces|].
  destruct (grand_total_monotone Scorecard.yahtzee_scored "fives" [5; 5; 5; 5; 5]
              wf_yahtzee_scored eq_refl Hfaces) as (self' & success & Heq & _ & Hle & _).
  exists self', success. split; [exact Heq | exact Hle].
Defined.

End scorecard_more.

(** ** The dice, continued: the summary *)
Section dice_summary.

Implicit Types (d : Dice.YahtzeeDice) (g : Rng) (s : Dice.St).

(** *** The summary of the dice *)

Lemma summary_counts_lookup (l : list Z) (v : Z) :
  foldl (λ counts value, <[value := count value l]> counts) (∅ : gmap Z Z) (range 1 7) !! v
  = if bool_decide (1 ≤ v ≤ 6) then Some (count v l) else None.
Proof.
  change (range 1 7) with [1; 2; 3; 4; 5; 6]. cbn [foldl].
  case_bool_decide as Hv.
  - assert (Hcases : v = 1 ∨ v = 2 ∨ v = 3 ∨ v = 4 ∨ v = 5 ∨ v = 6) by lia.
    destruct Hcases as [-> | [-> | [-> | [-> | [-> | ->]]]]];
      repeat (rewrite lookup_insert_ne by done); by rewrite lookup_insert_eq.
  - repeat (rewrite lookup_insert_ne by lia). done.
Qed.

(** X4: after any sequence of calls on a new dice set,
    [get_dice_summary] changes nothing and returns the current faces and
    budget, a count for each value from 1 to 6 and for no other key, and
    the sum of the dice; the six counts add up to 5, the counts weighted by
    their value add up to the sum, and the sum is between 5 and 30. *)
Theorem dice_summary_consistent (ops : list Dice.Op) g :
  let s := Dice.calls ops (Dice.init, g) in
  ∃ summary,
    Dice.get_dice_summary s = (s, Ok summary) ∧
    Dice.summary_dice summary = Dice.dice s.1 ∧
    Dice.summary_rolls_remaining summary = Dice.rolls_remaining s.1 ∧
    (∀ v, Dice.summary_counts summary !! v
          = if bool_decide (1 ≤ v ≤ 6) then Some (count v (Dice.dice s.1)) else None) ∧
    sum ((λ v, count v (Dice.dice s.1)) <$> range 1 7) = 5 ∧
    sum ((λ v, v * count v (Dice.dice s.1)) <$> range 1 7) = Dice.summary_sum summary ∧
    5 ≤ Dice.summary_sum summary ≤ 30.
Proof.
  cbv zeta. set (s := Dice.calls ops (Dice.init, g)).
  assert (Hs : Dice.faces_ok (Dice.dice s.1))
    by apply (calls_faces_ok ops (Dice.init, g)), init_faces_ok.
  destruct Hs as [Hlen Hfaces].
  eexists. split; [reflexivity|]. cbn [Dice.summary_dice Dice.summary_rolls_remaining
    Dice.summary_counts Dice.summary_sum].
  split; [done|]. split; [done|]. split; [apply summary_counts_lookup|].
  change (range 1 7) with [1; 2; 3; 4; 5; 6]. cbn [fmap list_fmap sum].
  pose proof (counts_total _ Hfaces). pose proof (sum_by_face _ Hfaces).
  pose proof (sum_bounds _ Hfaces). lia.
Qed.

End dice_summary.

(** ** The game: turns, offers and rolls *)
Section game_more.

Implicit Types (gm : Game.YahtzeeGame) (g : Rng) (self : Scorecard.YahtzeeScorecard).

(** *** Counting the categories scored *)

Lemma filter_length_ext {A} (P Q : A → Prop)
    `{!∀ x, Decision (P x)} `{!∀ x, Decision (Q x)} (l : list A) :
  (∀ y, y ∈ l → P y ↔ Q y) → length (filter P l) = length (filter Q l).
Proof.
  induction l as [|a l IH]; intros Hl; [done|].
  rewrite !filter_cons.
  assert (Ha : P a ↔ Q a) by (apply Hl; left).
  assert (Hr : length (filter P l) = length (filter Q l))
    by (apply IH; intros y Hy; apply Hl; by right).
  destruct (decide (P a)), (decide (Q a)); simpl; tauto || lia.
Qed.

Lemma filter_length_flip {A} `{!EqDecision A} (P Q : A → Prop)
    `{!∀ x, Decision (P x)} `{!∀ x, Decision (Q x)} (l : list A) x :
  NoDup l → x ∈ l → ¬ P x → Q x → (∀ y, y ≠ x → P y ↔ Q y) →
  length (filter Q l) = S (length (filter P l)).
Proof.
  intros Hnd Hx HP HQ Hother.
  induction Hnd as [|a l Ha Hnd IH]; [by apply elem_of_nil in Hx|].
  rewrite !filter_cons. destruct (decide (a = x)) as [->|Hne].
  - rewrite decide_True, decide_False by done. simpl. f_equal.
    symmetry. apply filter_length_ext. intros y Hy. apply Hother. by intros ->.
  - apply elem_of_cons in Hx as [->|Hx]; [done|]. specialize (IH Hx).
    pose proof (Hother a Hne).
    destruct (decide (P a)), (decide (Q a)); simpl; tauto || lia.
Qed.

Lemma filter_length_all {A} (P : A → Prop) `{!∀ x, Decision (P x)} (l : list A) :
  length (filter P l) = length l ↔ Forall P l.
Proof.
  induction l as [|a l IH]; [by split|].
  rewrite filter_cons, Forall_cons. pose proof (length_filter P l).
  destruct (decide (P a)); simpl; [rewrite <-IH; split; [intros [=]; done | intros [_ ->]; done]|].
  split; [lia | tauto].
Qed.

Lemma NoDup_categories : NoDup Scorecard.categories.
Proof. apply (bool_decide_unpack _). vm_compute. exact I. Qed.

Lemma scored_le self : (Scorecard.scored self ≤ 13)%nat.
Proof. unfold Scorecard.scored. etrans; [apply length_filter|]. done. Qed.

(** A commit of an open category scores one category more. *)
Lemma scored_commit self category dice :
  Scorecard.wf self → length dice = 5%nat →
  Scorecard.is_category_available self category = true →
  Scorecard.scored (Scorecard.score_category category dice self).1
    = S (Scorecard.scored self).
Proof.
  intros Hwf Hlen Hav.
  destruct (score_category_stores self category dice Hwf Hlen Hav)
    as (ps & v & self' & _ & _ & -> & Hnew & Hframe & _).
  cbn [fst]. unfold Scorecard.scored.
  apply (filter_length_flip _ _ _ category).
  - apply NoDup_categories.
  - by apply (wf_available self).
  - by rewrite Hav.
  - apply not_true_is_false. intros Hc%available_iff. congruence.
  - intros c Hc.
    assert (Heq : Scorecard.is_category_available self' c
                  = Scorecard.is_category_available self c).
    { unfold Scorecard.is_category_available. by rewrite (Hframe c Hc). }
    by rewrite Heq.
Qed.

(** The scorecard is full when all 13 categories are scored. *)
Lemma scored_complete self :
  Scorecard.wf self →
  Scorecard.is_complete self = true ↔ Scorecard.scored self = 13%nat.
Proof.
  intros Hwf. rewrite is_complete_iff. unfold Scorecard.scored.
  change 13%nat with (length Scorecard.categories).
  rewrite filter_length_all, Forall_forall. split; [by auto|].
  intros Hall c. destruct (Scorecard.is_category_available self c) eqn:Hav; [|done].
  rewrite <-Hav. apply Hall. by apply (wf_available self).
Qed.

(** *** What every game keeps *)

Lemma init_consistent name : Game.consistent (Game.init name).
Proof.
  split; [split; [done | apply wf_init]|].
  split; [cbn; repeat constructor; lia|].
  split; [cbn; lia|]. split; [done|]. split; [by vm_compute | by vm_compute].
Qed.

Lemma dice_call_consistent op gm g :
  Game.consistent gm →
  Game.consistent (Game.set_dice (Dice.call op (Game.dice gm, g)).1 gm).
Proof.
  intros ([Hlen Hsc] & Hfaces & Hrr & Hrest).
  pose proof (call_faces_ok op (Game.dice gm, g) (conj Hlen Hfaces)) as [Hlen' Hfaces'].
  pose proof (call_rolls_remaining op (Game.dice gm, g) Hrr) as Hrr'.
  split; [by split|]. split; [done|]. split; [done|]. exact Hrest.
Qed.

Lemma start_new_turn_consistent gm g :
  Game.consistent gm → Game.consistent (Game.start_new_turn (gm, g)).1.1.
Proof.
  intros Hgm. destruct (Game.game_complete gm) eqn:Hdone.
  - unfold Game.start_new_turn. cbn [fst]. by rewrite Hdone.
  - rewrite start_new_turn_eq by done. cbv zeta. cbn [fst].
    pose proof (dice_call_consistent Dice.StartNewTurn gm g Hgm) as H1.
    pose proof (dice_call_consistent Dice.RollAll _ g H1) as H2.
    destruct gm as [n sc d t mt gc]. exact H2.
Qed.

Lemma roll_dice_consistent keep_dice gm g :
  Game.consistent gm → Game.consistent (Game.roll_dice keep_dice (gm, g)).1.1.
Proof.
  intros Hgm. destruct (Game.game_complete gm) eqn:Hdone.
  - by rewrite roll_dice_complete.
  - destruct (roll_dice_eq keep_dice gm g Hdone) as (m & -> & ->). cbn [fst].
    destruct keep_dice as [keep_dice|].
    + apply (dice_call_consistent (Dice.RollWithKeep keep_dice) gm g Hgm).
    + apply (dice_call_consistent Dice.RollAll gm g Hgm).
Qed.

Lemma score_category_consistent category gm g :
  Game.consistent gm → Game.consistent (Game.score_category category (gm, g)).1.1.
Proof.
  intros Hgm. destruct (Game.game_complete gm) eqn:Hdone;
    [by rewrite score_category_complete|].
  rewrite score_category_eq by done. cbv zeta.
  destruct Hgm as ([Hlen Hsc] & Hfaces & Hrr & Hmax & Hturn & Hflag).
  destruct (Scorecard.is_category_available (Game.scorecard gm) category) eqn:Hav.
  2: { rewrite score_category_unavailable by done. cbn [fst snd].
       rewrite set_scorecard_id.
       exact (conj (conj Hlen Hsc) (conj Hfaces (conj Hrr (conj Hmax (conj Hturn Hflag))))). }
  pose proof (scored_commit _ category _ Hsc Hlen Hav) as Hscored.
  pose proof (score_category_wf _ category _ Hsc Hlen) as Hwf'.
  destruct (score_category_stores _ category _ Hsc Hlen Hav)
    as (ps & v & self' & _ & _ & Heq & _).
  rewrite Heq in Hscored, Hwf' |- *. cbn [fst snd] in *.
  set (gm2 := Game.set_current_turn _ _).
  assert (Hgm2 : Game.wf gm2 ∧ Forall (λ f, 1 ≤ f ≤ 6) (Dice.dice (Game.dice gm2)) ∧
                 0 ≤ Dice.rolls_remaining (Game.dice gm2) ≤ 3 ∧ Game.max_turns gm2 = 13 ∧
                 Game.current_turn gm2
                   = 1 + Z.of_nat (Scorecard.scored (Game.scorecard gm2))).
  { split; [by split|]. split; [done|]. split; [done|]. split; [done|].
    change (Game.current_turn gm + 1 = 1 + Z.of_nat (Scorecard.scored self')).
    rewrite Hscored. lia. }
  assert (Htest : bool_decide (Game.current_turn gm2 > Game.max_turns gm2)
                  || Scorecard.is_complete (Game.scorecard gm2)
                  = Scorecard.is_complete (Game.scorecard gm2)).
  { destruct (Scorecard.is_complete (Game.scorecard gm2)) eqn:Hc;
      [by rewrite orb_true_r|]. rewrite orb_false_r. apply bool_decide_eq_false.
    destruct Hgm2 as (Hwf2 & _ & _ & Hm2 & Ht2). rewrite Hm2, Ht2.
    pose proof (scored_le (Game.scorecard gm2)).
    assert (Scorecard.scored (Game.scorecard gm2) ≠ 13%nat)
      by (rewrite <-scored_complete by apply Hwf2; by rewrite Hc).
    lia. }
  rewrite Htest. destruct (Scorecard.is_complete (Game.scorecard gm2)) eqn:Hc.
  - cbn [fst]. destruct Hgm2 as (Hwf2 & Hf2 & Hr2 & Hm2 & Ht2).
    split; [exact Hwf2|]. split; [exact Hf2|]. split; [exact Hr2|].
    split; [exact Hm2|]. split; [exact Ht2|]. symmetry. exact Hc.
  - assert (Hc2 : Game.consistent gm2).
    { destruct Hgm2 as (Hwf2 & Hf2 & Hr2 & Hm2 & Ht2).
      split; [exact Hwf2|]. split; [exact Hf2|]. split; [exact Hr2|].
      split; [exact Hm2|]. split; [exact Ht2|]. rewrite Hc. exact Hdone. }
    cbn [fst]. by apply start_new_turn_consistent.
Qed.

Lemma call_consistent op (s : Game.St) :
  Game.consistent s.1 → Game.consistent (Game.call op s).1.
Proof.
  destruct s as [gm g]. destruct op; cbn [Game.call fst].
  - apply start_new_turn_consistent.
  - apply roll_dice_consistent.
  - apply score_category_consistent.
Qed.

Lemma calls_consistent ops (s : Game.St) :
  Game.consistent s.1 → Game.consistent (Game.calls ops s).1.
Proof.
  revert s. induction ops as [|op ops IH]; intros s Hs; [done|].
  cbn. apply IH. by apply call_consistent.
Qed.

(** X14: whatever is called on a new game, the turn counter is one more
    than the number of categories scored and stays between 1 and 14, and the
    game is complete exactly when the scorecard is, which is exactly when
    the counter shows 14; the dice are five faces from 1 to 6 and the roll
    budget is between 0 and 3. *)
Theorem game_completes_with_scorecard (name : string) g (ops : list Game.Op) :
  let gm := (Game.calls ops (Game.init name, g)).1 in
  Game.current_turn gm = 1 + Z.of_nat (Scorecard.scored (Game.scorecard gm)) ∧
  1 ≤ Game.current_turn gm ≤ 14 ∧
  (Game.game_complete gm = true ↔ Scorecard.is_complete (Game.scorecard gm) = true) ∧
  (Game.game_complete gm = true ↔ Game.current_turn gm = 14) ∧
  Dice.faces_ok (Dice.dice (Game.dice gm)) ∧
  0 ≤ Dice.rolls_remaining (Game.dice gm) ≤ 3.
Proof.
  cbv zeta.
  destruct (calls_consistent ops (Game.init name, g) (init_consistent name))
    as ([Hlen Hsc] & Hfaces & Hrr & Hmax & Hturn & Hflag).
  pose proof (scored_le (Game.scorecard (Game.calls ops (Game.init name, g)).1)).
  split; [done|]. split; [lia|]. split; [by rewrite Hflag|].
  split; [|by split]. rewrite Hflag, scored_complete by done. lia.
Qed.

(** *** Offers and commits of a game *)

Lemma get_possible_scores_eq gm g :
  Game.get_possible_scores (gm, g) =
    ((gm, g),
     if Game.game_complete gm then Ok ∅
     else Scorecard.calculate_possible_scores (Game.scorecard gm) (Dice.dice (Game.dice gm))).
Proof.
  unfold Game.get_possible_scores. cbn [fst]. destruct (Game.game_complete gm); [done|].
  unfold mbind, M_bind. rewrite on_dice_eq. cbn. rewrite set_dice_id.
  by destruct (Scorecard.calculate_possible_scores _ _).
Qed.

(** A commit that the scorecard accepts, in an open game: the game holds
    the new scorecard and the turn counter moves on. *)
Lemma score_category_accepted category gm g self' :
  Game.wf gm → Game.game_complete gm = false →
  Scorecard.score_category category (Dice.dice (Game.dice gm)) (Game.scorecard gm)
    = (self', Ok true) →
  ∃ gm' g',
    Game.score_category category (gm, g) = ((gm', g'), Ok true) ∧
    Game.scorecard gm' = self' ∧
    Game.current_turn gm' = Game.current_turn gm + 1 ∧
    Game.player_name gm' = Game.player_name gm.
Proof.
  intros [Hlen Hsc] Hopen Hcommit. rewrite score_category_eq by done. cbv zeta.
  rewrite Hcommit. cbn [fst snd].
  set (gm2 := Game.set_current_turn _ _).
  destruct (_ || _); [by eexists _, _|].
  rewrite (start_new_turn_eq gm2 g Hopen). cbv zeta.
  destruct (roll_all_ok (Dice.set_rolls_remaining 3 (Game.dice gm2)) g)
    as (faces & g' & -> & _); [done | cbn; lia |].
  cbn [fst snd]. by eexists _, _.
Qed.

(** X15: in a game with five dice and the 13 categories,
    [get_possible_scores] changes nothing, and [score_category] returns
    [True] exactly for the categories it lists: for a listed category the
    scorecard then holds the listed score and the turn counter has moved
    on by one; for any other category, and for every category once the game
    is complete, [score_category] returns [False] and changes nothing. *)
Theorem score_matches_offer gm g :
  Game.wf gm →
  ∃ possible_scores,
    Game.get_possible_scores (gm, g) = ((gm, g), Ok possible_scores) ∧
    ∀ category,
      match possible_scores !! category with
      | Some v =>
          ∃ gm' g',
            Game.score_category category (gm, g) = ((gm', g'), Ok true) ∧
            Scorecard.get_all_scores (Game.scorecard gm') !! category = Some (Some v) ∧
            Game.current_turn gm' = Game.current_turn gm + 1
      | None => Game.score_category category (gm, g) = ((gm, g), Ok false)
      end.
Proof.
  intros Hwf. rewrite get_possible_scores_eq.
  destruct (Game.game_complete gm) eqn:Hdone.
  { exists ∅. split; [done|]. intros category. rewrite lookup_empty.
    by apply score_category_complete. }
  destruct Hwf as [Hlen Hsc].
  destruct (possible_scores_spec (Game.scorecard gm) _ Hlen) as (ps & Hps & _).
  exists ps. split; [by rewrite Hps|]. intros category.
  destruct (ps !! category) as [v|] eqn:Hv.
  - pose proof (offered_available _ _ _ _ _ Hps Hv) as Hav.
    destruct (score_category_stores _ category _ Hsc Hlen Hav)
      as (ps' & v' & self' & Hps' & Hv' & Hcommit & Hnew & _).
    rewrite Hps in Hps'. injection Hps' as <-. rewrite Hv in Hv'. injection Hv' as <-.
    destruct (score_category_accepted category gm g self' (conj Hlen Hsc) Hdone Hcommit)
      as (gm' & g' & Heq & Hcard & Hturn & _).
    exists gm', g'. by rewrite Hcard.
  - assert (Hav : Scorecard.is_category_available (Game.scorecard gm) category = false).
    { apply not_true_is_false. intros Hav.
      destruct (score_category_stores _ category _ Hsc Hlen Hav)
        as (ps' & v' & self' & Hps' & Hv' & _).
      congruence. }
    rewrite score_category_eq by done. cbv zeta.
    rewrite score_category_unavailable by done. cbn [fst snd].
    by rewrite set_scorecard_id.
Qed.

Lemma score_matches_offer_witness :
  Game.wf (Game.init "A") ∧
  ∃ possible_scores,
    Game.get_possible_scores (Game.init "A", rng_from 1)
      = ((Game.init "A", rng_from 1), Ok possible_scores).
Proof.
  assert (Hwf : Game.wf (Game.init "A")) by (split; [reflexivity | apply wf_init]).
  split; [exact Hwf|].
  destruct (score_matches_offer (Game.init "A") (rng_from 1) Hwf) as (ps & Hps & _).
  by exists ps.
Defined.

(** *** Rolling *)

(** X16: in a game with five dice, for a roll with no mask or a mask of
    five booleans: [can_roll] and [is_turn_complete] change nothing;
    when [can_roll] returns [True], [roll_dice] returns the five new faces
    and the budget goes down by one; when it returns [False], [roll_dice]
    raises (game complete, else no rolls remaining) and changes nothing.  In
    every case [roll_dice] leaves the scorecard, the turn counter, the
    completion flag and the player name alone. *)
Theorem can_roll_predicts_roll gm g (keep_dice : option (list bool)) :
  Game.wf gm → (∀ k, keep_dice = Some k → length k = 5%nat) →
  let out := Game.roll_dice keep_dice (gm, g) in
  (∃ b, Game.can_roll (gm, g) = ((gm, g), Ok b) ∧
        Game.is_turn_complete (gm, g)
          = ((gm, g), Ok (bool_decide (Dice.rolls_remaining (Game.dice gm) ≤ 0))) ∧
        if b
        then ∃ faces, out.2 = Ok faces ∧ Dice.dice (Game.dice out.1.1) = faces ∧
                      length faces = 5%nat ∧
                      Dice.rolls_remaining (Game.dice out.1.1)
                        = Dice.rolls_remaining (Game.dice gm) - 1
        else out = ((gm, g),
                    Raise (if Game.game_complete gm then GameAlreadyComplete
                           else NoRollsRemaining))) ∧
  Game.scorecard out.1.1 = Game.scorecard gm ∧
  Game.current_turn out.1.1 = Game.current_turn gm ∧
  Game.game_complete out.1.1 = Game.game_complete gm ∧
  Game.player_name out.1.1 = Game.player_name gm.
Proof.
  intros [Hlen Hsc] Hkeep. cbv zeta.
  assert (Hcan : Game.can_roll (gm, g) =
            ((gm, g), Ok (negb (Game.game_complete gm)
                          && bool_decide (Dice.rolls_remaining (Game.dice gm) > 0)))).
  { unfold Game.can_roll, mbind, M_bind. rewrite on_dice_eq. cbn.
    by rewrite set_dice_id. }
  assert (Hturn : Game.is_turn_complete (gm, g) =
            ((gm, g), Ok (bool_decide (Dice.rolls_remaining (Game.dice gm) ≤ 0)))).
  { unfold Game.is_turn_complete, mbind, M_bind. rewrite on_dice_eq. cbn.
    rewrite set_dice_id. do 2 f_equal.
    repeat case_bool_decide; done || lia. }
  destruct (Game.game_complete gm) eqn:Hdone.
  { rewrite roll_dice_complete by done. cbn [fst snd].
    split; [|done]. exists false. by rewrite Hcan, Hturn. }
  destruct (roll_dice_eq keep_dice gm g Hdone) as (m & Hm & ->). cbn [fst snd].
  split; [|by destruct gm]. eexists. split; [exact Hcan|]. split; [exact Hturn|].
  clear Hcan Hturn. cbn [negb andb]. case_bool_decide as Hpos.
  - assert (Hroll : ∃ faces g',
              m (Game.dice gm, g) =
                ((Dice.set_rolls_remaining (Dice.rolls_remaining (Game.dice gm) - 1)
                    (Dice.set_dice faces (Game.dice gm)), g'), Ok faces) ∧
              length faces = 5%nat).
    { destruct keep_dice as [k|]; subst m.
      - destruct (roll_with_keep_ok (Game.dice gm) g k Hlen (Hkeep k eq_refl) ltac:(lia))
          as (faces & g' & Heq & Hfaces & _). by exists faces, g'.
      - destruct (roll_all_ok (Game.dice gm) g Hlen ltac:(lia))
          as (faces & g' & Heq & Hfaces & _). by exists faces, g'. }
    destruct Hroll as (faces & g' & -> & Hfaces). by exists faces.
  - assert (Hraise : m (Game.dice gm, g) = ((Game.dice gm, g), Raise NoRollsRemaining)).
    { destruct keep_dice as [k|]; subst m.
      - unfold Dice.roll_with_keep. rewrite decide_False by (by rewrite (Hkeep k eq_refl); auto).
        cbn [fst]. by rewrite decide_True by lia.
      - unfold Dice.roll_all. cbn [fst]. by rewrite decide_True by lia. }
    rewrite Hraise. cbn [fst snd]. by rewrite set_dice_id.
Qed.

Lemma can_roll_predicts_roll_witness :
  Game.wf (Game.init "A") ∧
  (∀ k, Some [true; true; false; false; true] = Some k → length k = 5%nat) ∧
  Game.scorecard
    (Game.roll_dice (Some [true; true; false; false; true]) (Game.init "A", rng_from 1)).1.1
  = Game.scorecard (Game.init "A").
Proof.
  assert (Hwf : Game.wf (Game.init "A")) by (split; [reflexivity | apply wf_init]).
  assert (Hkeep : ∀ k, Some [true; true; false; false; true] = Some k → length k = 5%nat)
    by (intros k [= <-]; reflexivity).
  split; [exact Hwf|]. split; [exact Hkeep|].
  apply (can_roll_predicts_roll (Game.init "A") (rng_from 1) _ Hwf Hkeep).
Defined.

(** *** A complete game *)

(** X17: a complete game no longer changes: [start_new_turn] and
    [roll_dice] raise, [score_category] returns [False],
    [get_possible_scores] returns the empty dict, and any sequence of these
    calls leaves the game and the random source as they were. *)
Theorem completed_game_frozen gm g (ops : list Game.Op) :
  Game.game_complete gm = true →
  Game.calls ops (gm, g) = (gm, g) ∧
  Game.start_new_turn (gm, g) = ((gm, g), Raise GameAlreadyComplete) ∧
  (∀ keep_dice, Game.roll_dice keep_dice (gm, g) = ((gm, g), Raise GameAlreadyComplete)) ∧
  (∀ category, Game.score_category category (gm, g) = ((gm, g), Ok false)) ∧
  Game.get_possible_scores (gm, g) = ((gm, g), Ok ∅).
Proof.
  intros Hdone.
  assert (Hstart : Game.start_new_turn (gm, g) = ((gm, g), Raise GameAlreadyComplete)).
  { unfold Game.start_new_turn. cbn [fst]. by rewrite Hdone. }
  split; [|split; [done|]; split; [intros k; by apply roll_dice_complete|];
           split; [intros c; by apply score_category_complete|];
           by rewrite get_possible_scores_eq, Hdone].
  induction ops as [|op ops IH]; [done|]. cbn [Game.calls foldl].
  replace (Game.call op (gm, g)) with (gm, g); [exact IH|].
  destruct op; cbn [Game.call].
  - by rewrite Hstart.
  - by rewrite roll_dice_complete.
  - by rewrite score_category_complete.
Qed.

Lemma completed_game_frozen_witness :
  let gm := Game.set_game_complete true (Game.init "A") in
  Game.game_complete gm = true ∧
  Game.calls [Game.RollDice None; Game.ScoreCategory "chance"; Game.StartNewTurn]
    (gm, rng_from 1) = (gm, rng_from 1).
Proof.
  split; [reflexivity|].
  apply (completed_game_frozen _ (rng_from 1)
           [Game.RollDice None; Game.ScoreCategory "chance"; Game.StartNewTurn]).
  reflexivity.
Defined.

End game_more.

(** ** The room *)
Section gamestate_more.

Implicit Types (self st : GameState.GameState).

(** *** Whose turn it is *)

Lemma set_turn_index_id self : GameState.set_turn_index (GameState.turn_index self) self = self.
Proof. by destruct self. Qed.

Lemma next_turn_eq self :
  GameState.players self ≠ [] →
  GameState.next_turn self =
    (GameState.set_turn_index
       ((GameState.turn_index self + 1) `mod` Z.of_nat (length (GameState.players self)))
       self, Ok ()).
Proof.
  intros Hp. unfold GameState.next_turn. rewrite decide_False; [done|].
  by destruct (GameState.players self).
Qed.

Lemma next_turn_iter self (k : nat) :
  GameState.players self ≠ [] →
  0 ≤ GameState.turn_index self < Z.of_nat (length (GameState.players self)) →
  Nat.iter k (λ st, (GameState.next_turn st).1) self =
    GameState.set_turn_index
      ((GameState.turn_index self + Z.of_nat k) `mod` Z.of_nat (length (GameState.players self)))
      self.
Proof.
  intros Hp Ht. induction k as [|k IH].
  - change (Nat.iter 0 _ self) with self. rewrite Z.add_0_r, Z.mod_small by done.
    by rewrite set_turn_index_id.
  - rewrite Nat.iter_succ, IH, next_turn_eq by done. cbn [fst].
    cbn [GameState.players GameState.turn_index GameState.set_turn_index].
    unfold GameState.set_turn_index at 1.
    cbn [GameState.players GameState.turn_index GameState.set_turn_index
         GameState.room_code GameState.scores GameState.ready GameState.final_scores
         GameState.winner GameState.keep].
    unfold GameState.set_turn_index. f_equal.
    rewrite Zplus_mod_idemp_l. f_equal. lia.
Qed.

(** X18: in a room with players and a turn index that names one of them,
    [next_turn] called k times returns each time and moves the index k
    places round the player list, changing nothing else; the index keeps
    naming a player, whom [current_player] returns; after as many calls
    as there are players the room is as it was. *)
Theorem next_turn_cycles self (k : nat) :
  GameState.players self ≠ [] →
  0 ≤ GameState.turn_index self < Z.of_nat (length (GameState.players self)) →
  let n := Z.of_nat (length (GameState.players self)) in
  let self' := Nat.iter k (λ st, (GameState.next_turn st).1) self in
  self' = GameState.set_turn_index ((GameState.turn_index self + Z.of_nat k) `mod` n) self ∧
  0 ≤ GameState.turn_index self' < n ∧
  (∃ p, GameState.current_player self' = Ok p ∧ p ∈ GameState.players self) ∧
  (GameState.next_turn self').2 = Ok () ∧
  (k = length (GameState.players self) → self' = self).
Proof.
  intros Hp Ht. cbv zeta. rewrite next_turn_iter by done.
  set (n := Z.of_nat (length (GameState.players self))) in *.
  assert (Hn : 0 < n) by lia.
  pose proof (Z.mod_pos_bound (GameState.turn_index self + Z.of_nat k) n Hn) as Hi.
  set (i := (GameState.turn_index self + Z.of_nat k) `mod` n) in *.
  split; [done|]. split; [done|]. split; [|split].
  - unfold GameState.current_player.
    cbn [GameState.players GameState.turn_index GameState.set_turn_index].
    fold n. rewrite bool_decide_eq_true_2 by lia. rewrite (Z.mod_small i n) by done.
    destruct (lookup_lt_is_Some_2 (GameState.players self) (Z.to_nat i)) as [p Hlook];
      [lia|].
    rewrite Hlook. exists p. split; [done|]. by eapply list_elem_of_lookup_2.
  - by rewrite next_turn_eq.
  - intros ->. subst i. fold n. replace (GameState.turn_index self + n)
      with (GameState.turn_index self + 1 * n) by lia.
    rewrite Z.mod_add, Z.mod_small by lia. apply set_turn_index_id.
Qed.

Lemma next_turn_cycles_witness :
  let self := GameState.set_players ["A"; "B"] (GameState.init "1234") in
  GameState.players self ≠ [] ∧
  0 ≤ GameState.turn_index self < Z.of_nat (length (GameState.players self)) ∧
  Nat.iter 2 (λ st, (GameState.next_turn st).1) self = self.
Proof.
  cbv zeta.
  assert (Hp : GameState.players (GameState.set_players ["A"; "B"] (GameState.init "1234"))
               ≠ []) by discriminate.
  assert (Ht : 0 ≤ GameState.turn_index
                     (GameState.set_players ["A"; "B"] (GameState.init "1234"))
               < Z.of_nat (length (GameState.players
                     (GameState.set_players ["A"; "B"] (GameState.init "1234")))))
    by (cbn; lia).
  split; [exact Hp|]. split; [exact Ht|].
  apply (next_turn_cycles _ 2 Hp Ht). reflexivity.
Defined.

(** X19: with no player in the room [next_turn] raises ZeroDivisionError
    and leaves the room as it was, [current_player] raises IndexError, and
    the room is not full. *)
Theorem no_players_no_turn self :
  GameState.players self = [] →
  GameState.next_turn self = (self, Raise ZeroDivisionError) ∧
  GameState.current_player self = Raise IndexError ∧
  GameState.is_full self = false.
Proof.
  intros Hp. unfold GameState.next_turn, GameState.current_player, GameState.is_full.
  rewrite Hp. cbn. split; [done|]. split; [|done].
  case_bool_decide; [lia | done].
Qed.

Lemma no_players_no_turn_witness :
  GameState.players (GameState.init "1234") = [] ∧
  GameState.next_turn (GameState.init "1234")
    = (GameState.init "1234", Raise ZeroDivisionError).
Proof.
  split; [reflexivity|]. apply (no_players_no_turn (GameState.init "1234")). reflexivity.
Defined.

End gamestate_more.

(** ** The server: rooms, commands and joins *)
Section server_more.

Implicit Types (st room : GameState.GameState) (g : Rng) (msg : Server.CommandMsg).
Implicit Types (game gm : Game.YahtzeeGame) (s : Server.St).

(** *** What a command changes in its room *)

Lemma after_score_room_code st :
  GameState.room_code (Server.after_score st).1 = GameState.room_code st.
Proof.
  rewrite after_score_eq. cbv zeta.
  destruct (decide _); [done|].
  destruct (Server.all_done _); [|done]. by destruct (PyDict.max_key _).
Qed.

Lemma after_score_ready st :
  GameState.ready (Server.after_score st).1 = GameState.ready st.
Proof.
  rewrite after_score_eq. cbv zeta.
  destruct (decide _); [done|].
  destruct (Server.all_done _); [|done]. by destruct (PyDict.max_key _).
Qed.


(** The dict of games after a command: the entry of the player named holds
    the game the command left, which is the game as it was or the game a
    method call left; the other entries are as before. *)
Lemma command_scores msg st g game :
  PyDict.getitem (GameState.scores st) (Server.player msg) = Some game →
  ∃ game',
    GameState.scores (Server.command_in_room msg (st, g)).1.1
      = PyDict.setitem (GameState.scores st) (Server.player msg) game' ∧
    (game' = game ∨ ∃ op, game' = (Game.call op (game, g)).1).
Proof.
  intros Hp.
  destruct (decide (Server.command msg = "roll")) as [Hroll|Hroll].
  { rewrite (command_roll_eq _ _ _ _ Hroll Hp). cbv zeta.
    eexists. split; [reflexivity|]. right.
    by exists (Game.RollDice (default (Some (replicate 5 false)) (Server.keep msg))). }
  destruct (decide (Server.command msg = "score")) as [Hscore|Hscore].
  2: { rewrite (command_other_eq _ _ _ _ Hroll Hscore Hp). exists game.
       split; [|by left]. cbn [fst]. by rewrite setitem_getitem_id. }
  destruct (Server.category msg) as [category|] eqn:Hcat.
  2: { rewrite (command_score_no_category _ _ _ _ Hscore Hcat Hp). exists game.
       split; [|by left]. cbn [fst]. by rewrite setitem_getitem_id. }
  rewrite (command_score_eq _ _ _ _ _ Hscore Hcat Hp). cbv zeta.
  exists (Game.call (Game.ScoreCategory category) (game, g)).1.
  split; [|right; by eexists]. cbn [Game.call].
  destruct (Game.score_category _ _) as [[game' g'] [success|e]]; cbn [fst snd]; [|done].
  by rewrite after_score_scores.
Qed.

Lemma command_room_code msg st g :
  GameState.room_code (Server.command_in_room msg (st, g)).1.1 = GameState.room_code st.
Proof.
  destruct (PyDict.getitem (GameState.scores st) (Server.player msg)) as [game|] eqn:Hp;
    [|by rewrite command_unknown_player].
  destruct (decide (Server.command msg = "roll")) as [Hroll|Hroll];
    [by rewrite (command_roll_eq _ _ _ _ Hroll Hp)|].
  destruct (decide (Server.command msg = "score")) as [Hscore|Hscore];
    [|by rewrite (command_other_eq _ _ _ _ Hroll Hscore Hp)].
  destruct (Server.category msg) as [category|] eqn:Hcat;
    [|by rewrite (command_score_no_category _ _ _ _ Hscore Hcat Hp)].
  rewrite (command_score_eq _ _ _ _ _ Hscore Hcat Hp). cbv zeta.
  destruct (Game.score_category _ _) as [[game' g'] [success|e]]; cbn [fst snd]; [|done].
  by rewrite after_score_room_code.
Qed.

Lemma command_ready msg st g :
  GameState.ready (Server.command_in_room msg (st, g)).1.1 = GameState.ready st.
Proof.
  destruct (PyDict.getitem (GameState.scores st) (Server.player msg)) as [game|] eqn:Hp;
    [|by rewrite command_unknown_player].
  destruct (decide (Server.command msg = "roll")) as [Hroll|Hroll];
    [by rewrite (command_roll_eq _ _ _ _ Hroll Hp)|].
  destruct (decide (Server.command msg = "score")) as [Hscore|Hscore];
    [|by rewrite (command_other_eq _ _ _ _ Hroll Hscore Hp)].
  destruct (Server.category msg) as [category|] eqn:Hcat;
    [|by rewrite (command_score_no_category _ _ _ _ Hscore Hcat Hp)].
  rewrite (command_score_eq _ _ _ _ _ Hscore Hcat Hp). cbv zeta.
  destruct (Game.score_category _ _) as [[game' g'] [success|e]]; cbn [fst snd]; [|done].
  by rewrite after_score_ready.
Qed.

Lemma command_turn_index msg st g :
  GameState.players st ≠ [] →
  let t' := GameState.turn_index (Server.command_in_room msg (st, g)).1.1 in
  t' = GameState.turn_index st ∨
  t' = (GameState.turn_index st + 1) `mod` Z.of_nat (length (GameState.players st)).
Proof.
  intros Hplayers. cbv zeta.
  destruct (decide (Server.command msg = "score")) as [Hscore|Hscore];
    [|left; by apply command_keeps_turn_index].
  destruct (PyDict.getitem (GameState.scores st) (Server.player msg)) as [game|] eqn:Hp;
    [|left; by rewrite command_unknown_player].
  destruct (Server.category msg) as [category|] eqn:Hcat;
    [|left; by rewrite (command_score_no_category _ _ _ _ Hscore Hcat Hp)].
  rewrite (command_score_eq _ _ _ _ _ Hscore Hcat Hp). cbv zeta.
  destruct (Game.score_category _ _) as [[game' g'] [success|e]]; cbn [fst snd];
    [right|by left].
  by rewrite after_score_turn_index.
Qed.

(** *** The shape of the rooms *)

Lemma command_room_shape code msg st g :
  Server.room_shape code st →
  Server.room_shape code (Server.command_in_room msg (st, g)).1.1.
Proof.
  intros (Hcode & Hlen & Hturn & Hmem & Hgames).
  assert (Hplayers : GameState.players st ≠ [])
    by (destruct (GameState.players st); [cbn in Hlen; lia | done]).
  split; [by rewrite command_room_code|]. rewrite command_players.
  split; [done|]. split.
  { destruct (command_turn_index msg st g Hplayers) as [->| ->]; [done|].
    apply Z.mod_pos_bound. lia. }
  destruct (PyDict.getitem (GameState.scores st) (Server.player msg)) as [game|] eqn:Hp;
    [|by rewrite command_unknown_player].
  destruct (command_scores msg st g game Hp) as (game' & -> & Hgame').
  split.
  - intros p. rewrite Hmem. destruct (decide (Server.player msg = p)) as [<-|Hne].
    + rewrite getitem_setitem_eq, Hp. by split; eauto.
    + by rewrite getitem_setitem_ne.
  - intros p gm. destruct (decide (Server.player msg = p)) as [<-|Hne].
    + rewrite getitem_setitem_eq. intros [= <-].
      pose proof (Hgames _ _ Hp) as Hgame.
      destruct Hgame' as [->|[op ->]]; [done|].
      by apply (call_consistent op (game, g)).
    + rewrite getitem_setitem_ne by done. apply Hgames.
Qed.

Lemma handle_rooms_shape req s :
  (∀ code room, s.1 !! code = Some room → Server.room_shape code room) →
  ∀ code room, (Server.handle req s).1.1 !! code = Some room → Server.room_shape code room.
Proof.
  intros Hs. destruct s as [rooms g].
  destruct req as [room_code name|name code|msg]; cbn [Server.handle].
  - intros code' room'. cbn [Server.handle_create fst]. rewrite lookup_insert.
    case_decide as Hc; [|by apply Hs]. intros [= <-]. subst code'.
    split; [done|]. split; [cbn; lia|]. split; [cbn; lia|]. split.
    + intros p. cbn. rewrite list_elem_of_singleton. case_decide as Hd.
      * split; [by eauto | done].
      * split; [by intros -> | by intros [? ?]].
    + intros p gm. cbn. case_decide; [|done]. intros [= <-]. apply init_consistent.
  - destruct (rooms !! code) as [room|] eqn:Hroom;
      [|by rewrite handle_join_refused by by left].
    destruct (GameState.is_full room) eqn:Hfull;
      [by rewrite handle_join_refused by (right; by exists room)|].
    intros code' room'. unfold Server.handle_join. rewrite Hroom, Hfull.
    cbn [fst]. rewrite lookup_insert.
    case_decide as Hc; [|by apply Hs]. intros [= <-]. subst code'.
    destruct (Hs code room Hroom) as (Hcode & Hlen & Hturn & Hmem & Hgames).
    apply bool_decide_eq_false in Hfull.
    split; [done|]. cbn [GameState.players GameState.set_ready GameState.set_scores
      GameState.set_players GameState.turn_index GameState.scores].
    rewrite length_app. cbn [length].
    split; [lia|]. split; [lia|]. split.
    + intros p. rewrite elem_of_app, list_elem_of_singleton, Hmem.
      destruct (decide (name = p)) as [<-|Hne].
      * rewrite getitem_setitem_eq. split; eauto.
      * rewrite getitem_setitem_ne by done. split; [intros [?|?]; done | by left].
    + intros p gm. destruct (decide (name = p)) as [<-|Hne].
      * rewrite getitem_setitem_eq. intros [= <-]. apply init_consistent.
      * rewrite getitem_setitem_ne by done. apply Hgames.
  - unfold Server.handle_command. destruct (rooms !! Server.room msg) as [st|] eqn:Hroom;
      [|by apply Hs].
    pose proof (command_room_shape _ msg st g (Hs _ _ Hroom)) as Hok.
    destruct (Server.command_in_room msg (st, g)) as [[st' g'] r].
    intros code' room'. cbn [fst]. rewrite lookup_insert.
    case_decide as Hc; [|by apply Hs]. intros [= <-]. by subst code'.
Qed.

Lemma run_rooms_shape reqs s :
  (∀ code room, s.1 !! code = Some room → Server.room_shape code room) →
  ∀ code room, (Server.run reqs s).1 !! code = Some room → Server.room_shape code room.
Proof.
  revert s. induction reqs as [|req reqs IH]; intros s Hs; [done|].
  cbn [Server.run foldl]. apply IH. by apply handle_rooms_shape.
Qed.

Lemma reachable_shape reqs g code room :
  (Server.run reqs (∅, g)).1 !! code = Some room → Server.room_shape code room.
Proof.
  apply run_rooms_shape. intros code' room'. cbn [fst]. by rewrite lookup_empty.
Qed.

(** X20: every room the server holds, after any sequence of create, join
    and command requests from an empty registry, is registered under its
    own code, has one or two players, a turn index that names one of them,
    and a game for each player and no one else; and every game is
    consistent: five faces from 1 to 6, a roll budget from 0 to 3, a turn
    counter one more than the number of categories scored, and complete
    exactly when its scorecard is. *)
Theorem reachable_rooms_shape reqs g code room :
  (Server.run reqs (∅, g)).1 !! code = Some room → Server.room_shape code room.
Proof. apply reachable_shape. Qed.

Lemma reachable_rooms_shape_witness :
  let room := Server.room_1234 Server.lobby in
  Server.lobby.1 !! "1234" = Some room ∧ Server.room_shape "1234" room.
Proof.
  cbv zeta.
  assert (Hroom : (Server.run [Server.Create "1234" "A"; Server.Join "B" "1234"]
                     (∅, rng_from 1)).1 !! "1234"
                  = Some (Server.room_1234 Server.lobby)).
  { apply lookup_default. vm_compute. discriminate. }
  split; [exact Hroom|].
  apply (reachable_rooms_shape _ (rng_from 1) "1234" _ Hroom).
Defined.

(** *** Which commands raise *)





(** *** Joining under a name that is taken *)

(** X24: a join to a room that is not full, under a name that has a game
    in the room, is accepted: the name is added to the players once more,
    the game under that name is replaced by a new one, and the dict of
    games keeps its keys and the other players' games. *)
Theorem join_under_taken_name name code s room game :
  s.1 !! code = Some room → GameState.is_full room = false →
  PyDict.getitem (GameState.scores room) name = Some game →
  ∃ room',
    Server.handle (Server.Join name code) s
      = ((<[code := room']> s.1, s.2), Ok (Server.Joined code)) ∧
    GameState.players room' = GameState.players room ++ [name] ∧
    PyDict.getitem (GameState.scores room') name = Some (Game.init name) ∧
    PyDict.keys (GameState.scores room') = PyDict.keys (GameState.scores room) ∧
    (∀ p, p ≠ name →
       PyDict.getitem (GameState.scores room') p
       = PyDict.getitem (GameState.scores room) p).
Proof.
  destruct s as [rooms g]. cbn [fst snd Server.handle]. intros Hroom Hfull Hgame.
  destruct (handle_join_eq name code rooms g room Hroom Hfull)
    as (room' & -> & Hplayers & Hscores & _).
  exists room'. split; [done|]. split; [done|]. rewrite Hscores.
  split; [apply getitem_setitem_eq|]. split; [apply keys_setitem_old; by eexists|].
  intros p Hne. by rewrite getitem_setitem_ne.
Qed.

Lemma join_under_taken_name_witness :
  let s := Server.run [Server.Create "1234" "A";
                       Server.Command (Server.roll "A" [false; false; false; false; false])]
             (∅, rng_from 1) in
  let room := Server.room_1234 s in
  let game := default (Game.init "") (PyDict.getitem (GameState.scores room) "A") in
  s.1 !! "1234" = Some room ∧ GameState.is_full room = false ∧
  PyDict.getitem (GameState.scores room) "A" = Some game ∧
  ∃ room',
    Server.handle (Server.Join "A" "1234") s
      = ((<[ "1234" := room']> s.1, s.2), Ok (Server.Joined "1234")) ∧
    GameState.players room' = GameState.players room ++ ["A"] ∧
    PyDict.getitem (GameState.scores room') "A" = Some (Game.init "A").
Proof.
  cbv zeta.
  set (s := Server.run [Server.Create "1234" "A";
                        Server.Command (Server.roll "A" [false; false; false; false; false])]
              (∅, rng_from 1)).
  assert (Hroom : s.1 !! "1234" = Some (Server.room_1234 s)).
  { apply lookup_default. vm_compute. discriminate. }
  assert (Hfull : GameState.is_full (Server.room_1234 s) = false)
    by (vm_compute; reflexivity).
  assert (Hgame : PyDict.getitem (GameState.scores (Server.room_1234 s)) "A"
                  = Some (default (Game.init "")
                            (PyDict.getitem (GameState.scores (Server.room_1234 s)) "A"))).
  { apply lookup_default. vm_compute. discriminate. }
  split; [exact Hroom|]. split; [exact Hfull|]. split; [exact Hgame|].
  destruct (join_under_taken_name "A" "1234" s _ _ Hroom Hfull Hgame)
    as (room' & Heq & Hplayers & Hnew & _).
  exists room'. split; [exact Heq|]. split; [exact Hplayers | exact Hnew].
Defined.

End server_more.

(** ** The server: a command on a connection *)
Section connections.

Implicit Types (st : GameState.GameState) (g : Rng) (msg : Server.CommandMsg).
Implicit Types (conn : Server.Conn) (cs : list Server.Conn).
Implicit Types (room_data : Server.RoomData) (rooms : gmap string Server.RoomData).

(** *** The end of a connection *)

Lemma list_remove_absent conn cs : conn ∉ cs → Server.list_remove conn cs = cs.
Proof.
  induction cs as [|c cs IH]; [done|]. intros [Hne Hcs]%not_elem_of_cons.
  cbn. rewrite decide_False by done. by rewrite IH.
Qed.

Lemma list_remove_nil conn cs :
  conn ∈ cs → Server.list_remove conn cs = [] → cs = [conn].
Proof.
  destruct cs as [|c cs]; [by intros ?%elem_of_nil|]. cbn.
  case_decide as Hc; [by intros _ ->; subst|done].
Qed.

Lemma room_data_eta room_data :
  {| Server.clients := Server.clients room_data; Server.state := Server.state room_data |}
  = room_data.
Proof. by destruct room_data. Qed.

(** A room after the [finally] block: deleted when the connection was the
    only one it listed; otherwise it keeps its state and loses the first
    entry of the connection, if it has one. *)
Lemma cleanup_lookup conn rooms (code : string) :
  match rooms !! code with
  | None => Server.cleanup conn rooms !! code = None
  | Some room_data =>
      if decide (Server.clients room_data = [conn])
      then Server.cleanup conn rooms !! code = None
      else Server.cleanup conn rooms !! code =
             Some {| Server.clients := Server.list_remove conn (Server.clients room_data);
                     Server.state := Server.state room_data |} ∧
           (conn ∈ Server.clients room_data →
            Server.list_remove conn (Server.clients room_data) ≠ []) ∧
           (conn ∉ Server.clients room_data →
            Server.list_remove conn (Server.clients room_data) = Server.clients room_data)
  end.
Proof.
  unfold Server.cleanup. rewrite lookup_omap.
  destruct (rooms !! code) as [room_data|]; [|done]. cbn [option_bind mbind].
  destruct (decide (Server.clients room_data = [conn])) as [Hone|Hmore].
  - rewrite Hone. rewrite decide_True by (by apply list_elem_of_singleton).
    cbv zeta. cbn [Server.list_remove]. rewrite (decide_True (P := conn = conn)) by done.
    by rewrite decide_True.
  - destruct (decide (conn ∈ Server.clients room_data)) as [Hin|Hout]; cbv zeta.
    + destruct (decide (Server.list_remove conn (Server.clients room_data) = []))
        as [Hnil|Hcons]; [by destruct Hmore; apply list_remove_nil|].
      split; [done|]. split; [done|]. done.
    + rewrite list_remove_absent by done. rewrite room_data_eta.
      split; [done|]. split; [done|]. done.
Qed.

(** *** A command on a connection *)

Lemma client_command_unknown_room sent conn msg rooms g :
  rooms !! Server.room msg = None →
  Server.client_command sent conn msg (rooms, g)
    = ((Server.cleanup conn rooms, g), Raise (KeyError (Server.room msg))).
Proof.
  intros Hroom. unfold Server.client_command, mbind, M_bind, Server.command_block.
  by rewrite Hroom.
Qed.

(** With the room in the registry: the block runs in the state of the room;
    when it raises the [finally] block follows, otherwise the broadcast,
    which drops the clients it could not send to and deletes the room when
    none is left. *)
Lemma client_command_eq sent conn msg rooms g room_data :
  rooms !! Server.room msg = Some room_data →
  let out := Server.command_in_room msg (Server.state room_data, g) in
  let rooms1 :=
    <[Server.room msg := {| Server.clients := Server.clients room_data;
                            Server.state := out.1.1 |}]> rooms in
  Server.client_command sent conn msg (rooms, g) =
    match out.2 with
    | Raise e => ((Server.cleanup conn rooms1, out.1.2), Raise e)
    | Ok _ =>
        let cs := foldl (λ cs dc, Server.list_remove dc cs) (Server.clients room_data)
                    (Server.disconnected_clients sent 0 (Server.clients room_data)) in
        ((if decide (cs = []) then delete (Server.room msg) rooms1
          else <[Server.room msg := {| Server.clients := cs; Server.state := out.1.1 |}]>
                 rooms1, out.1.2), Ok Server.Update)
    end.
Proof.
  intros Hroom. cbv zeta.
  unfold Server.client_command, mbind, M_bind, Server.command_block. rewrite Hroom.
  destruct (Server.command_in_room msg (Server.state room_data, g)) as [[st' g'] [[]|e]];
    cbn [fst snd]; [|done].
  unfold zoom, Server.broadcast_state. cbn [fst snd].
  rewrite lookup_insert_eq. cbn [Server.clients Server.state].
  by destruct (decide _).
Qed.

(** X22: a command received on a connection that names a room the server
    does not hold raises KeyError for the room; one that names a player with
    no game in the room raises KeyError for the player; a score command
    without a category raises KeyError for the category.  In each case the
    block changes no room and draws nothing, and the exception ends the
    connection: the [finally] block leaves the registry with every room
    that listed only this connection deleted, and every other room with the
    state it had and without the first entry of the connection in its
    clients. *)
Theorem command_key_errors sent conn msg (net : Server.Net) :
  let out := Server.client_command sent conn msg net in
  (match net.1 !! Server.room msg with
   | None => out = ((Server.cleanup conn net.1, net.2), Raise (KeyError (Server.room msg)))
   | Some room_data =>
       match PyDict.getitem (GameState.scores (Server.state room_data))
               (Server.player msg) with
       | None =>
           out = ((Server.cleanup conn net.1, net.2), Raise (KeyError (Server.player msg)))
       | Some _ =>
           Server.command msg = "score" → Server.category msg = None →
           out = ((Server.cleanup conn net.1, net.2), Raise (KeyError "category"))
       end
   end) ∧
  (∀ code : string,
     match net.1 !! code with
     | None => Server.cleanup conn net.1 !! code = None
     | Some room_data =>
         if decide (Server.clients room_data = [conn])
         then Server.cleanup conn net.1 !! code = None
         else Server.cleanup conn net.1 !! code =
                Some {| Server.clients :=
                          Server.list_remove conn (Server.clients room_data);
                        Server.state := Server.state room_data |} ∧
              (conn ∈ Server.clients room_data →
               Server.list_remove conn (Server.clients room_data) ≠ []) ∧
              (conn ∉ Server.clients room_data →
               Server.list_remove conn (Server.clients room_data)
               = Server.clients room_data)
     end).
Proof.
  cbv zeta. destruct net as [rooms g]. cbn [fst snd].
  split; [|intros code; apply cleanup_lookup].
  destruct (rooms !! Server.room msg) as [room_data|] eqn:Hroom;
    [|by apply client_command_unknown_room].
  destruct (PyDict.getitem (GameState.scores (Server.state room_data)) (Server.player msg))
    as [gm|] eqn:Hp.
  - intros Hscore Hcat. rewrite (client_command_eq _ _ _ _ _ _ Hroom). cbv zeta.
    rewrite (command_score_no_category _ _ _ _ Hscore Hcat Hp). cbn [fst snd].
    by rewrite room_data_eta, insert_id.
  - rewrite (client_command_eq _ _ _ _ _ _ Hroom). cbv zeta.
    rewrite command_unknown_player by done. cbn [fst snd].
    by rewrite room_data_eta, insert_id.
Qed.

Lemma command_key_errors_witness :
  let net : Server.Net :=
    ({[ "1234" := {| Server.clients := [7%nat];
                     Server.state := Server.room_1234 Server.lobby |} ]}, rng_from 1) in
  let msg := {| Server.room := "9999"; Server.player := "A"; Server.command := "roll";
                Server.keep := None; Server.category := None |} in
  let out := Server.client_command (λ _, true) 7%nat msg net in
  out.2 = Raise (KeyError "9999") ∧ out.1.2 = rng_from 1 ∧ out.1.1 !! "1234" = None.
Proof.
  cbv zeta.
  set (net := ({[ "1234" := {| Server.clients := [7%nat];
                               Server.state := Server.room_1234 Server.lobby |} ]},
               rng_from 1) : Server.Net).
  set (msg := {| Server.room := "9999"; Server.player := "A"; Server.command := "roll";
                 Server.keep := None; Server.category := None |}).
  destruct (command_key_errors (λ _, true) 7%nat msg net) as [Hout Hclean].
  cbv zeta in Hout.
  change (net.1 !! Server.room msg) with
    (({[ "1234" := {| Server.clients := [7%nat];
                      Server.state := Server.room_1234 Server.lobby |} ]}
        : gmap string Server.RoomData) !! "9999") in Hout.
  rewrite lookup_singleton_ne in Hout by done. rewrite Hout. cbn [fst snd].
  split; [done|]. split; [done|].
  specialize (Hclean "1234").
  change (net.1 !! "1234") with
    (({[ "1234" := {| Server.clients := [7%nat];
                      Server.state := Server.room_1234 Server.lobby |} ]}
        : gmap string Server.RoomData) !! "1234") in Hclean.
  rewrite lookup_singleton_eq in Hclean. cbn [Server.clients] in Hclean.
  by rewrite decide_True in Hclean by done.
Defined.

(** X23: what a command received on a connection does to the registry.
    A room other than the one named is untouched when the command returns;
    when it raises, the room is as the [finally] block leaves it, with the
    state it had or deleted.  The room named, while it is registered, keeps
    its room code, its players, its ready flag and the keys of its dict of
    games, and the game of every player but the one named.  No room
    appears.  A command for a room the server does not hold raises KeyError
    and only ends the connection. *)
Theorem command_touches_one_game sent conn msg (net : Server.Net) :
  let out := Server.client_command sent conn msg net in
  (∀ code : string, code ≠ Server.room msg →
     out.1.1 !! code =
       match out.2 with
       | Ok _ => net.1 !! code
       | Raise _ => Server.cleanup conn net.1 !! code
       end) ∧
  (∀ (code : string) room_data',
     out.1.1 !! code = Some room_data' → code ≠ Server.room msg →
     ∃ room_data, net.1 !! code = Some room_data ∧
                  Server.state room_data' = Server.state room_data) ∧
  (∀ room_data room_data',
     net.1 !! Server.room msg = Some room_data →
     out.1.1 !! Server.room msg = Some room_data' →
     GameState.room_code (Server.state room_data')
       = GameState.room_code (Server.state room_data) ∧
     GameState.players (Server.state room_data')
       = GameState.players (Server.state room_data) ∧
     GameState.ready (Server.state room_data') = GameState.ready (Server.state room_data) ∧
     PyDict.keys (GameState.scores (Server.state room_data'))
       = PyDict.keys (GameState.scores (Server.state room_data)) ∧
     ∀ p, p ≠ Server.player msg →
          PyDict.getitem (GameState.scores (Server.state room_data')) p
          = PyDict.getitem (GameState.scores (Server.state room_data)) p) ∧
  (∀ code : string, is_Some (out.1.1 !! code) → is_Some (net.1 !! code)) ∧
  (net.1 !! Server.room msg = None →
   out = ((Server.cleanup conn net.1, net.2), Raise (KeyError (Server.room msg)))).
Proof.
  cbv zeta. destruct net as [rooms g]. cbn [fst snd].
  assert (Hclean : ∀ code room_data',
            Server.cleanup conn rooms !! code = Some room_data' →
            ∃ room_data, rooms !! code = Some room_data ∧
                         Server.state room_data' = Server.state room_data).
  { intros code rd' Hrd'. pose proof (cleanup_lookup conn rooms code) as Hc.
    destruct (rooms !! code) as [rd|]; [|congruence]. exists rd. split; [done|].
    destruct (decide _); [congruence|]. destruct Hc as [Hc _].
    rewrite Hc in Hrd'. by injection Hrd' as <-. }
  destruct (rooms !! Server.room msg) as [room_data|] eqn:Hroom.
  2: { rewrite client_command_unknown_room by done. cbn [fst snd].
       split; [done|]. split; [intros code rd' Hrd' _; by apply Hclean|].
       split; [done|]. split; [|done].
       intros code [rd' Hrd']. destruct (Hclean _ _ Hrd') as (rd & -> & _). by eexists. }
  rewrite (client_command_eq _ _ _ _ _ _ Hroom). cbv zeta.
  pose proof (command_room_code msg (Server.state room_data) g) as Hcode.
  pose proof (command_players msg (Server.state room_data) g) as Hplayers.
  pose proof (command_ready msg (Server.state room_data) g) as Hready.
  pose proof (command_keys msg (Server.state room_data) g) as Hkeys.
  assert (Hothers : ∀ p, p ≠ Server.player msg →
            PyDict.getitem
              (GameState.scores
                 (Server.command_in_room msg (Server.state room_data, g)).1.1) p
            = PyDict.getitem (GameState.scores (Server.state room_data)) p).
  { intros p Hne.
    destruct (PyDict.getitem (GameState.scores (Server.state room_data)) (Server.player msg))
      as [gm|] eqn:Hp; [|by rewrite command_unknown_player].
    destruct (command_scores msg _ g gm Hp) as (gm' & -> & _).
    by rewrite getitem_setitem_ne. }
  destruct (Server.command_in_room msg (Server.state room_data, g)) as [[st' g'] [[]|e]];
    cbn [fst snd] in *.
  - (* the block returned: the broadcast follows *)
    set (cs := foldl _ _ _).
    assert (Hne : ∀ code : string, code ≠ Server.room msg →
              (if decide (cs = [])
               then delete (Server.room msg)
                      (<[Server.room msg :=
                           {| Server.clients := Server.clients room_data;
                              Server.state := st' |}]> rooms)
               else <[Server.room msg := {| Server.clients := cs; Server.state := st' |}]>
                      (<[Server.room msg :=
                           {| Server.clients := Server.clients room_data;
                              Server.state := st' |}]> rooms)) !! code
              = rooms !! code).
    { intros code Hc. destruct (decide _).
      - by rewrite lookup_delete_ne, lookup_insert_ne.
      - by rewrite !lookup_insert_ne. }
    split; [exact Hne|]. split; [intros code rd' Hrd' Hc; rewrite Hne in Hrd' by done;
                                 by exists rd'|].
    split.
    + intros rd rd' [= <-]. destruct (decide _).
      * by rewrite lookup_delete_eq.
      * rewrite lookup_insert_eq. by intros [= <-].
    + split; [|done]. intros code Hsome.
      destruct (decide (code = Server.room msg)) as [->|Hc]; [by rewrite Hroom|].
      by rewrite Hne in Hsome.
  - (* the block raised: the connection ends *)
    assert (Hne : ∀ code : string, code ≠ Server.room msg →
              Server.cleanup conn
                (<[Server.room msg :=
                     {| Server.clients := Server.clients room_data;
                        Server.state := st' |}]> rooms) !! code
              = Server.cleanup conn rooms !! code).
    { intros code Hc. unfold Server.cleanup. by rewrite !lookup_omap, lookup_insert_ne. }
    split; [exact Hne|].
    split; [intros code rd' Hrd' Hc; rewrite Hne in Hrd' by done; by apply Hclean|].
    split.
    + intros rd rd' [= <-] Hrd'.
      pose proof (cleanup_lookup conn
                    (<[Server.room msg :=
                         {| Server.clients := Server.clients room_data;
                            Server.state := st' |}]> rooms) (Server.room msg)) as Hc.
      rewrite lookup_insert_eq in Hc. cbn [Server.clients Server.state] in Hc.
      destruct (decide _); [congruence|]. destruct Hc as [Hc _].
      rewrite Hc in Hrd'. by injection Hrd' as <-.
    + split; [|done]. intros code Hsome.
      destruct (decide (code = Server.room msg)) as [->|Hc]; [by rewrite Hroom|].
      rewrite Hne in Hsome by done. destruct Hsome as [rd' Hrd'].
      destruct (Hclean _ _ Hrd') as (rd & -> & _). by eexists.
Qed.

Lemma command_touches_one_game_witness :
  let net : Server.Net :=
    (<[ "5678" := {| Server.clients := [7%nat];
                     Server.state := Server.room_1234 Server.lobby |} ]>
       {[ "1234" := {| Server.clients := [8%nat];
                       Server.state := Server.room_1234 Server.lobby |} ]}, rng_from 1) in
  let msg := {| Server.room := "1234"; Server.player := "A"; Server.command := "score";
                Server.keep := None; Server.category := None |} in
  let out := Server.client_command (λ _, true) 7%nat msg net in
  let out' := Server.client_command (λ _, true) 7%nat (Server.score "A" "chance") net in
  (out.2 = Raise (KeyError "category") ∧ out.1.1 !! "5678" = None) ∧
  (out'.2 = Ok Server.Update ∧ out'.1.1 !! "5678" = net.1 !! "5678").
Proof.
  cbv zeta.
  set (net := (<[ "5678" := {| Server.clients := [7%nat];
                               Server.state := Server.room_1234 Server.lobby |} ]>
                 {[ "1234" := {| Server.clients := [8%nat];
                                 Server.state := Server.room_1234 Server.lobby |} ]},
               rng_from 1) : Server.Net).
  set (msg := {| Server.room := "1234"; Server.player := "A"; Server.command := "score";
                 Server.keep := None; Server.category := None |}).
  destruct (command_touches_one_game (λ _, true) 7%nat msg net) as [Hother _].
  destruct (command_touches_one_game (λ _, true) 7%nat (Server.score "A" "chance") net)
    as [Hother' _].
  cbv zeta in Hother, Hother'.
  assert (Hout : (Server.client_command (λ _, true) 7%nat msg net).2
                 = Raise (KeyError "category")) by (vm_compute; reflexivity).
  assert (Hout' : (Server.client_command (λ _, true) 7%nat
                     (Server.score "A" "chance") net).2 = Ok Server.Update)
    by (vm_compute; reflexivity).
  split.
  - split; [exact Hout|]. rewrite (Hother "5678") by done. rewrite Hout.
    pose proof (cleanup_lookup 7%nat net.1 "5678") as Hc.
    change (net.1 !! "5678") with
      ((<[ "5678" := {| Server.clients := [7%nat];
                        Server.state := Server.room_1234 Server.lobby |} ]>
          ({[ "1234" := {| Server.clients := [8%nat];
                           Server.state := Server.room_1234 Server.lobby |} ]}
             : gmap string Server.RoomData)) !! "5678") in Hc.
    rewrite lookup_insert_eq in Hc. cbn [Server.clients] in Hc.
    by rewrite decide_True in Hc by done.
  - split; [exact Hout'|]. rewrite (Hother' "5678") by done. by rewrite Hout'.
Defined.

End connections.
